(** * Pandora legacy console bot ([src/pandora/bots/legacy.py])

    A shallow embedding of the interactive console client: the two classes
    [ChatPrompt] and [State], and the methods of [ChatBot].

    Python objects live in a store and are referred to by location, so that
    two references to one object see each other's assignments.  The console,
    the [rich] prompts, [uuid.uuid4] and the [ChatGPT] client are the
    environment of the program: what they return is read from a script, what
    the program sends to them is logged. *)

From Stdlib Require Import ZArith Ascii String.
From stdpp Require Import base option list strings pretty gmap.


(** ** Python strings

    A character is a code point below 256. *)

Definition nl : string := String "010"%char "".
Definition tab : string := String "009"%char "".

(** [str.isspace] on one character. *)
Definition is_space (c : ascii) : bool :=
  let n := N_of_ascii c in
  ((9 <=? n) && (n <=? 13) || (28 <=? n) && (n <=? 32)
   || (n =? 133) || (n =? 160))%N.

(** [str.lower] on one character. *)
Definition lower_char (c : ascii) : ascii :=
  let n := N_of_ascii c in
  if ((65 <=? n) && (n <=? 90)
      || (192 <=? n) && (n <=? 222) && negb (n =? 215))%N
  then ascii_of_N (n + 32) else c.

Fixpoint lower (s : string) : string :=
  match s with
  | "" => ""
  | String c s' => String (lower_char c) (lower s')
  end.

Fixpoint lstrip (s : string) : string :=
  match s with
  | "" => ""
  | String c s' => if is_space c then lstrip s' else s
  end.

Definition rstrip (s : string) : string := String.rev (lstrip (String.rev s)).

Definition strip (s : string) : string := rstrip (lstrip s).

(** No character of [s] is white space. *)
Fixpoint no_space (s : string) : bool :=
  match s with
  | "" => true
  | String c s' => negb (is_space c) && no_space s'
  end.

(** [s[p:]] for [p >= 0]. *)
Fixpoint slice_from (p : nat) (s : string) : string :=
  match p, s with
  | O, _ => s
  | S _, "" => ""
  | S p', String _ s' => slice_from p' s'
  end.

(** [sep.join(l)]. *)
Fixpoint join (sep : string) (l : list string) : string :=
  match l with
  | [] => ""
  | [x] => x
  | x :: l' => x +:+ sep +:+ join sep l'
  end.

(** [bool(s)] for a string. *)
Definition nonempty (s : string) : bool :=
  match s with "" => false | _ => true end.

(** [bool(x)] for an optional string: [None] and [''] are false. *)
Definition truthy_str (x : option string) : bool :=
  match x with Some s => nonempty s | None => false end.

(** [str(x)] / [format] of an optional string. *)
Definition str_opt (x : option string) : string :=
  match x with Some s => s | None => "None" end.

(** [int(s)] on a string of decimal digits. *)
Definition digit_of (c : ascii) : option Z :=
  let n := N_of_ascii c in
  if ((48 <=? n) && (n <=? 57))%N then Some (Z.of_N (n - 48)) else None.

Fixpoint int_digits (acc : Z) (s : string) : option Z :=
  match s with
  | "" => Some acc
  | String c s' =>
      match digit_of c with
      | Some d => int_digits (10 * acc + d) s'
      | None => None
      end
  end.

Definition int_of (s : string) : option Z :=
  match s with "" => None | _ => int_digits 0 s end.

(** [l[i]] with Python's negative indices. *)
Definition getitem {A} (l : list A) (i : Z) : option A :=
  if (0 <=? i)%Z then l !! Z.to_nat i
  else if (- Z.of_nat (length l) <=? i)%Z then l !! Z.to_nat (Z.of_nat (length l) + i)
  else None.

(** ** Values decoded from JSON and their truth value *)

#[local] Unset Elimination Schemes.
Inductive pyval :=
| PyNone
| PyBool (b : bool)
| PyInt (z : Z)
| PyStr (s : string)
| PyList (l : list pyval)
| PyDict (d : list (string * pyval)).
#[local] Set Elimination Schemes.

Definition truthy (v : pyval) : bool :=
  match v with
  | PyNone => false
  | PyBool b => b
  | PyInt z => negb (z =? 0)%Z
  | PyStr s => nonempty s
  | PyList l => match l with [] => false | _ => true end
  | PyDict d => match d with [] => false | _ => true end
  end.

(** ** Payloads of the [ChatGPT] client *)

(** A message object: [id], [content.parts[0]], [end_turn], [author.role]
    (when the key [author] is present), [role], [metadata.model_slug] (when
    the key is present). *)
Record Message := {
  msg_id : string;
  msg_part0 : string;
  msg_end_turn : bool;
  msg_author_role : option string;
  msg_role : option string;
  msg_model_slug : option string
}.

(** One element of the stream returned by [talk] / [regenerate_reply]. *)
Record Event := {
  ev_error : pyval;
  ev_message : option Message;
  ev_conversation_id : option string
}.

Record Node := {
  node_id : string;
  node_parent : option string;
  node_message : option Message
}.

Record Conversation := {
  conv_title : string;
  conv_current_node : string;
  conv_mapping : gmap string Node
}.

Record Item := { item_id : string; item_title : string }.

Record Listing := {
  ls_total : Z;
  ls_offset : Z;
  ls_limit : Z;
  ls_items : list Item
}.

Record Model := {
  mdl_slug : string;
  mdl_title : string;
  mdl_description : string
}.

(** ** The two classes of the module *)

Definition loc := nat.

Record ChatPrompt := {
  prompt : option string;
  parent_id : option string;
  message_id : option string
}.

Record State := {
  title : option string;
  conversation_id : option string;
  model_slug : option string;
  user_prompt : loc;
  chatgpt_prompt : loc
}.

(** ** Environment: script and log *)

Inductive Input :=
| ILine (s : string)                (* input() *)
| IAsk (s : string)                 (* a line typed at Prompt.ask *)
| IConfirm (b : bool)               (* Confirm.ask *)
| IUuid (s : string)                (* str(uuid.uuid4()) *)
| IListing (l : Listing)            (* chatgpt.list_conversations *)
| IConversation (c : Conversation)  (* chatgpt.get_conversation *)
| ISetTitle (b : bool)              (* chatgpt.set_conversation_title *)
| IDeleted (b : bool)               (* chatgpt.del_conversation *)
| IModels (l : list Model)          (* chatgpt.list_models *)
| IStream (l : list Event)          (* chatgpt.talk, chatgpt.regenerate_reply *)
| ITitle (s : string).              (* chatgpt.gen_conversation_title *)

(** The methods of the client that the bot calls, with their arguments. *)
Module Call.
Inductive t :=
| list_conversations (offset limit : Z)
| get_conversation (cid : option string)
| set_conversation_title (cid : option string) (new_title : string)
| del_conversation (cid : option string)
| list_models
| talk (text : string) (model : option string) (mid pid : option string)
       (cid : option string)
| regenerate_reply (text : option string) (model : option string)
       (cid : option string) (mid pid : option string)
| gen_conversation_title (cid : option string) (model : option string)
       (mid : option string).
End Call.

Inductive Style :=
| info | info_b | info_bh | warn | warn_b | error | debug | debug_h | debug_bh
| success | success_b | plain.

Inductive Output :=
| Say (f : Style) (text : string) (end_ : string)  (* Console.f / print *)
| Clear                                            (* Console.clear() *)
| Ask (text : string)                              (* a Prompt.ask prompt *)
| AskConfirm (text : string)                       (* a Confirm.ask prompt *)
| Remote (c : Call.t).                              (* a call of the client *)

Record World := {
  prompts : list ChatPrompt;     (* store of ChatPrompt objects *)
  states : list State;           (* store of State objects *)
  self_state : option loc;       (* ChatBot.state *)
  script : list Input;
  out : list Output;
  access_token : string;         (* chatgpt.access_token *)
  version : string               (* pandora.__version__ *)
}.

Definition with_prompts (h : list ChatPrompt) (w : World) : World :=
  {| prompts := h; states := states w; self_state := self_state w;
     script := script w; out := out w;
     access_token := access_token w; version := version w |}.

Definition with_states (h : list State) (w : World) : World :=
  {| prompts := prompts w; states := h; self_state := self_state w;
     script := script w; out := out w;
     access_token := access_token w; version := version w |}.

Definition with_self_state (s : option loc) (w : World) : World :=
  {| prompts := prompts w; states := states w; self_state := s;
     script := script w; out := out w;
     access_token := access_token w; version := version w |}.

Definition with_script (s : list Input) (w : World) : World :=
  {| prompts := prompts w; states := states w; self_state := self_state w;
     script := s; out := out w;
     access_token := access_token w; version := version w |}.

Definition with_out (o : list Output) (w : World) : World :=
  {| prompts := prompts w; states := states w; self_state := self_state w;
     script := script w; out := o;
     access_token := access_token w; version := version w |}.

(** ** Outcomes and the monad of methods *)

Inductive exn :=
| KeyboardInterrupt
| Exception (payload : pyval)
| KeyError (key : string)
| IndexError
| ValueError
| AttributeError
| TypeError.

Inductive result (A : Type) :=
| Ok (a : A) (w : World)       (* returned a *)
| Raise (e : exn) (w : World)  (* raised e *)
| Stuck (w : World)            (* the script has no answer of the right kind *)
| OutOfFuel (w : World).       (* still running when the fuel ran out *)

Arguments Ok {A} a w.
Arguments Raise {A} e w.
Arguments Stuck {A} w.
Arguments OutOfFuel {A} w.

Definition M (A : Type) : Type := World → result A.

Definition ret {A} (a : A) : M A := λ w, Ok a w.

Definition bind {A B} (m : M A) (k : A → M B) : M B := λ w,
  match m w with
  | Ok a w' => k a w'
  | Raise e w' => Raise e w'
  | Stuck w' => Stuck w'
  | OutOfFuel w' => OutOfFuel w'
  end.

Definition raise {A} (e : exn) : M A := λ w, Raise e w.
Definition out_of_fuel {A} : M A := λ w, OutOfFuel w.

Declare Scope py_scope.
Delimit Scope py_scope with py.
Notation "'let*' x ':=' c 'in' k" := (bind c (λ x, k))
  (at level 10, x name, c at level 100, k at level 200) : py_scope.
Notation "c ;; k" := (bind c (λ _, k))
  (at level 100, k at level 200, right associativity) : py_scope.
Local Open Scope py_scope.

(** The world a result ends in. *)
Definition world_of {A} (r : result A) : World :=
  match r with Ok _ w | Raise _ w | Stuck w | OutOfFuel w => w end.

(** ** Console, prompts and uuid *)

Definition log (o : Output) : M unit := λ w, Ok tt (with_out (out w ++ [o]) w).

(** [Console.f(text, end=e)]. *)
Definition say_end (f : Style) (text e : string) : M unit := log (Say f text e).

(** [Console.f(text)] and [print(text)]. *)
Definition say (f : Style) (text : string) : M unit := say_end f text nl.

(** [print()]. *)
Definition print_ : M unit := say plain "".

(** [Prompt.ask(text, choices=choices)]: the line typed is stripped
    ([value.strip()] in [process_response]); the prompt asks again until the
    stripped answer is one of [choices], and returns the stripped answer;
    without [choices] every answer is returned, stripped. *)
Definition accepted (choices : option (list string)) (s : string) : bool :=
  match choices with
  | None => true
  | Some cs => bool_decide (s ∈ cs)
  end.

Fixpoint ask_from (text : string) (choices : option (list string))
    (sc : list Input) (w : World) : result string :=
  match sc with
  | IAsk typed :: sc' =>
      let w' := with_out (out w ++ [Ask text]) (with_script sc' w) in
      let value := strip typed in
      if accepted choices value then Ok value w' else ask_from text choices sc' w'
  | _ => Stuck w
  end.

Definition Prompt_ask (text : string) (choices : option (list string)) : M string :=
  λ w, ask_from text choices (script w) w.

(** [Confirm.ask(text, default=False)]. *)
Definition Confirm_ask (text : string) : M bool := λ w,
  match script w with
  | IConfirm b :: sc => Ok b (with_out (out w ++ [AskConfirm text]) (with_script sc w))
  | _ => Stuck w
  end.

(** ** The [ChatGPT] client: each method logs the call and reads its result *)

Module ChatGPT.

Definition call {A} (c : Call.t) (read : Input → option A) : M A := λ w,
  match script w with
  | i :: sc =>
      match read i with
      | Some a => Ok a (with_out (out w ++ [Remote c]) (with_script sc w))
      | None => Stuck w
      end
  | [] => Stuck w
  end.

Definition list_conversations (offset limit : Z) : M Listing :=
  call (Call.list_conversations offset limit)
       (λ i, match i with IListing l => Some l | _ => None end).

Definition get_conversation (cid : option string) : M Conversation :=
  call (Call.get_conversation cid)
       (λ i, match i with IConversation c => Some c | _ => None end).

Definition set_conversation_title (cid : option string) (t : string) : M bool :=
  call (Call.set_conversation_title cid t)
       (λ i, match i with ISetTitle b => Some b | _ => None end).

Definition del_conversation (cid : option string) : M bool :=
  call (Call.del_conversation cid)
       (λ i, match i with IDeleted b => Some b | _ => None end).

Definition list_models : M (list Model) :=
  call Call.list_models
       (λ i, match i with IModels l => Some l | _ => None end).

Definition talk (text : string) (model mid pid cid : option string) : M (list Event) :=
  call (Call.talk text model mid pid cid)
       (λ i, match i with IStream l => Some l | _ => None end).

Definition regenerate_reply (text model cid mid pid : option string) : M (list Event) :=
  call (Call.regenerate_reply text model cid mid pid)
       (λ i, match i with IStream l => Some l | _ => None end).

Definition gen_conversation_title (cid model mid : option string) : M string :=
  call (Call.gen_conversation_title cid model mid)
       (λ i, match i with ITitle s => Some s | _ => None end).

End ChatGPT.

(** ** The object store *)

Definition alloc_prompt (cp : ChatPrompt) : M loc := λ w,
  Ok (length (prompts w)) (with_prompts (prompts w ++ [cp]) w).

Definition alloc_state (st : State) : M loc := λ w,
  Ok (length (states w)) (with_states (states w ++ [st]) w).

Definition read_prompt (l : loc) : M ChatPrompt := λ w,
  match prompts w !! l with Some cp => Ok cp w | None => Stuck w end.

Definition read_state (l : loc) : M State := λ w,
  match states w !! l with Some st => Ok st w | None => Stuck w end.

Definition write_prompt (l : loc) (f : ChatPrompt → ChatPrompt) : M unit :=
  let* cp := read_prompt l in
  λ w, Ok tt (with_prompts (<[l := f cp]> (prompts w)) w).

Definition write_state (l : loc) (f : State → State) : M unit :=
  let* st := read_state l in
  λ w, Ok tt (with_states (<[l := f st]> (states w)) w).

(** Attribute assignments [o.attr = v]. *)
Definition set_prompt (v : option string) (cp : ChatPrompt) : ChatPrompt :=
  {| prompt := v; parent_id := parent_id cp; message_id := message_id cp |}.
Definition set_parent_id (v : option string) (cp : ChatPrompt) : ChatPrompt :=
  {| prompt := prompt cp; parent_id := v; message_id := message_id cp |}.
Definition set_message_id (v : option string) (cp : ChatPrompt) : ChatPrompt :=
  {| prompt := prompt cp; parent_id := parent_id cp; message_id := v |}.

Definition set_title (v : option string) (st : State) : State :=
  {| title := v; conversation_id := conversation_id st;
     model_slug := model_slug st; user_prompt := user_prompt st;
     chatgpt_prompt := chatgpt_prompt st |}.
Definition set_conversation_id (v : option string) (st : State) : State :=
  {| title := title st; conversation_id := v;
     model_slug := model_slug st; user_prompt := user_prompt st;
     chatgpt_prompt := chatgpt_prompt st |}.
Definition set_model_slug (v : option string) (st : State) : State :=
  {| title := title st; conversation_id := conversation_id st;
     model_slug := v; user_prompt := user_prompt st;
     chatgpt_prompt := chatgpt_prompt st |}.
Definition set_user_prompt (v : loc) (st : State) : State :=
  {| title := title st; conversation_id := conversation_id st;
     model_slug := model_slug st; user_prompt := v;
     chatgpt_prompt := chatgpt_prompt st |}.

(** ** class ChatPrompt *)

(** [ChatPrompt.gen_message_id()]. *)
Definition gen_message_id : M string := λ w,
  match script w with
  | IUuid s :: sc => Ok s (with_script sc w)
  | _ => Stuck w
  end.

(** [ChatPrompt(text, parent_id=pid, message_id=mid)]. *)
Definition ChatPrompt_init (text pid mid : option string) : M loc :=
  let* pid' := (if truthy_str pid then ret pid
                else let* u := gen_message_id in ret (Some u)) in
  let* mid' := (if truthy_str mid then ret mid
                else let* u := gen_message_id in ret (Some u)) in
  alloc_prompt {| prompt := text; parent_id := pid'; message_id := mid' |}.

(** ** class State

    The defaults [user_prompt=ChatPrompt()] and [chatgpt_prompt=ChatPrompt()]
    of [State.__init__] are evaluated once, when the [def] is executed: they
    are the first two objects of the store. *)

Definition default_user_prompt : loc := 0.
Definition default_chatgpt_prompt : loc := 1.

(** Executing the [def State.__init__] statement. *)
Definition def_State_init : M unit :=
  ChatPrompt_init None None None ;; ChatPrompt_init None None None ;; ret tt.

(** [State(title=t, conversation_id=cid, model_slug=m)], or with explicit
    prompts when [up] / [cp] are given. *)
Definition State_init (t cid m : option string) (up cp : option loc) : M loc :=
  alloc_state {| title := t; conversation_id := cid; model_slug := m;
                 user_prompt := default default_user_prompt up;
                 chatgpt_prompt := default default_chatgpt_prompt cp |}.

(** The world after the module is imported and [ChatBot(chatgpt)] is built. *)
Definition empty_world (sc : list Input) (token ver : string) : World :=
  {| prompts := []; states := []; self_state := None; script := sc; out := [];
     access_token := token; version := ver |}.

(** ** class ChatBot *)

Module ChatBot.

(** [self.state], and [self.state = s]. *)
Definition get_state : M (option loc) := λ w, Ok (self_state w) w.
Definition put_state (s : loc) : M unit := λ w, Ok tt (with_self_state (Some s) w).

(** [self.state.attr]: an [AttributeError] when [self.state] is [None]. *)
Definition state_attr {A} (attr : State → A) : M A :=
  let* s := get_state in
  match s with
  | None => raise AttributeError
  | Some l => let* st := read_state l in ret (attr st)
  end.

(** [self.state.attr = v]. *)
Definition state_setattr (set : State → State) : M unit :=
  let* s := get_state in
  match s with
  | None => raise AttributeError
  | Some l => write_state l set
  end.

(** [__get_input]: each [input()] takes the next line of the console; the
    loop runs over the lines the console still has. *)
Fixpoint get_input_from (sc : list Input) (lines : list string) (w : World)
    : result string :=
  match sc with
  | ILine line :: sc' =>
      match line with
      | "" => Ok (join nl lines) (with_script sc' w)
      | String c _ =>
          if Ascii.eqb "/" c then Ok line (with_script sc' w)
          else get_input_from sc' (lines ++ [line]) w
      end
  | _ => Stuck (with_script sc w)
  end.

Definition get_input : M string := λ w, get_input_from (script w) [] w.

Definition print_usage : M unit :=
  say info_b (nl +:+ "#### Command list:") ;;
  say plain ("/?" +:+ tab +:+ tab +:+ "Show this help message.") ;;
  say plain ("/title" +:+ tab +:+ tab +:+ "Set the current conversation's title.") ;;
  say plain ("/select" +:+ tab +:+ tab +:+ "Choice a different conversation.") ;;
  say plain ("/reload" +:+ tab +:+ tab +:+ "Reload the current conversation.") ;;
  say plain ("/regen" +:+ tab +:+ tab +:+ "Regenerate response.") ;;
  say plain ("/new" +:+ tab +:+ tab +:+ "Start a new conversation.") ;;
  say plain ("/del" +:+ tab +:+ tab +:+ "Delete the current conversation.") ;;
  say plain ("/token" +:+ tab +:+ tab +:+ "Print your access token.") ;;
  say plain ("/clear" +:+ tab +:+ tab +:+ "Clear your screen.") ;;
  say plain ("/version" +:+ tab +:+ tab +:+ "Print the version of Pandora.") ;;
  say plain ("/exit" +:+ tab +:+ tab +:+ "Exit Pandora.") ;;
  print_.

Definition print_access_token : M unit :=
  say warn_b (nl +:+ "#### Your access token (keep it private)") ;;
  (λ w, say warn (access_token w) w) ;;
  print_.

Definition print_conversation_title (t : option string) : M unit :=
  say info_bh ("==================== " +:+ str_opt t +:+ " ====================") ;;
  say debug_h "Double enter to send. Type /? for help.".

Definition clear_screen : M unit :=
  log Clear ;;
  let* s := get_state in
  match s with
  | None => ret tt
  | Some _ => let* t := state_attr title in print_conversation_title t
  end.

Definition print_version : M unit :=
  (λ w, say debug_bh ("#### Version: " +:+ version w) w) ;;
  print_.

(** [__choice_model]. *)
Fixpoint show_models (idx : nat) (models : list Model) (choices : list string)
    : M (list string) :=
  match models with
  | [] => ret choices
  | item :: rest =>
      let number := pretty (idx + 1)%nat in
      say info ("  " +:+ number +:+ ". " +:+ mdl_title item +:+ " - "
                +:+ mdl_description item) ;;
      show_models (S idx) rest (choices ++ [number])
  end.

Definition choice_model : M Model :=
  let* models := ChatGPT.list_models in
  match models with
  | [m] => ret m
  | _ =>
      say info_b "Choice model:" ;;
      let* choices := show_models 0 models [] in
      let* choice := Prompt_ask "Your choice" (Some choices) in
      match int_of choice with
      | None => raise ValueError
      | Some k =>
          match getitem models (k - 1) with
          | Some m => ret m
          | None => raise IndexError
          end
      end
  end.

(** [__new_conversation]. *)
Definition new_conversation : M unit :=
  let* m := choice_model in
  let* s := State_init None None (Some (mdl_slug m)) None None in
  put_state s ;;
  state_setattr (set_title (Some "New Chat")) ;;
  let* t := state_attr title in
  print_conversation_title t.

(** [__set_conversation_title(state)]. *)
Definition set_conversation_title (state : loc) : M unit :=
  let* st := read_state state in
  if negb (truthy_str (conversation_id st)) then
    say error "#### Conversation has not been created."
  else
    let* new_title := Prompt_ask "New title" None in
    if (64 <? String.length new_title)%nat then
      say error "#### Title too long."
    else
      let* st := read_state state in
      let* ok := ChatGPT.set_conversation_title (conversation_id st) new_title in
      if ok : bool then
        write_state state (set_title (Some new_title)) ;;
        say debug "#### Set title success."
      else
        say error "#### Set title failed.".

(** The [while True] loop of [__load_conversation]: [nodes.insert(0, node)]
    until a node without parent is reached. *)
Fixpoint walk (fuel : nat) (mapping : gmap string Node) (current_node_id : string)
    (nodes : list Node) : M (list Node) :=
  match fuel with
  | O => out_of_fuel
  | S fuel' =>
      match mapping !! current_node_id with
      | None => raise (KeyError current_node_id)
      | Some node =>
          if negb (truthy_str (node_parent node)) then ret nodes
          else walk fuel' mapping (default "" (node_parent node)) (node :: nodes)
      end
  end.

(** The body of [for node in nodes]. *)
Definition replay (node : Node) : M unit :=
  match node_message node with
  | None => raise TypeError
  | Some message =>
      match msg_model_slug message with
      | Some slug => state_setattr (set_model_slug (Some slug))
      | None => ret tt
      end ;;
      let* role :=
        match msg_author_role message with
        | Some r => ret r
        | None =>
            match msg_role message with
            | Some r => ret r
            | None => raise (KeyError "role")
            end
        end in
      let* p :=
        if String.eqb "user" role then
          let* p := state_attr user_prompt in
          say info_b "You:" ;;
          say info (msg_part0 message) ;;
          ret p
        else
          let* p := state_attr chatgpt_prompt in
          say success_b "ChatGPT:" ;;
          say success (msg_part0 message) ;;
          ret p in
      write_prompt p (set_prompt (Some (msg_part0 message))) ;;
      write_prompt p (set_parent_id (node_parent node)) ;;
      write_prompt p (set_message_id (Some (node_id node))) ;;
      print_
  end.

Fixpoint replay_all (nodes : list Node) : M unit :=
  match nodes with
  | [] => ret tt
  | node :: rest => replay node ;; replay_all rest
  end.

(** [__load_conversation(conversation_id)]. *)
Definition load_conversation (fuel : nat) (cid : option string) : M unit :=
  if negb (truthy_str cid) then ret tt
  else
    let* s := State_init None cid None None None in
    put_state s ;;
    let* result := ChatGPT.get_conversation cid in
    let* nodes := walk fuel (conv_mapping result) (conv_current_node result) [] in
    state_setattr (set_title (Some (conv_title result))) ;;
    let* t := state_attr title in
    print_conversation_title t ;;
    replay_all nodes.

(** The body of [async for result in await generator], returning the new
    value of the cursor [p]. *)
Definition print_reply_event (p : nat) (result : Event) : M nat :=
  if truthy (ev_error result) then raise (Exception (ev_error result))
  else
    match ev_message result with
    | None => raise (Exception (PyStr "miss message property."))
    | Some message =>
        let text := slice_from p (msg_part0 message) in
        let p := (p + String.length text)%nat in
        state_setattr (set_conversation_id (ev_conversation_id result)) ;;
        let* cp := state_attr chatgpt_prompt in
        write_prompt cp (set_prompt (Some (msg_part0 message))) ;;
        let* up := state_attr user_prompt in
        let* u := read_prompt up in
        let* cp := state_attr chatgpt_prompt in
        write_prompt cp (set_parent_id (message_id u)) ;;
        let* cp := state_attr chatgpt_prompt in
        write_prompt cp (set_message_id (Some (msg_id message))) ;;
        (if nonempty text then say_end success text "" else ret tt) ;;
        (if msg_end_turn message then print_ else ret tt) ;;
        ret p
    end.

Fixpoint print_reply_from (p : nat) (generator : list Event) : M unit :=
  match generator with
  | [] => ret tt
  | result :: rest =>
      let* p := print_reply_event p result in
      print_reply_from p rest
  end.

(** [__print_reply(generator)]. *)
Definition print_reply (generator : list Event) : M unit :=
  print_reply_from 0 generator ;; print_.

(** [__talk(text)]. *)
Definition talk (text : string) : M unit :=
  say success_b "ChatGPT:" ;;
  let* cid := state_attr conversation_id in
  let first_prompt := negb (truthy_str cid) in
  let* cp := state_attr chatgpt_prompt in
  let* c := read_prompt cp in
  let* up := ChatPrompt_init (Some text) (message_id c) None in
  state_setattr (set_user_prompt up) ;;
  let* model := state_attr model_slug in
  let* up := state_attr user_prompt in
  let* u := read_prompt up in
  let* cid := state_attr conversation_id in
  let* generator := ChatGPT.talk text model (message_id u) (parent_id u) cid in
  print_reply generator ;;
  if first_prompt then
    let* cid := state_attr conversation_id in
    let* model := state_attr model_slug in
    let* cp := state_attr chatgpt_prompt in
    let* c := read_prompt cp in
    let* new_title := ChatGPT.gen_conversation_title cid model (message_id c) in
    state_setattr (set_title (Some new_title)) ;;
    say debug_bh ("#### Title generated: " +:+ new_title)
  else ret tt.

(** [__regenerate_reply(state)]. *)
Definition regenerate_reply (state : loc) : M unit :=
  let* st := read_state state in
  if negb (truthy_str (conversation_id st)) then
    say error "#### Conversation has not been created."
  else
    let* u := read_prompt (user_prompt st) in
    let* generator :=
      ChatGPT.regenerate_reply (prompt u) (model_slug st) (conversation_id st)
                               (message_id u) (parent_id u) in
    print_ ;;
    say success_b "ChatGPT:" ;;
    print_reply generator.

(** The [for idx, item in enumerate(items)] loop of [__choice_conversation]. *)
Fixpoint show_items (idx : nat) (items : list Item) (choices : list string)
    : M (list string) :=
  match items with
  | [] => ret choices
  | item :: rest =>
      let number := pretty (idx + 1)%nat in
      say info ("  " +:+ number +:+ ". " +:+ item_title item) ;;
      show_items (S idx) rest (choices ++ [number; "t" +:+ number; "d" +:+ number])
  end.

(** [items[int(digits) - 1]]. *)
Definition item_at (items : list Item) (digits : string) : M Item :=
  match int_of digits with
  | None => raise ValueError
  | Some k =>
      match getitem items (k - 1) with
      | Some item => ret item
      | None => raise IndexError
      end
  end.

(** One round of the [while True] loop of [__talk_loop]. *)
Definition talk_turn (process_command : string → M unit) : M unit :=
  say info_b "You:" ;;
  let* text := get_input in
  match text with
  | "" => ret tt
  | String c _ =>
      if Ascii.eqb "/" c then process_command text
      else talk text
  end.

(** The methods that call each other.  Every call and every round of a
    [while True] loop takes one unit of fuel. *)
Fixpoint run (fuel : nat) : M unit :=
  match fuel with
  | O => out_of_fuel
  | S fuel =>
      let* conversation_base := choice_conversation fuel 1 20 in
      match conversation_base with
      | Some item => load_conversation fuel (Some (item_id item))
      | None => new_conversation
      end ;;
      talk_loop fuel
  end

with talk_loop (fuel : nat) : M unit :=
  match fuel with
  | O => out_of_fuel
  | S fuel => talk_turn (process_command fuel) ;; talk_loop fuel
  end

with process_command (fuel : nat) (command : string) : M unit :=
  match fuel with
  | O => out_of_fuel
  | S fuel =>
      let command := lower (strip command) in
      if String.eqb "/quit" command || String.eqb "/exit" command
         || String.eqb "/bye" command then
        raise KeyboardInterrupt
      else if String.eqb "/del" command || String.eqb "/delete" command
              || String.eqb "/remove" command then
        let* s := get_state in
        match s with
        | None => raise AttributeError
        | Some state => del_conversation fuel state
        end
      else if String.eqb "/title" command || String.eqb "/set_title" command
              || String.eqb "/set-title" command then
        let* s := get_state in
        match s with
        | None => raise AttributeError
        | Some state => set_conversation_title state
        end
      else if String.eqb "/select" command then
        run fuel
      else if String.eqb "/refresh" command || String.eqb "/reload" command then
        let* cid := state_attr conversation_id in
        load_conversation fuel cid
      else if String.eqb "/new" command then
        new_conversation ;;
        talk_loop fuel
      else if String.eqb "/regen" command || String.eqb "/regenerate" command then
        let* s := get_state in
        match s with
        | None => raise AttributeError
        | Some state => regenerate_reply state
        end
      else if String.eqb "/token" command then
        print_access_token
      else if String.eqb "/cls" command || String.eqb "/clear" command then
        clear_screen
      else if String.eqb "/ver" command || String.eqb "/version" command then
        print_version
      else
        print_usage
  end

with del_conversation (fuel : nat) (state : loc) : M unit :=
  match fuel with
  | O => out_of_fuel
  | S fuel =>
      let* st := read_state state in
      if negb (truthy_str (conversation_id st)) then
        say error "#### Conversation has not been created."
      else
        let* yes := Confirm_ask "Are you sure?" in
        if negb yes then ret tt
        else
          let* st := read_state state in
          let* ok := ChatGPT.del_conversation (conversation_id st) in
          if ok : bool then run fuel
          else say error "#### Delete conversation failed."
  end

with choice_conversation (fuel : nat) (page page_size : Z) : M (option Item) :=
  match fuel with
  | O => out_of_fuel
  | S fuel =>
      let* conversations :=
        ChatGPT.list_conversations ((page - 1) * page_size) page_size in
      if (ls_total conversations =? 0)%Z then ret None
      else
        let items := ls_items conversations in
        let first_page := (0 =? ls_offset conversations)%Z in
        let last_page :=
          (ls_total conversations <=? ls_offset conversations + ls_limit conversations)%Z in
        say info_b ("Choice conversation (Page " +:+ pretty page +:+ "):") ;;
        let* choices := show_items 0 items ["c"] in
        let* choices :=
          if negb last_page then
            say warn "  n. >> Next page" ;; ret (choices ++ ["n"])
          else ret choices in
        let* choices :=
          if negb first_page then
            say warn "  p. << Previous page" ;; ret (choices ++ ["p"])
          else ret choices in
        say warn "  t?. Set title for the conversation, eg: t1" ;;
        say warn "  d?. Delete the conversation, eg: d1" ;;
        say warn "  c. ** Start new chat" ;;
        choice_loop fuel page page_size items choices
  end

with choice_loop (fuel : nat) (page page_size : Z) (items : list Item)
    (choices : list string) : M (option Item) :=
  match fuel with
  | O => out_of_fuel
  | S fuel =>
      let* choice := Prompt_ask "Your choice" (Some choices) in
      if String.eqb "c" choice then ret None
      else if String.eqb "n" choice then choice_conversation fuel (page + 1) page_size
      else if String.eqb "p" choice then choice_conversation fuel (page - 1) page_size
      else
        match choice with
        | "" => raise IndexError
        | String c digits =>
            if Ascii.eqb "t" c then
              let* item := item_at items digits in
              let* state := State_init None (Some (item_id item)) None None None in
              set_conversation_title state ;;
              choice_conversation fuel page page_size
            else if Ascii.eqb "d" c then
              let* item := item_at items digits in
              let* state := State_init None (Some (item_id item)) None None None in
              del_conversation fuel state ;;
              choice_loop fuel page page_size items choices
            else
              let* item := item_at items choice in
              ret (Some item)
        end
  end.

End ChatBot.

Import ChatBot.

(** ** Vocabulary of the statements *)

(** *** Streamed replies *)

(** What one event writes to the console, given the text it emits. *)
Definition emit (text : string) (m : Message) : list Output :=
  (if nonempty text then [Say success text ""] else [])
  ++ (if msg_end_turn m then [Say plain "" nl] else []).

(** An event without error that carries a message. *)
Definition clean (e : Event) : bool :=
  negb (truthy (ev_error e)) && bool_decide (is_Some (ev_message e)).

(** The cumulative text an event carries. *)
Definition content (e : Event) : string :=
  match ev_message e with Some m => msg_part0 m | None => "" end.

Definition shown (chunk : string) (e : Event) : list Output :=
  match ev_message e with Some m => emit chunk m | None => [] end.

Fixpoint shown_all (chunks : list string) (events : list Event) : list Output :=
  match chunks, events with
  | c :: cs, e :: es => shown c e ++ shown_all cs es
  | _, _ => []
  end.

(** The number of characters in a list of emitted texts. *)
Definition total_length (chunks : list string) : nat :=
  foldr (λ c n, String.length c + n)%nat 0%nat chunks.

Fixpoint chunks_from (p : nat) (events : list Event) : list string :=
  match events with
  | [] => []
  | e :: es =>
      let t := slice_from p (content e) in
      t :: chunks_from (p + String.length t) es
  end.

(** [self.state] is the State [s], whose prompts [up] and [cp] exist. *)
Definition ready (s up cp : loc) (w : World) : Prop :=
  self_state w = Some s
  ∧ (∃ st, states w !! s = Some st ∧ user_prompt st = up ∧ chatgpt_prompt st = cp)
  ∧ is_Some (prompts w !! up) ∧ is_Some (prompts w !! cp).

(** The reply text written by [Console.success(text, end='')]. *)
Fixpoint emitted_text (o : list Output) : string :=
  match o with
  | [] => ""
  | Say success t EmptyString :: o' => t +:+ emitted_text o'
  | _ :: o' => emitted_text o'
  end.

(** Every text of [cs] has its predecessor as a prefix, the first one [prev]. *)
Fixpoint extends (prev : string) (cs : list string) : bool :=
  match cs with
  | [] => true
  | c :: cs' => String.prefix prev c && extends c cs'
  end.

(** *** Input framing *)

Definition starts_with_slash (s : string) : bool :=
  match s with
  | String c _ => Ascii.eqb "/" c
  | "" => false
  end.

(** A line that is accumulated: not blank and not starting with [/]. *)
Definition is_text (s : string) : bool :=
  nonempty s && negb (starts_with_slash s).

(** *** Command dispatch: the table of the specification *)

Inductive action :=
| Quit | Delete | SetTitle | Select | Refresh | New | Regenerate | Token | Cls | Ver.

Definition dispatch_table : list (list string * action) :=
  [ (["/quit"; "/exit"; "/bye"], Quit);
    (["/del"; "/delete"; "/remove"], Delete);
    (["/title"; "/set_title"; "/set-title"], SetTitle);
    (["/select"], Select);
    (["/refresh"; "/reload"], Refresh);
    (["/new"], New);
    (["/regen"; "/regenerate"], Regenerate);
    (["/token"], Token);
    (["/cls"; "/clear"], Cls);
    (["/ver"; "/version"], Ver) ].

(** The effect of each row, on the methods of the bot. *)
Definition on_state (f : loc → M unit) : M unit :=
  let* s := get_state in
  match s with
  | None => raise AttributeError
  | Some state => f state
  end.

Definition perform (fuel : nat) (a : action) : M unit :=
  match a with
  | Quit => raise KeyboardInterrupt
  | Delete => on_state (del_conversation fuel)
  | SetTitle => on_state set_conversation_title
  | Select => run fuel
  | Refresh => let* cid := state_attr conversation_id in load_conversation fuel cid
  | New => new_conversation ;; talk_loop fuel
  | Regenerate => on_state regenerate_reply
  | Token => print_access_token
  | Cls => clear_screen
  | Ver => print_version
  end.

(** *** Conversation selector *)

Definition page_header (page : Z) : Output :=
  Say info_b ("Choice conversation (Page " +:+ pretty page +:+ "):") nl.

(** The choices and the lines that the loop over the items adds. *)
Fixpoint item_choices (idx : nat) (items : list Item) : list string :=
  match items with
  | [] => []
  | _ :: rest =>
      let number := pretty (idx + 1)%nat in
      [number; "t" +:+ number; "d" +:+ number] ++ item_choices (S idx) rest
  end.

Fixpoint item_lines (idx : nat) (items : list Item) : list Output :=
  match items with
  | [] => []
  | item :: rest =>
      Say info ("  " +:+ pretty (idx + 1)%nat +:+ ". " +:+ item_title item) nl
      :: item_lines (S idx) rest
  end.

(** How often a listing was fetched with these arguments, and how often the
    header of [page] was printed. *)
Definition is_fetch (offset limit : Z) (x : Output) : bool :=
  match x with
  | Remote (Call.list_conversations a b) => (a =? offset)%Z && (b =? limit)%Z
  | _ => false
  end.

Definition is_header (page : Z) (x : Output) : bool :=
  match x with
  | Say info_b t _ => String.eqb t ("Choice conversation (Page " +:+ pretty page +:+ "):")
  | _ => false
  end.

Definition fetches (offset limit : Z) (o : list Output) : nat :=
  length (List.filter (is_fetch offset limit) o).

Definition headers (page : Z) (o : list Output) : nat :=
  length (List.filter (is_header page) o).

(** *** Loading a conversation *)

(** [message['author']['role'] if 'author' in message else message['role']]. *)
Definition role_of (m : Message) : option string :=
  match msg_author_role m with
  | Some r => Some r
  | None => msg_role m
  end.

(** [chain mapping id nodes]: following [parent] from the node [id] reaches a
    node without parent, and [nodes] are the nodes passed, the oldest first. *)
Inductive chain (mapping : gmap string Node) : string → list Node → Prop :=
| chain_root id node :
    mapping !! id = Some node →
    truthy_str (node_parent node) = false →
    chain mapping id []
| chain_step id node parent nodes :
    mapping !! id = Some node →
    node_parent node = Some parent →
    nonempty parent = true →
    chain mapping parent nodes →
    chain mapping id (nodes ++ [node]).

(** ** Concrete sessions *)

(** The store after the module was imported: the two default prompts. *)
Definition ex_prompts : list ChatPrompt :=
  [ {| prompt := None; parent_id := Some "u-parent"; message_id := Some "u-own" |};
    {| prompt := None; parent_id := Some "a-parent"; message_id := Some "a-own" |} ].

(** A new chat, as [__new_conversation] leaves it. *)
Definition ex_new_chat : State :=
  {| title := Some "New Chat"; conversation_id := None; model_slug := Some "gpt";
     user_prompt := default_user_prompt; chatgpt_prompt := default_chatgpt_prompt |}.

(** A chat that exists remotely. *)
Definition ex_open_chat : State :=
  {| title := Some "Trip"; conversation_id := Some "conv-1"; model_slug := Some "gpt";
     user_prompt := default_user_prompt; chatgpt_prompt := default_chatgpt_prompt |}.

Definition ex_world (st : State) (sc : list Input) : World :=
  {| prompts := ex_prompts; states := [st]; self_state := Some 0%nat;
     script := sc; out := []; access_token := "token"; version := "1.0" |}.

Definition ex_message (id text : string) : Message :=
  {| msg_id := id; msg_part0 := text; msg_end_turn := false;
     msg_author_role := Some "assistant"; msg_role := None;
     msg_model_slug := None |}.

Definition ex_event (text : string) : Event :=
  {| ev_error := PyNone; ev_message := Some (ex_message "a-1" text);
     ev_conversation_id := Some "conv-1" |}.

Definition ex_hello : list Event := [ex_event "Hello"; ex_event "Hello, world"].

(** An event whose error field is the empty string. *)
Definition ex_empty_error : Event :=
  {| ev_error := PyStr ""; ev_message := Some (ex_message "a-1" "Hello");
     ev_conversation_id := Some "conv-1" |}.

Definition ex_failed : Event :=
  {| ev_error := PyStr "rate limited"; ev_message := None;
     ev_conversation_id := None |}.

Definition ex_model : Model :=
  {| mdl_slug := "gpt"; mdl_title := "GPT"; mdl_description := "default" |}.

(** The conversation [root -> A(user) -> B(assistant)]. *)
Definition ex_root : Node :=
  {| node_id := "root"; node_parent := None; node_message := None |}.

Definition ex_A : Node :=
  {| node_id := "A"; node_parent := Some "root";
     node_message := Some {| msg_id := "A"; msg_part0 := "Where to?";
                             msg_end_turn := false;
                             msg_author_role := Some "user"; msg_role := None;
                             msg_model_slug := None |} |}.

Definition ex_B : Node :=
  {| node_id := "B"; node_parent := Some "A";
     node_message := Some {| msg_id := "B"; msg_part0 := "To Lisbon.";
                             msg_end_turn := true;
                             msg_author_role := Some "assistant"; msg_role := None;
                             msg_model_slug := Some "gpt-4" |} |}.

Definition ex_conversation : Conversation :=
  {| conv_title := "Trip"; conv_current_node := "B";
     conv_mapping := <["root" := ex_root]> (<["A" := ex_A]> (<["B" := ex_B]> ∅)) |}.

Definition ex_item (n : string) : Item :=
  {| item_id := "conv-" +:+ n; item_title := "Chat " +:+ n |}.

Definition ex_listing (total offset : Z) (items : list Item) : Listing :=
  {| ls_total := total; ls_offset := offset; ls_limit := 20; ls_items := items |}.

(** Titles of 64 and of 65 characters. *)
Definition ex_title64 : string :=
  "0123456789abcdef0123456789abcdef0123456789abcdef0123456789abcdef".

Definition ex_title65 : string := ex_title64 +:+ "x".

(** A string whose first character is a decimal digit. *)
Definition starts_with_digit (s : string) : bool :=
  match s with
  | String c _ => bool_decide (is_Some (digit_of c))
  | "" => false
  end.

(** The choices the selector offers for a listing. *)
Definition offered (l : Listing) : list string :=
  ["c"] ++ item_choices 0 (ls_items l)
  ++ (if (ls_total l <=? ls_offset l + ls_limit l)%Z then [] else ["n"])
  ++ (if (0 =? ls_offset l)%Z then [] else ["p"]).

(** The lines the selector prints below the header for a listing. *)
Definition menu (l : Listing) : list Output :=
  item_lines 0 (ls_items l)
  ++ (if (ls_total l <=? ls_offset l + ls_limit l)%Z then []
      else [Say warn "  n. >> Next page" nl])
  ++ (if (0 =? ls_offset l)%Z then []
      else [Say warn "  p. << Previous page" nl])
  ++ [Say warn "  t?. Set title for the conversation, eg: t1" nl;
      Say warn "  d?. Delete the conversation, eg: d1" nl;
      Say warn "  c. ** Start new chat" nl].

Definition ex_items (n : nat) : list Item := (λ i, ex_item (pretty i)) <$> seq 1 n.

(** The first and the third page of 45 conversations, 20 to the page. *)
Definition ex_page1 : Listing := ex_listing 45 0 (ex_items 20).
Definition ex_page3 : Listing := ex_listing 45 40 (ex_items 5).

(** An empty listing answered to the request for the second page. *)
Definition ex_no_page2 : Listing := ex_listing 0 20 [].

(** The State built for [t<idx>] and [d<idx>] in the selector. *)
Definition picked (item : Item) : State :=
  {| title := None; conversation_id := Some (item_id item); model_slug := None;
     user_prompt := default_user_prompt; chatgpt_prompt := default_chatgpt_prompt |}.

(** The second page, with one conversation on it, and the first page that
    the client answers after that conversation was deleted. *)
Definition ex_page2 : Listing := ex_listing 21 20 (ex_items 1).
Definition ex_after_delete : Listing := ex_listing 2 0 (ex_items 2).

(** What replaying a message prints, and the prompt it is stored in. *)
Definition replayed (m : Message) : list Output :=
  (if String.eqb "user" (default "" (role_of m))
   then [Say info_b "You:" nl; Say info (msg_part0 m) nl]
   else [Say success_b "ChatGPT:" nl; Say success (msg_part0 m) nl])
  ++ [Say plain "" nl].

Definition seeded (node : Node) (m : Message) : ChatPrompt :=
  {| prompt := Some (msg_part0 m); parent_id := node_parent node;
     message_id := Some (node_id node) |}.

Definition banner (t : string) : list Output :=
  [Say info_bh ("==================== " +:+ t +:+ " ====================") nl;
   Say debug_h "Double enter to send. Type /? for help." nl].

(** The calls of the client in a log, in order. *)
Definition remote_calls (o : list Output) : list Call.t :=
  omap (λ x, match x with Remote c => Some c | _ => None end) o.

(** A whole session, from the import of the module: the user opens the
    conversation [ex_conversation], then starts a new chat with [/new], sends
    "Hi" and quits. *)
Definition ex_session : list Input :=
  [ IUuid "u-parent"; IUuid "u-own"; IUuid "a-parent"; IUuid "a-own";
    IListing (ex_listing 1 0 (ex_items 1)); IAsk "1";
    IConversation ex_conversation;
    ILine "/new"; IModels [ex_model];
    ILine "Hi"; ILine ""; IUuid "m-1";
    IStream [ {| ev_error := PyNone; ev_message := Some (ex_message "a-2" "Hello");
                 ev_conversation_id := Some "conv-2" |} ];
    ITitle "Greeting";
    ILine "/quit" ].

(** [broken mapping n id missing]: following [parent] from the node [id] for
    [n] steps reaches the id [missing], which is not a key of [mapping]. *)
Inductive broken (mapping : gmap string Node) : nat → string → string → Prop :=
| broken_here id :
    mapping !! id = None →
    broken mapping 0 id id
| broken_step n id node parent missing :
    mapping !! id = Some node →
    node_parent node = Some parent →
    nonempty parent = true →
    broken mapping n parent missing →
    broken mapping (S n) id missing.

(** The State that [__load_conversation] builds before it fetches anything. *)
Definition loading (cid : option string) : State :=
  {| title := None; conversation_id := cid; model_slug := None;
     user_prompt := default_user_prompt; chatgpt_prompt := default_chatgpt_prompt |}.

(** A conversation whose current node lacks its parent, and one whose two
    nodes are each other's parent. *)
Definition ex_orphan : Conversation :=
  {| conv_title := "Trip"; conv_current_node := "B";
     conv_mapping := <["B" := ex_B]> ∅ |}.

Definition ex_loop : Conversation :=
  {| conv_title := "Loop"; conv_current_node := "A";
     conv_mapping :=
       <["A" := {| node_id := "A"; node_parent := Some "B"; node_message := None |}]>
         (<["B" := {| node_id := "B"; node_parent := Some "A";
                      node_message := None |}]> ∅) |}.

(** Every alias of the dispatch table. *)
Definition all_aliases : list string := concat (fst <$> dispatch_table).

(** The aliases of the commands that report a conversation that has not been
    created. *)
Definition needs_conversation : list string :=
  ["/del"; "/delete"; "/remove"; "/title"; "/set_title"; "/set-title";
   "/regen"; "/regenerate"].

Definition not_created : Output :=
  Say error "#### Conversation has not been created." nl.

(** The choices and the lines that the loop of [__choice_model] adds. *)
Fixpoint model_choices (idx : nat) (models : list Model) : list string :=
  match models with
  | [] => []
  | _ :: rest => pretty (idx + 1)%nat :: model_choices (S idx) rest
  end.

Fixpoint model_lines (idx : nat) (models : list Model) : list Output :=
  match models with
  | [] => []
  | item :: rest =>
      Say info ("  " +:+ pretty (idx + 1)%nat +:+ ". " +:+ mdl_title item +:+ " - "
                +:+ mdl_description item) nl
      :: model_lines (S idx) rest
  end.

(** The State of a new chat with the model [m]. *)
Definition new_chat (m : Model) : State :=
  {| title := Some "New Chat"; conversation_id := None;
     model_slug := Some (mdl_slug m);
     user_prompt := default_user_prompt; chatgpt_prompt := default_chatgpt_prompt |}.

Definition ex_model2 : Model :=
  {| mdl_slug := "gpt-4"; mdl_title := "GPT-4"; mdl_description := "slow" |}.

(** The assistant prompt after the event with the message [m] was reconciled,
    [own] being the own id of the user prompt. *)
Definition reconciled (own : option string) (m : Message) : ChatPrompt :=
  {| prompt := Some (msg_part0 m); parent_id := own;
     message_id := Some (msg_id m) |}.

(** What [__print_reply] raises at an event that is not [clean]. *)
Definition refusal (e : Event) : exn :=
  if truthy (ev_error e) then Exception (ev_error e)
  else Exception (PyStr "miss message property.").

(** An event that carries neither an error nor a message. *)
Definition ex_no_message : Event :=
  {| ev_error := PyNone; ev_message := None; ev_conversation_id := Some "conv-1" |}.

(** The role, the model slug, the printed lines and the prompt of a node of
    the history. *)
Definition node_role (n : Node) : option string := node_message n ≫= role_of.

Definition node_slug (n : Node) : option string := node_message n ≫= msg_model_slug.

Definition by_user (n : Node) : bool :=
  match node_role n with
  | Some r => String.eqb "user" r
  | None => false
  end.

Definition node_replayed (n : Node) : list Output :=
  match node_message n with
  | Some m => replayed m
  | None => []
  end.

Definition node_seed (n : Node) : ChatPrompt :=
  {| prompt := msg_part0 <$> node_message n; parent_id := node_parent n;
     message_id := Some (node_id n) |}.

(** A second user turn after [ex_B]. *)
Definition ex_C : Node :=
  {| node_id := "C"; node_parent := Some "B";
     node_message := Some {| msg_id := "C"; msg_part0 := "And then?";
                             msg_end_turn := false;
                             msg_author_role := None; msg_role := Some "user";
                             msg_model_slug := None |} |}.

Definition ex_conversation3 : Conversation :=
  {| conv_title := "Trip"; conv_current_node := "C";
     conv_mapping := <["C" := ex_C]> (conv_mapping ex_conversation) |}.

(** The text of the usage, as [__print_usage] prints it. *)
Definition usage_lines : list Output :=
  [ Say info_b (nl +:+ "#### Command list:") nl;
    Say plain ("/?" +:+ tab +:+ tab +:+ "Show this help message.") nl;
    Say plain ("/title" +:+ tab +:+ tab +:+ "Set the current conversation's title.") nl;
    Say plain ("/select" +:+ tab +:+ tab +:+ "Choice a different conversation.") nl;
    Say plain ("/reload" +:+ tab +:+ tab +:+ "Reload the current conversation.") nl;
    Say plain ("/regen" +:+ tab +:+ tab +:+ "Regenerate response.") nl;
    Say plain ("/new" +:+ tab +:+ tab +:+ "Start a new conversation.") nl;
    Say plain ("/del" +:+ tab +:+ tab +:+ "Delete the current conversation.") nl;
    Say plain ("/token" +:+ tab +:+ tab +:+ "Print your access token.") nl;
    Say plain ("/clear" +:+ tab +:+ tab +:+ "Clear your screen.") nl;
    Say plain ("/version" +:+ tab +:+ tab +:+ "Print the version of Pandora.") nl;
    Say plain ("/exit" +:+ tab +:+ tab +:+ "Exit Pandora.") nl;
    Say plain "" nl ].

(** The ids that [ChatPrompt(text, pid, mid)] takes from [uuid4]: [a] for the
    parent id when [pid] is absent or empty, then [b] for the message id when
    [mid] is absent or empty. *)
Definition drawn (pid mid : option string) (a b : string) : list Input :=
  (if truthy_str pid then [] else [IUuid a])
  ++ (if truthy_str mid then [] else [IUuid b]).

(** * Properties *)

(** ** Strings *)

Lemma append_cons c a b : String c a +:+ b = String c (a +:+ b).
Proof. reflexivity. Qed.

Lemma append_empty_r s : s +:+ "" = s.
Proof. induction s as [|c s IH]; [done|]. by rewrite append_cons, IH. Qed.

Lemma append_assoc a b c : (a +:+ b) +:+ c = a +:+ b +:+ c.
Proof. induction a as [|d a IH]; [done|]. by rewrite !append_cons, IH. Qed.

Lemma append_length a b :
  String.length (a +:+ b) = (String.length a + String.length b)%nat.
Proof.
  induction a as [|c a IH]; [done|]. rewrite append_cons. simpl. by rewrite IH.
Qed.

Lemma slice_from_length p s :
  String.length (slice_from p s) = (String.length s - p)%nat.
Proof.
  revert s; induction p as [|p IH]; intros s; simpl.
  - lia.
  - destruct s as [|c s]; simpl; [lia | apply IH].
Qed.

Lemma slice_from_append a b : slice_from (String.length a) (a +:+ b) = b.
Proof. induction a as [|c a IH]; simpl; [by destruct b | done]. Qed.

Lemma prefix_slice a b :
  String.prefix a b = true → b = a +:+ slice_from (String.length a) b.
Proof.
  revert b; induction a as [|c a IH]; intros b H; simpl in *.
  - by destruct b.
  - destruct b as [|d b]; simpl in H; [done|].
    destruct (Ascii.ascii_dec c d) as [->|]; [|done].
    rewrite append_cons. f_equal. by apply IH.
Qed.

(** [strip] leaves a string without white space as it is; a decimal numeral
    has none. *)

Lemma rev_app_rev_app s a b :
  String.rev_app (String.rev_app s a) b = String.rev_app a (s +:+ b).
Proof.
  revert a b. induction s as [|c s IH]; intros a b; [done|].
  simpl. by rewrite IH.
Qed.

Lemma rev_involutive s : String.rev (String.rev s) = s.
Proof. unfold String.rev. rewrite rev_app_rev_app. simpl. apply append_empty_r. Qed.

Lemma no_space_rev_app s a :
  no_space (String.rev_app s a) = no_space s && no_space a.
Proof.
  revert a. induction s as [|c s IH]; intros a; [done|].
  simpl. rewrite IH. simpl. destruct (is_space c), (no_space s); done.
Qed.

Lemma lstrip_no_space s : no_space s = true → lstrip s = s.
Proof. destruct s as [|c s]; [done|]. simpl. by destruct (is_space c). Qed.

Lemma strip_no_space s : no_space s = true → strip s = s.
Proof.
  intros H. unfold strip, rstrip. rewrite (lstrip_no_space s H).
  rewrite lstrip_no_space; [apply rev_involutive|].
  unfold String.rev. rewrite no_space_rev_app, H. done.
Qed.

Lemma digit_of_not_space c d : digit_of c = Some d → is_space c = false.
Proof.
  unfold digit_of, is_space. cbv zeta.
  destruct (48 <=? N_of_ascii c)%N eqn:H1; [|done].
  destruct (N_of_ascii c <=? 57)%N eqn:H2; [|done].
  intros _. apply N.leb_le in H1, H2.
  repeat match goal with
  | |- context [(?a <=? ?b)%N] => destruct (N.leb_spec a b)
  | |- context [(?a =? ?b)%N] => destruct (N.eqb_spec a b)
  end; simpl; try done; lia.
Qed.

Lemma int_digits_no_space acc s k : int_digits acc s = Some k → no_space s = true.
Proof.
  revert acc. induction s as [|c s IH]; intros acc; [done|].
  simpl. destruct (digit_of c) as [d|] eqn:Hd; [|done].
  intros H. rewrite (digit_of_not_space c d Hd). simpl. by eapply IH.
Qed.

Lemma int_of_no_space s k : int_of s = Some k → no_space s = true.
Proof. destruct s; [done|]. apply int_digits_no_space. Qed.

Lemma strip_digits s k : int_of s = Some k → strip s = s.
Proof. intros H. apply strip_no_space. by eapply int_of_no_space. Qed.

Lemma strip_letter_digits c s k :
  is_space c = false → int_of s = Some k → strip (String c s) = String c s.
Proof.
  intros Hc H. apply strip_no_space. simpl. rewrite Hc. simpl.
  by eapply int_of_no_space.
Qed.

(** ** Running a method *)

Lemma bind_Ok {A B} (m : M A) (k : A → M B) w a w' :
  m w = Ok a w' → bind m k w = k a w'.
Proof. unfold bind. by intros ->. Qed.

Lemma bind_Raise {A B} (m : M A) (k : A → M B) w e w' :
  m w = Raise e w' → bind m k w = Raise e w'.
Proof. unfold bind. by intros ->. Qed.

Lemma state_attr_Ok {A} (attr : State → A) w s st :
  self_state w = Some s → states w !! s = Some st →
  state_attr attr w = Ok (attr st) w.
Proof.
  intros Hs Hst. unfold state_attr, bind, get_state, read_state, ret.
  by rewrite Hs, Hst.
Qed.

Lemma state_setattr_Ok set w s st :
  self_state w = Some s → states w !! s = Some st →
  state_setattr set w = Ok tt (with_states (<[s := set st]> (states w)) w).
Proof.
  intros Hs Hst. unfold state_setattr, bind, get_state, write_state, bind, read_state.
  by rewrite Hs, Hst.
Qed.

Lemma read_prompt_Ok w l cp :
  prompts w !! l = Some cp → read_prompt l w = Ok cp w.
Proof. unfold read_prompt. by intros ->. Qed.

Lemma write_prompt_Ok f w l cp :
  prompts w !! l = Some cp →
  write_prompt l f w = Ok tt (with_prompts (<[l := f cp]> (prompts w)) w).
Proof. unfold write_prompt, bind, read_prompt. by intros ->. Qed.

Lemma read_state_Ok w l st :
  states w !! l = Some st → read_state l w = Ok st w.
Proof. unfold read_state. by intros ->. Qed.

Lemma write_state_Ok f w l st :
  states w !! l = Some st →
  write_state l f w = Ok tt (with_states (<[l := f st]> (states w)) w).
Proof. unfold write_state, bind, read_state. by intros ->. Qed.

(** ** Streamed-reply reconciliation *)

Lemma print_reply_event_Ok p e m w s st u c :
  self_state w = Some s →
  states w !! s = Some st →
  prompts w !! user_prompt st = Some u →
  prompts w !! chatgpt_prompt st = Some c →
  truthy (ev_error e) = false →
  ev_message e = Some m →
  print_reply_event p e w =
    Ok (p + String.length (slice_from p (msg_part0 m)))%nat
       (with_out (out w ++ emit (slice_from p (msg_part0 m)) m)
          (with_prompts
             (<[chatgpt_prompt st :=
                  {| prompt := Some (msg_part0 m);
                     parent_id := message_id u;
                     message_id := Some (msg_id m) |}]> (prompts w))
             (with_states
                (<[s := set_conversation_id (ev_conversation_id e) st]> (states w))
                w))).
Proof.
  intros Hs Hst Hu Hc He Hm.
  assert (Hls : (s < length (states w))%nat) by (by eapply lookup_lt_Some).
  assert (Hlc : (chatgpt_prompt st < length (prompts w))%nat) by (by eapply lookup_lt_Some).
  unfold print_reply_event. rewrite He, Hm.
  erewrite bind_Ok; [|by eapply state_setattr_Ok].
  set (w1 := with_states _ w).
  assert (Hst1 : states w1 !! s = Some (set_conversation_id (ev_conversation_id e) st)).
  { subst w1; simpl. by apply list_lookup_insert_eq. }
  erewrite bind_Ok; [|by eapply (state_attr_Ok chatgpt_prompt)]. simpl.
  erewrite bind_Ok; [|by eapply write_prompt_Ok].
  set (w2 := with_prompts _ w1).
  erewrite bind_Ok; [|by eapply (state_attr_Ok user_prompt)]. simpl.
  assert (Hu2 : ∃ u2, prompts w2 !! user_prompt st = Some u2 ∧ message_id u2 = message_id u).
  { subst w2; simpl. destruct (decide (chatgpt_prompt st = user_prompt st)) as [E|E].
    - rewrite <- E. rewrite list_lookup_insert_eq by done.
      eexists; split; [done|]. simpl. rewrite E in Hc. congruence.
    - rewrite list_lookup_insert_ne by done. eauto. }
  destruct Hu2 as (u2 & Hu2 & Hmid).
  erewrite bind_Ok; [|by eapply read_prompt_Ok].
  erewrite bind_Ok; [|by eapply (state_attr_Ok chatgpt_prompt)]. simpl.
  erewrite bind_Ok; [|eapply write_prompt_Ok; subst w2; simpl; by apply list_lookup_insert_eq].
  erewrite bind_Ok; [|by eapply (state_attr_Ok chatgpt_prompt)]. simpl.
  erewrite bind_Ok; [|eapply write_prompt_Ok; subst w2; simpl;
     rewrite list_lookup_insert_eq; [done|by rewrite length_insert]].
  simpl. rewrite !list_insert_insert_eq, Hmid.
  unfold emit, bind, say_end, print_, say, say_end, log, ret.
  destruct (nonempty _), (msg_end_turn m); simpl; rewrite <- ?app_assoc; simpl; try done.
  all: by rewrite ?app_nil_r.
Qed.


Lemma clean_inv e :
  clean e = true → truthy (ev_error e) = false ∧ ∃ m, ev_message e = Some m.
Proof.
  unfold clean. intros [H1 H2]%andb_prop.
  apply negb_true_iff in H1. apply bool_decide_eq_true in H2 as [m Hm]. eauto.
Qed.

Lemma print_reply_event_ready p e w s up cp u :
  ready s up cp w → prompts w !! up = Some u → clean e = true →
  ∃ m w', ev_message e = Some m
    ∧ print_reply_event p e w
      = Ok (p + String.length (slice_from p (msg_part0 m)))%nat w'
    ∧ ready s up cp w'
    ∧ out w' = out w ++ emit (slice_from p (msg_part0 m)) m
    ∧ prompts w' !! cp = Some {| prompt := Some (msg_part0 m);
                                 parent_id := message_id u;
                                 message_id := Some (msg_id m) |}
    ∧ (∀ l, l ≠ cp → prompts w' !! l = prompts w !! l).
Proof.
  intros (Hs & (st & Hst & <- & <-) & _ & [c Hc]) Hu [He [m Hm]]%clean_inv.
  exists m. eexists. split; [done|]. split.
  { by eapply print_reply_event_Ok. }
  assert (Hls : (s < length (states w))%nat) by (by eapply lookup_lt_Some).
  assert (Hlc : (chatgpt_prompt st < length (prompts w))%nat) by (by eapply lookup_lt_Some).
  unfold ready; simpl. split_and!.
  - done.
  - eexists. by rewrite list_lookup_insert_eq.
  - destruct (decide (chatgpt_prompt st = user_prompt st)) as [E|E].
    + rewrite <- E, list_lookup_insert_eq by done. eauto.
    + rewrite list_lookup_insert_ne by done. eauto.
  - rewrite list_lookup_insert_eq by done. eauto.
  - done.
  - by rewrite list_lookup_insert_eq.
  - intros l Hl. by rewrite list_lookup_insert_ne.
Qed.

Lemma print_reply_from_Ok events : ∀ p w s up cp,
  ready s up cp w → forallb clean events = true →
  ∃ w', print_reply_from p events w = Ok tt w'
    ∧ ready s up cp w'
    ∧ out w' = out w ++ shown_all (chunks_from p events) events.
Proof.
  induction events as [|e es IH]; intros p w s up cp Hr Hc; simpl.
  - exists w. by rewrite app_nil_r.
  - simpl in Hc. apply andb_prop in Hc as [Hce Hces].
    pose proof Hr as (_ & _ & [u Hu] & _).
    destruct (print_reply_event_ready p e w s up cp u Hr Hu Hce)
      as (m & w1 & Hm & Hrun & Hr1 & Hout1 & _).
    erewrite bind_Ok by done.
    destruct (IH (p + String.length (slice_from p (msg_part0 m)))%nat w1 s up cp Hr1 Hces)
      as (w' & Hrun' & Hr' & Hout').
    exists w'. split; [done|]. split; [done|].
    rewrite Hout', Hout1. unfold content, shown. rewrite Hm. by rewrite <- app_assoc.
Qed.

Lemma chunks_from_length events : ∀ p, length (chunks_from p events) = length events.
Proof. induction events as [|e es IH]; intros p; simpl; [done|]. by rewrite IH. Qed.

Lemma chunks_from_cursor events : ∀ p i e,
  events !! i = Some e →
  chunks_from p events !! i
  = Some (slice_from (p + total_length (take i (chunks_from p events))) (content e)).
Proof.
  induction events as [|e0 es IH]; intros p i e Hi; [done|].
  destruct i as [|i]; simpl in *.
  - injection Hi as ->. by rewrite Nat.add_0_r.
  - rewrite (IH _ _ _ Hi). by rewrite Nat.add_assoc.
Qed.

(** C1.  For a stream of events without error that carry a message,
    [__print_reply] returns, and the text [chunks !! i] it emits for the
    [i]-th event is [content[p:]], where the cursor [p] is the number of
    characters of the texts emitted for the events before it.  The console
    receives these texts (the empty ones are not printed), a line break after
    each event flagged [end_turn], and a final line break. *)
Theorem print_reply_emits_suffix events w s st :
  self_state w = Some s →
  states w !! s = Some st →
  is_Some (prompts w !! user_prompt st) →
  is_Some (prompts w !! chatgpt_prompt st) →
  forallb clean events = true →
  ∃ chunks w',
    print_reply events w = Ok tt w'
    ∧ length chunks = length events
    ∧ (∀ i e, events !! i = Some e →
         chunks !! i = Some (slice_from (total_length (take i chunks)) (content e)))
    ∧ out w' = out w ++ shown_all chunks events ++ [Say plain "" nl].
Proof.
  intros Hs Hst Hu Hc Hclean.
  destruct (print_reply_from_Ok events 0 w s (user_prompt st) (chatgpt_prompt st))
    as (w' & Hrun & _ & Hout); [by repeat split; eauto | done |].
  exists (chunks_from 0 events). eexists. split.
  { unfold print_reply. erewrite bind_Ok by done. reflexivity. }
  split; [apply chunks_from_length|]. split.
  - intros i e Hi. by rewrite (chunks_from_cursor events 0 i e Hi).
  - simpl. by rewrite Hout, <- app_assoc.
Qed.

Lemma emitted_text_app a b : emitted_text (a ++ b) = emitted_text a +:+ emitted_text b.
Proof.
  induction a as [|x a IH]; [done|]. simpl.
  destruct x as [[] t [|]| | | |]; try done.
  by rewrite IH, append_assoc.
Qed.

Lemma emitted_text_emit t m : emitted_text (emit t m) = t.
Proof.
  unfold emit. destruct t as [|c t], (msg_end_turn m); simpl; try done;
    by rewrite append_empty_r.
Qed.

Lemma print_reply_from_extends events : ∀ prev w s up cp u,
  ready s up cp w → up ≠ cp → prompts w !! up = Some u →
  forallb clean events = true →
  extends prev (content <$> events) = true →
  ∃ w' delta,
    print_reply_from (String.length prev) events w = Ok tt w'
    ∧ ready s up cp w'
    ∧ prompts w' !! up = Some u
    ∧ out w' = out w ++ delta
    ∧ prev +:+ emitted_text delta = default prev (content <$> last events)
    ∧ (∀ e m, last events = Some e → ev_message e = Some m →
         prompts w' !! cp = Some {| prompt := Some (msg_part0 m);
                                    parent_id := message_id u;
                                    message_id := Some (msg_id m) |}).
Proof.
  induction events as [|e es IH]; intros prev w s up cp u Hr Hne Hu Hc Hx; simpl.
  - exists w, []. rewrite app_nil_r, append_empty_r. by split_and!.
  - simpl in Hc, Hx. apply andb_prop in Hc as [Hce Hces].
    apply andb_prop in Hx as [Hpre Hx].
    destruct (print_reply_event_ready (String.length prev) e w s up cp u Hr Hu Hce)
      as (m & w1 & Hm & Hrun & Hr1 & Hout1 & Hcp1 & Hother).
    erewrite bind_Ok by done.
    assert (Hcont : content e = msg_part0 m) by (unfold content; by rewrite Hm).
    assert (Hlen : (String.length prev
                    + String.length (slice_from (String.length prev) (msg_part0 m)))%nat
                   = String.length (content e)).
    { pose proof (f_equal String.length (prefix_slice _ _ Hpre)) as HL.
      rewrite append_length in HL. by rewrite <- Hcont. }
    rewrite Hlen.
    assert (Hu1 : prompts w1 !! up = Some u) by (by rewrite Hother).
    destruct (IH (content e) w1 s up cp u Hr1 Hne Hu1 Hces Hx)
      as (w' & delta & Hrun' & Hr' & Hu' & Hout' & Htext & Hlast).
    exists w', (emit (slice_from (String.length prev) (msg_part0 m)) m ++ delta).
    split_and!; try done.
    + by rewrite Hout', Hout1, <- app_assoc.
    + rewrite emitted_text_app, emitted_text_emit, <- append_assoc.
      rewrite <- Hcont, <- (prefix_slice _ _ Hpre), Htext.
      destruct es as [|e' es']; [done|]. rewrite last_cons_cons.
      destruct (last (e' :: es')) eqn:E; [done|]. by apply last_None in E.
    + intros e' m' Hl Hm'. destruct es as [|e2 es'].
      * simpl in Hl. injection Hl as <-. rewrite Hm in Hm'. injection Hm' as <-.
        simpl in Hrun'. injection Hrun' as <-. done.
      * eapply Hlast; [|done]. by rewrite last_cons_cons in Hl.
Qed.

(** C10.  For a non-empty stream of events without error that carry a
    message, each text extending the one before as a prefix, and a State whose
    user and assistant prompts are two objects: [__print_reply] returns, the
    emitted texts concatenate to the text of the last event, and afterwards the
    assistant prompt holds that text, the own id of the current user prompt as
    parent id, and the node id of the last event as own id. *)
Theorem print_reply_accumulates events w s st u e m :
  self_state w = Some s →
  states w !! s = Some st →
  prompts w !! user_prompt st = Some u →
  is_Some (prompts w !! chatgpt_prompt st) →
  user_prompt st ≠ chatgpt_prompt st →
  forallb clean events = true →
  extends "" (content <$> events) = true →
  last events = Some e →
  ev_message e = Some m →
  ∃ w' delta st' u' a',
    print_reply events w = Ok tt w'
    ∧ out w' = out w ++ delta
    ∧ emitted_text delta = msg_part0 m
    ∧ self_state w' = Some s
    ∧ states w' !! s = Some st'
    ∧ prompts w' !! user_prompt st' = Some u'
    ∧ prompts w' !! chatgpt_prompt st' = Some a'
    ∧ prompt a' = Some (msg_part0 m)
    ∧ parent_id a' = message_id u'
    ∧ message_id a' = Some (msg_id m).
Proof.
  intros Hs Hst Hu Hc Hne Hclean Hx Hlast Hm.
  destruct (print_reply_from_extends events "" w s (user_prompt st) (chatgpt_prompt st) u)
    as (w' & delta & Hrun & (Hs' & (st' & Hst' & Eu & Ec) & _ & _) & Hu' & Hout & Htext & Hcp);
    [by repeat split; eauto | done.. |].
  exists (with_out (out w' ++ [Say plain "" nl]) w'), (delta ++ [Say plain "" nl]), st', u.
  eexists. split_and!.
  - unfold print_reply. erewrite bind_Ok by done. reflexivity.
  - simpl. by rewrite Hout, <- app_assoc.
  - rewrite emitted_text_app. simpl. rewrite append_empty_r.
    change (emitted_text delta = default "" (content <$> last events)) in Htext.
    rewrite Htext, Hlast. simpl. unfold content. by rewrite Hm.
  - done.
  - done.
  - simpl. by rewrite Eu.
  - simpl. rewrite Ec. by eapply Hcp.
  - done.
  - done.
  - done.
Qed.

(** C1, on the two events "Hello" and "Hello, world": the second event emits
    exactly ", world". *)
Lemma print_reply_emits_suffix_hello :
  ∃ chunks w',
    print_reply ex_hello (ex_world ex_new_chat []) = Ok tt w'
    ∧ chunks !! 1%nat = Some ", world"
    ∧ out w' = shown_all chunks ex_hello ++ [Say plain "" nl].
Proof.
  destruct (print_reply_emits_suffix ex_hello (ex_world ex_new_chat []) 0%nat ex_new_chat)
    as (chunks & w' & Hrun & Hlen & Hcur & Hout);
    [reflexivity | reflexivity | by eexists | by eexists | reflexivity |].
  exists chunks, w'. split; [exact Hrun|]. split; [|exact Hout].
  pose proof (Hcur 0%nat (ex_event "Hello") eq_refl) as H0.
  pose proof (Hcur 1%nat (ex_event "Hello, world") eq_refl) as H1.
  destruct chunks as [|c0 chunks]; [discriminate H0|].
  injection H0 as ->. exact H1.
Defined.

Example print_reply_hello_console :
  out (world_of (print_reply ex_hello (ex_world ex_new_chat [])))
  = [Say success "Hello" ""; Say success ", world" ""; Say plain "" nl].
Proof. reflexivity. Qed.

(** C10, on the two events "Hello" and "Hello, world". *)
Lemma print_reply_accumulates_hello :
  ∃ w' delta st' u' a',
    print_reply ex_hello (ex_world ex_new_chat []) = Ok tt w'
    ∧ out w' = delta
    ∧ emitted_text delta = "Hello, world"
    ∧ self_state w' = Some 0%nat
    ∧ states w' !! 0%nat = Some st'
    ∧ prompts w' !! user_prompt st' = Some u'
    ∧ prompts w' !! chatgpt_prompt st' = Some a'
    ∧ prompt a' = Some "Hello, world"
    ∧ parent_id a' = message_id u'
    ∧ message_id a' = Some "a-1".
Proof.
  apply (print_reply_accumulates ex_hello (ex_world ex_new_chat []) 0%nat ex_new_chat
           {| prompt := None; parent_id := Some "u-parent"; message_id := Some "u-own" |}
           (ex_event "Hello, world") (ex_message "a-1" "Hello, world")).
  - reflexivity.
  - reflexivity.
  - reflexivity.
  - by eexists.
  - discriminate.
  - reflexivity.
  - reflexivity.
  - reflexivity.
  - reflexivity.
Defined.

(** C6, amended.  An event whose error field is true in Python's sense (not
    [None], and not an empty string, zero, [False] or an empty container)
    stops the reconciliation at once: the exception carries the error, and
    the world is the one before the event, so neither the assistant prompt nor
    the conversation id is assigned, whatever events follow. *)
Theorem print_reply_error_aborts p e rest w :
  truthy (ev_error e) = true →
  print_reply_event p e w = Raise (Exception (ev_error e)) w
  ∧ print_reply_from p (e :: rest) w = Raise (Exception (ev_error e)) w
  ∧ print_reply (e :: rest) w = Raise (Exception (ev_error e)) w.
Proof.
  intros He.
  assert (Hev : ∀ q, print_reply_event q e w = Raise (Exception (ev_error e)) w).
  { intros q. unfold print_reply_event. by rewrite He. }
  split; [apply Hev|]. split.
  - simpl. by erewrite bind_Raise.
  - unfold print_reply. simpl. erewrite bind_Raise; [done|]. by erewrite bind_Raise.
Qed.

(** C6, amended, on an event with the error "rate limited". *)
Lemma print_reply_error_aborts_failed :
  print_reply_event 5 ex_failed (ex_world ex_open_chat [])
    = Raise (Exception (PyStr "rate limited")) (ex_world ex_open_chat [])
  ∧ print_reply_from 5 [ex_failed; ex_event "Hello"] (ex_world ex_open_chat [])
    = Raise (Exception (PyStr "rate limited")) (ex_world ex_open_chat [])
  ∧ print_reply [ex_failed; ex_event "Hello"] (ex_world ex_open_chat [])
    = Raise (Exception (PyStr "rate limited")) (ex_world ex_open_chat []).
Proof.
  apply (print_reply_error_aborts 5 ex_failed [ex_event "Hello"] (ex_world ex_open_chat [])).
  reflexivity.
Defined.

(** C6 as stated fails: an error field that is not null but false in
    Python's sense (here the empty string) does not stop the reconciliation: the event is processed
    and the assistant prompt and the conversation id are assigned. *)
Lemma print_reply_empty_error_continues :
  ev_error ex_empty_error ≠ PyNone
  ∧ (∀ x w', print_reply_event 0 ex_empty_error (ex_world ex_new_chat []) ≠ Raise x w')
  ∧ print_reply_event 0 ex_empty_error (ex_world ex_new_chat [])
    = Ok 5%nat
        {| prompts :=
             [ {| prompt := None; parent_id := Some "u-parent";
                  message_id := Some "u-own" |};
               {| prompt := Some "Hello"; parent_id := Some "u-own";
                  message_id := Some "a-1" |} ];
           states := [set_conversation_id (Some "conv-1") ex_new_chat];
           self_state := Some 0%nat; script := [];
           out := [Say success "Hello" ""];
           access_token := "token"; version := "1.0" |}
  ∧ prompts (ex_world ex_new_chat []) !! default_chatgpt_prompt
    = Some {| prompt := None; parent_id := Some "a-parent";
              message_id := Some "a-own" |}
  ∧ states (ex_world ex_new_chat []) = [ex_new_chat]
  ∧ conversation_id ex_new_chat = None.
Proof.
  split; [discriminate|]. split; [intros x w'; discriminate|]. by split_and!.
Qed.

(** ** Input framing *)

Lemma get_input_from_framing pre : ∀ lines stop rest w,
  forallb is_text pre = true →
  is_text stop = false →
  get_input_from ((ILine <$> pre) ++ ILine stop :: rest) lines w
  = Ok (if nonempty stop then stop else join nl (lines ++ pre)) (with_script rest w).
Proof.
  induction pre as [|line pre IH]; intros lines stop rest w Hpre Hstop; simpl.
  - rewrite app_nil_r. destruct stop as [|c stop]; [done|].
    unfold is_text in Hstop. simpl in Hstop.
    apply negb_false_iff in Hstop. by rewrite Hstop.
  - simpl in Hpre. apply andb_prop in Hpre as [Hline Hpre].
    unfold is_text in Hline. destruct line as [|c line]; [done|].
    simpl in Hline. apply negb_true_iff in Hline. rewrite Hline.
    rewrite IH by done. by rewrite <- app_assoc.
Qed.

(** C9.  When the console holds the lines [pre], none of them blank or
    starting with [/], and then a line [stop] that is blank or starts with
    [/]: [__get_input] returns [stop] alone when it starts with [/], and the
    lines [pre] joined by newlines when it is blank; the lines after [stop]
    stay on the console. *)
Theorem get_input_framing pre stop rest w :
  forallb is_text pre = true →
  is_text stop = false →
  script w = (ILine <$> pre) ++ ILine stop :: rest →
  get_input w = Ok (if nonempty stop then stop else join nl pre) (with_script rest w).
Proof.
  intros Hpre Hstop Hsc. unfold get_input. rewrite Hsc.
  by rewrite get_input_from_framing.
Qed.

(** C9, on two lines followed by a blank line. *)
Lemma get_input_framing_two_lines :
  get_input (ex_world ex_new_chat [ILine "first"; ILine "second"; ILine ""; ILine "next"])
  = Ok ("first" +:+ nl +:+ "second") (ex_world ex_new_chat [ILine "next"]).
Proof.
  apply (get_input_framing ["first"; "second"] "" [ILine "next"]
           (ex_world ex_new_chat [ILine "first"; ILine "second"; ILine ""; ILine "next"]));
    reflexivity.
Defined.

Example get_input_command_discards :
  get_input (ex_world ex_new_chat [ILine "first"; ILine "/new"; ILine "second"; ILine ""])
  = Ok "/new" (ex_world ex_new_chat [ILine "second"; ILine ""]).
Proof. reflexivity. Qed.

(** ** Environment steps *)

Lemma Prompt_ask_free text typed rest w :
  script w = IAsk typed :: rest →
  Prompt_ask text None w
  = Ok (strip typed) (with_out (out w ++ [Ask text]) (with_script rest w)).
Proof. unfold Prompt_ask. by intros ->. Qed.

Lemma Prompt_ask_stripped text choices typed rest w :
  script w = IAsk typed :: rest → strip typed ∈ choices →
  Prompt_ask text (Some choices) w
  = Ok (strip typed) (with_out (out w ++ [Ask text]) (with_script rest w)).
Proof.
  unfold Prompt_ask. intros -> Hin. simpl. by rewrite bool_decide_eq_true_2.
Qed.

Lemma Prompt_ask_choice text choices s rest w :
  script w = IAsk s :: rest → strip s = s → s ∈ choices →
  Prompt_ask text (Some choices) w
  = Ok s (with_out (out w ++ [Ask text]) (with_script rest w)).
Proof.
  intros Hsc Hs Hin. rewrite <- Hs.
  apply Prompt_ask_stripped; [done | by rewrite Hs].
Qed.

Lemma Confirm_ask_Ok text b rest w :
  script w = IConfirm b :: rest →
  Confirm_ask text w = Ok b (with_out (out w ++ [AskConfirm text]) (with_script rest w)).
Proof. unfold Confirm_ask. by intros ->. Qed.

Lemma call_Ok {A} c (read : Input → option A) i a rest w :
  script w = i :: rest → read i = Some a →
  ChatGPT.call c read w = Ok a (with_out (out w ++ [Remote c]) (with_script rest w)).
Proof. unfold ChatGPT.call. by intros -> ->. Qed.

Lemma say_Ok f text w : say f text w = Ok tt (with_out (out w ++ [Say f text nl]) w).
Proof. reflexivity. Qed.

(** ** Title validation *)

(** C7.  For a State that has a conversation id, the requested title is the
    line typed at the prompt, stripped.  A title of more than 64 characters
    is rejected with "Title too long." before any call of the client: nothing
    is sent, the answer of the client is not read and no State changes.  A
    title of at most 64 characters is passed to [set_conversation_title];
    when that call returns true the title of the State becomes the requested
    title and its other attributes stay, and when it returns false the State
    stays as it was. *)
Theorem set_conversation_title_validates state st typed rest w :
  states w !! state = Some st →
  truthy_str (conversation_id st) = true →
  script w = IAsk typed :: rest →
  let new_title := strip typed in
  (64 < String.length new_title →
   set_conversation_title state w
   = Ok tt (with_out (out w ++ [Ask "New title"; Say error "#### Title too long." nl])
              (with_script rest w)))
  ∧ (String.length new_title ≤ 64 →
     ∀ ok rest', rest = ISetTitle ok :: rest' →
     set_conversation_title state w
     = Ok tt
         (with_out
            (out w
             ++ [Ask "New title";
                 Remote (Call.set_conversation_title (conversation_id st) new_title);
                 if ok then Say debug "#### Set title success." nl
                 else Say error "#### Set title failed." nl])
            (with_states
               (if ok
                then <[state := {| title := Some new_title;
                                   conversation_id := conversation_id st;
                                   model_slug := model_slug st;
                                   user_prompt := user_prompt st;
                                   chatgpt_prompt := chatgpt_prompt st |}]> (states w)
                else states w)
               (with_script rest' w)))).
Proof.
  intros Hst Hcid Hsc new_title.
  assert (Hrun : set_conversation_title state w
    = (if (64 <? String.length new_title)%nat then say error "#### Title too long."
       else
         let* st := read_state state in
         let* ok := ChatGPT.set_conversation_title (conversation_id st) new_title in
         if ok : bool then
           write_state state (set_title (Some new_title)) ;;
           say debug "#### Set title success."
         else say error "#### Set title failed.")
        (with_out (out w ++ [Ask "New title"]) (with_script rest w))).
  { unfold set_conversation_title. erewrite bind_Ok by (by apply read_state_Ok).
    rewrite Hcid. simpl. by erewrite bind_Ok by (by apply Prompt_ask_free). }
  split.
  - intros Hlong. apply Nat.ltb_lt in Hlong. rewrite Hrun, Hlong.
    unfold say, say_end, log, with_out, with_script. simpl.
    by rewrite <- app_assoc.
  - intros Hshort ok rest' ->.
    assert (Hle : (64 <? String.length new_title)%nat = false) by (apply Nat.ltb_ge; lia).
    rewrite Hrun, Hle.
    erewrite bind_Ok by (by apply read_state_Ok).
    erewrite bind_Ok by (by eapply call_Ok).
    destruct ok.
    + erewrite bind_Ok by (by apply write_state_Ok).
      unfold say, say_end, log, with_out, with_states, with_script. simpl.
      by rewrite <- !app_assoc.
    + unfold say, say_end, log, with_out, with_states, with_script. simpl.
      by rewrite <- !app_assoc.
Qed.

(** C7, on a title of 65 characters, and on a title of 64 characters typed
    with a blank after it, once accepted and once refused by the client. *)
Lemma set_conversation_title_validates_64_65 :
  set_conversation_title 0 (ex_world ex_open_chat [IAsk ex_title65; ISetTitle true])
  = Ok tt {| prompts := ex_prompts; states := [ex_open_chat];
             self_state := Some 0%nat; script := [ISetTitle true];
             out := [Ask "New title"; Say error "#### Title too long." nl];
             access_token := "token"; version := "1.0" |}
  ∧ set_conversation_title 0
      (ex_world ex_open_chat [IAsk (ex_title64 +:+ " "); ISetTitle true; ILine "next"])
    = Ok tt {| prompts := ex_prompts;
               states := [ {| title := Some ex_title64;
                              conversation_id := Some "conv-1";
                              model_slug := Some "gpt";
                              user_prompt := default_user_prompt;
                              chatgpt_prompt := default_chatgpt_prompt |} ];
               self_state := Some 0%nat; script := [ILine "next"];
               out := [Ask "New title";
                       Remote (Call.set_conversation_title (Some "conv-1") ex_title64);
                       Say debug "#### Set title success." nl];
               access_token := "token"; version := "1.0" |}
  ∧ set_conversation_title 0
      (ex_world ex_open_chat [IAsk ex_title64; ISetTitle false])
    = Ok tt {| prompts := ex_prompts;
               states := [ {| title := Some "Trip";
                              conversation_id := Some "conv-1";
                              model_slug := Some "gpt";
                              user_prompt := default_user_prompt;
                              chatgpt_prompt := default_chatgpt_prompt |} ];
               self_state := Some 0%nat; script := [];
               out := [Ask "New title";
                       Remote (Call.set_conversation_title (Some "conv-1") ex_title64);
                       Say error "#### Set title failed." nl];
               access_token := "token"; version := "1.0" |}.
Proof.
  split; [|split].
  - apply (proj1 (set_conversation_title_validates 0 ex_open_chat ex_title65
                    [ISetTitle true]
                    (ex_world ex_open_chat [IAsk ex_title65; ISetTitle true])
                    eq_refl eq_refl eq_refl)).
    vm_compute; lia.
  - apply (proj2 (set_conversation_title_validates 0 ex_open_chat (ex_title64 +:+ " ")
                    [ISetTitle true; ILine "next"]
                    (ex_world ex_open_chat
                       [IAsk (ex_title64 +:+ " "); ISetTitle true; ILine "next"])
                    eq_refl eq_refl eq_refl)
             ltac:(vm_compute; lia) true [ILine "next"] eq_refl).
  - apply (proj2 (set_conversation_title_validates 0 ex_open_chat ex_title64
                    [ISetTitle false]
                    (ex_world ex_open_chat [IAsk ex_title64; ISetTitle false])
                    eq_refl eq_refl eq_refl)
             ltac:(vm_compute; lia) false [] eq_refl).
Defined.

(** ** Command dispatch *)

Lemma talk_turn_command pc u rest w :
  starts_with_slash u = true →
  script w = ILine u :: rest →
  talk_turn pc w = pc u (with_out (out w ++ [Say info_b "You:" nl]) (with_script rest w)).
Proof.
  intros Hu Hsc. unfold talk_turn.
  erewrite bind_Ok by apply say_Ok.
  assert (Hin : get_input (with_out (out w ++ [Say info_b "You:" nl]) w)
                = Ok u (with_out (out w ++ [Say info_b "You:" nl]) (with_script rest w))).
  { unfold get_input. cbn [script with_out]. rewrite Hsc.
    destruct u as [|c u]; [done|]. unfold starts_with_slash in Hu.
    cbn [get_input_from]. by rewrite Hu. }
  erewrite bind_Ok by exact Hin.
  destruct u as [|c u]; [done|]. unfold starts_with_slash in Hu. by rewrite Hu.
Qed.

Lemma process_command_table fuel u aliases a w :
  (aliases, a) ∈ dispatch_table →
  lower (strip u) ∈ aliases →
  process_command (S fuel) u w = perform fuel a w.
Proof.
  intros Hrow Hal. unfold dispatch_table in Hrow.
  repeat (apply elem_of_cons in Hrow as [Hrow|Hrow];
          [injection Hrow as -> ->;
           repeat (apply elem_of_cons in Hal as [Hal|Hal];
                   [simpl; rewrite Hal; reflexivity|]);
           by apply elem_of_nil in Hal|]).
  by apply elem_of_nil in Hrow.
Qed.

(** C3, amended.  The dispatcher matches its argument after [strip] and
    [lower]: when the result is an alias of a row of the table, the effect of
    that row is taken.  The talk loop hands a unit to the dispatcher when the
    unit starts with [/]; for such a unit the row's effect is what the round
    of the loop does. *)
Theorem dispatch_normalises fuel u aliases a rest w :
  (aliases, a) ∈ dispatch_table →
  lower (strip u) ∈ aliases →
  process_command (S fuel) u w = perform fuel a w
  ∧ (starts_with_slash u = true →
     script w = ILine u :: rest →
     talk_turn (process_command (S fuel)) w
     = perform fuel a (with_out (out w ++ [Say info_b "You:" nl]) (with_script rest w))).
Proof.
  intros Hrow Hal. split; [by eapply process_command_table|].
  intros Hu Hsc. erewrite talk_turn_command by done. by eapply process_command_table.
Qed.

(** C3, amended, on "/QUIT  ": the exit signal is raised. *)
Lemma dispatch_normalises_QUIT :
  process_command 1 "/QUIT  " (ex_world ex_new_chat [ILine "/QUIT  "])
  = Raise KeyboardInterrupt (ex_world ex_new_chat [ILine "/QUIT  "])
  ∧ talk_turn (process_command 1) (ex_world ex_new_chat [ILine "/QUIT  "])
    = Raise KeyboardInterrupt
        (with_out [Say info_b "You:" nl] (ex_world ex_new_chat [])).
Proof.
  destruct (dispatch_normalises 0 "/QUIT  " ["/quit"; "/exit"; "/bye"] Quit []
              (ex_world ex_new_chat [ILine "/QUIT  "])) as [H1 H2].
  - apply list_elem_of_here.
  - change (lower (strip "/QUIT  ")) with "/quit". apply list_elem_of_here.
  - split; [exact H1|]. apply H2; reflexivity.
Defined.

(** The dispatcher itself trims on both sides. *)
Example process_command_trims :
  process_command 1 "  /QUIT  " (ex_world ex_new_chat [])
  = Raise KeyboardInterrupt (ex_world ex_new_chat []).
Proof. reflexivity. Qed.

(** C3 as stated fails: the talk loop hands a unit to the dispatcher only
    when its first character is [/].  "  /QUIT  " equals "/quit" up to case
    and surrounding whitespace, yet it is sent to the model as a message and
    no exit signal is raised. *)
Lemma talk_turn_leading_space_is_a_message :
  let w := ex_world ex_new_chat
             [ILine "  /QUIT  "; ILine ""; IUuid "m-1"; IStream [ex_event "Bye"];
              ITitle "Farewell"] in
  let r := talk_turn (process_command 5) w in
  lower (strip "  /QUIT  ") = "/quit"
  ∧ (∀ w', r ≠ Raise KeyboardInterrupt w')
  ∧ r = Ok tt (world_of r)
  ∧ out (world_of r)
    = [Say info_b "You:" nl; Say success_b "ChatGPT:" nl;
       Remote (Call.talk "  /QUIT  " (Some "gpt") (Some "m-1") (Some "a-own") None);
       Say success "Bye" ""; Say plain "" nl;
       Remote (Call.gen_conversation_title (Some "conv-1") (Some "gpt") (Some "a-1"));
       Say debug_bh "#### Title generated: Farewell" nl].
Proof.
  intros w r. vm_compute in r. subst r.
  split; [reflexivity|]. split; [intros w'; discriminate|].
  split; reflexivity.
Qed.

(** ** Conversation selector *)

Lemma pretty_N_char_digit x : is_Some (digit_of (pretty_N_char x)).
Proof. unfold pretty_N_char. repeat case_match; by eexists. Qed.

Lemma pretty_N_go_digit x : ∀ s,
  (0 < x)%N ∨ starts_with_digit s = true →
  starts_with_digit (pretty_N_go x s) = true.
Proof.
  induction (N.lt_wf_0 x) as [x _ IH]; intros s Hs.
  destruct (decide (x = 0%N)) as [->|Hx].
  - rewrite pretty_N_go_0. destruct Hs as [Hs|Hs]; [lia | done].
  - rewrite pretty_N_go_step by lia. apply IH.
    + apply N.div_lt; lia.
    + right. simpl. apply bool_decide_eq_true_2, pretty_N_char_digit.
Qed.

Lemma pretty_nat_digit (n : nat) : starts_with_digit (pretty n) = true.
Proof.
  unfold pretty, pretty_nat, pretty, pretty_N. case_decide as Hn; [done|].
  apply pretty_N_go_digit. lia.
Qed.

Lemma item_choices_letter idx items c :
  starts_with_digit c = false → c ≠ "" →
  (∀ rest, c ≠ String "t" rest) → (∀ rest, c ≠ String "d" rest) →
  c ∉ item_choices idx items.
Proof.
  intros Hc Hne Ht Hd. revert idx. induction items as [|item items IH]; intros idx; simpl.
  - apply not_elem_of_nil.
  - rewrite !not_elem_of_cons. split_and!; [| apply Ht | apply Hd | apply IH].
    intros ->. by rewrite pretty_nat_digit in Hc.
Qed.

Lemma show_items_Ok items : ∀ idx choices w,
  show_items idx items choices w
  = Ok (choices ++ item_choices idx items) (with_out (out w ++ item_lines idx items) w).
Proof.
  induction items as [|item items IH]; intros idx choices w; simpl.
  - rewrite !app_nil_r. by destruct w.
  - erewrite bind_Ok by apply say_Ok. rewrite IH. simpl.
    by rewrite <- !app_assoc.
Qed.

Lemma item_lines_warn idx items text : Say warn text nl ∉ item_lines idx items.
Proof.
  revert idx. induction items as [|item items IH]; intros idx; simpl.
  - apply not_elem_of_nil.
  - rewrite not_elem_of_cons. split; [done | apply IH].
Qed.

Lemma choice_conversation_menu fuel page page_size l rest w :
  script w = IListing l :: rest → ls_total l ≠ 0%Z →
  choice_conversation (S fuel) page page_size w
  = choice_loop fuel page page_size (ls_items l) (offered l)
      (with_out
         (out w ++ Remote (Call.list_conversations ((page - 1) * page_size) page_size)
            :: page_header page :: menu l)
         (with_script rest w)).
Proof.
  intros Hsc Ht. cbn [choice_conversation].
  erewrite bind_Ok by (by eapply call_Ok).
  apply Z.eqb_neq in Ht. rewrite Ht.
  erewrite bind_Ok by apply say_Ok.
  rewrite (bind_Ok _ _ _ _ _ (show_items_Ok _ _ _ _)).
  unfold offered, menu.
  destruct (ls_total l <=? ls_offset l + ls_limit l)%Z, (0 =? ls_offset l)%Z; simpl;
    unfold bind, say, say_end, log, ret; simpl;
    rewrite <- ?app_assoc; simpl; rewrite ?app_nil_r; reflexivity.
Qed.

Lemma Prompt_ask_refused text choices typed rest w :
  script w = IAsk typed :: rest → strip typed ∉ choices →
  Prompt_ask text (Some choices) w
  = Prompt_ask text (Some choices)
      (with_out (out w ++ [Ask text]) (with_script rest w)).
Proof.
  unfold Prompt_ask. intros -> Hin. simpl. by rewrite bool_decide_eq_false_2.
Qed.

Lemma choice_loop_refused fuel page page_size items choices typed rest w :
  script w = IAsk typed :: rest → strip typed ∉ choices →
  choice_loop (S fuel) page page_size items choices w
  = choice_loop (S fuel) page page_size items choices
      (with_out (out w ++ [Ask "Your choice"]) (with_script rest w)).
Proof.
  intros Hsc Hin. cbn [choice_loop]. unfold bind.
  by rewrite (Prompt_ask_refused _ _ _ _ _ Hsc Hin).
Qed.

Lemma choice_loop_n fuel page page_size items choices rest w :
  script w = IAsk "n" :: rest → "n" ∈ choices →
  choice_loop (S fuel) page page_size items choices w
  = choice_conversation fuel (page + 1) page_size
      (with_out (out w ++ [Ask "Your choice"]) (with_script rest w)).
Proof.
  intros Hsc Hin. cbn [choice_loop].
  by erewrite bind_Ok by (by apply Prompt_ask_choice).
Qed.

Lemma choice_loop_p fuel page page_size items choices rest w :
  script w = IAsk "p" :: rest → "p" ∈ choices →
  choice_loop (S fuel) page page_size items choices w
  = choice_conversation fuel (page - 1) page_size
      (with_out (out w ++ [Ask "Your choice"]) (with_script rest w)).
Proof.
  intros Hsc Hin. cbn [choice_loop].
  by erewrite bind_Ok by (by apply Prompt_ask_choice).
Qed.

Lemma offered_n l :
  "n" ∈ offered l ↔ ¬ (ls_offset l + ls_limit l >= ls_total l)%Z.
Proof.
  assert (Hn : "n" ∉ item_choices 0 (ls_items l)) by (by apply item_choices_letter).
  unfold offered.
  destruct (Z.leb_spec (ls_total l) (ls_offset l + ls_limit l)) as [Hlast|Hlast];
    destruct (Z.eqb_spec 0 (ls_offset l)) as [Hfirst|Hfirst];
    rewrite ?elem_of_app, ?elem_of_cons, ?elem_of_nil;
    split; intros H; try lia; try (by eauto 10);
    (destruct_or?; try done; try lia).
Qed.

Lemma offered_p l : "p" ∈ offered l ↔ ls_offset l ≠ 0%Z.
Proof.
  assert (Hp : "p" ∉ item_choices 0 (ls_items l)) by (by apply item_choices_letter).
  unfold offered.
  destruct (Z.leb_spec (ls_total l) (ls_offset l + ls_limit l)) as [Hlast|Hlast];
    destruct (Z.eqb_spec 0 (ls_offset l)) as [Hfirst|Hfirst];
    rewrite ?elem_of_app, ?elem_of_cons, ?elem_of_nil;
    split; intros H; try lia; try (by eauto 10);
    (destruct_or?; try done; try lia).
Qed.

Lemma menu_n l :
  Say warn "  n. >> Next page" nl ∈ menu l
  ↔ ¬ (ls_offset l + ls_limit l >= ls_total l)%Z.
Proof.
  pose proof (item_lines_warn 0 (ls_items l) "  n. >> Next page") as Hln.
  unfold menu.
  destruct (Z.leb_spec (ls_total l) (ls_offset l + ls_limit l)) as [Hlast|Hlast];
    destruct (Z.eqb_spec 0 (ls_offset l)) as [Hfirst|Hfirst];
    rewrite ?elem_of_app, ?elem_of_cons, ?elem_of_nil;
    split; intros H; try lia; try (by eauto 10);
    (destruct_or?; try done; try lia).
Qed.

Lemma menu_p l :
  Say warn "  p. << Previous page" nl ∈ menu l ↔ ls_offset l ≠ 0%Z.
Proof.
  pose proof (item_lines_warn 0 (ls_items l) "  p. << Previous page") as Hlp.
  unfold menu.
  destruct (Z.leb_spec (ls_total l) (ls_offset l + ls_limit l)) as [Hlast|Hlast];
    destruct (Z.eqb_spec 0 (ls_offset l)) as [Hfirst|Hfirst];
    rewrite ?elem_of_app, ?elem_of_cons, ?elem_of_nil;
    split; intros H; try lia; try (by eauto 10);
    (destruct_or?; try done; try lia).
Qed.

(** C4, amended.  Write [last_page] for [offset + limit >= total] and
    [first_page] for [offset = 0].  For a listing whose total is zero the
    selector returns "no selection" at once.  For a listing whose total is
    not zero it prints the header and the lines [menu l], and then asks for a
    choice among [offered l]: "n" is among the choices, and the line "Next
    page" among the lines, exactly when [last_page] does not hold; "p" is
    among the choices, and the line "Previous page" among the lines, exactly
    when [first_page] does not hold.  Accordingly an "n" typed at the prompt
    fetches the next page when [last_page] does not hold and is asked again
    when it holds, and a "p" fetches the previous page when [first_page] does
    not hold and is asked again when it holds. *)
Theorem choice_conversation_offers fuel page page_size l rest w :
  script w = IListing l :: rest →
  let fetched :=
    Remote (Call.list_conversations ((page - 1) * page_size) page_size) in
  let last_page := (ls_offset l + ls_limit l >= ls_total l)%Z in
  let first_page := ls_offset l = 0%Z in
  let printed := out w ++ fetched :: page_header page :: menu l in
  (ls_total l = 0%Z →
   choice_conversation (S fuel) page page_size w
   = Ok None (with_out (out w ++ [fetched]) (with_script rest w)))
  ∧ (ls_total l ≠ 0%Z →
     choice_conversation (S fuel) page page_size w
     = choice_loop fuel page page_size (ls_items l) (offered l)
         (with_out printed (with_script rest w))
     ∧ ("n" ∈ offered l ↔ ¬ last_page)
     ∧ ("p" ∈ offered l ↔ ¬ first_page)
     ∧ (Say warn "  n. >> Next page" nl ∈ menu l ↔ ¬ last_page)
     ∧ (Say warn "  p. << Previous page" nl ∈ menu l ↔ ¬ first_page)
     ∧ (∀ fuel' rest', fuel = S fuel' → rest = IAsk "n" :: rest' →
        let asked :=
          with_out (printed ++ [Ask "Your choice"]) (with_script rest' w) in
        (¬ last_page →
         choice_conversation (S fuel) page page_size w
         = choice_conversation fuel' (page + 1) page_size asked)
        ∧ (last_page →
           choice_conversation (S fuel) page page_size w
           = choice_loop fuel page page_size (ls_items l) (offered l) asked))
     ∧ (∀ fuel' rest', fuel = S fuel' → rest = IAsk "p" :: rest' →
        let asked :=
          with_out (printed ++ [Ask "Your choice"]) (with_script rest' w) in
        (¬ first_page →
         choice_conversation (S fuel) page page_size w
         = choice_conversation fuel' (page - 1) page_size asked)
        ∧ (first_page →
           choice_conversation (S fuel) page page_size w
           = choice_loop fuel page page_size (ls_items l) (offered l) asked))).
Proof.
  intros Hsc fetched last_page first_page printed. split.
  { intros Ht. cbn [choice_conversation].
    erewrite bind_Ok by (by eapply call_Ok). by rewrite Ht. }
  intros Ht.
  pose proof (choice_conversation_menu fuel page page_size l rest w Hsc Ht) as Hmenu.
  split_and!;
    [exact Hmenu | apply offered_n | apply offered_p | apply menu_n | apply menu_p | |].
  - intros fuel' rest' -> -> asked. rewrite Hmenu. split; intros Hlast.
    + erewrite choice_loop_n; [reflexivity | reflexivity | by apply offered_n].
    + erewrite choice_loop_refused; [reflexivity | reflexivity |].
      change (strip "n") with "n". rewrite offered_n. tauto.
  - intros fuel' rest' -> -> asked. rewrite Hmenu. split; intros Hfirst.
    + erewrite choice_loop_p; [reflexivity | reflexivity | by apply offered_p].
    + erewrite choice_loop_refused; [reflexivity | reflexivity |].
      change (strip "p") with "p". rewrite offered_p. tauto.
Qed.

(** C4, amended, on 45 conversations with 20 to the page.  Page 1 offers "n"
    and no "p": a "p" typed there is asked again, and an "n" fetches page 2.
    Page 3 (offset 40) offers "p" and no "n": an "n" typed there is asked
    again. *)
Lemma choice_conversation_offers_45 :
  ("n" ∈ offered ex_page1 ∧ ("p" ∉ offered ex_page1)
   ∧ (Say warn "  p. << Previous page" nl ∉ menu ex_page1)
   ∧ choice_conversation 2 1 20
       (ex_world ex_new_chat [IListing ex_page1; IAsk "p"; IAsk "c"])
     = Ok None
         (with_out
            (Remote (Call.list_conversations 0 20) :: page_header 1
             :: (menu ex_page1 ++ [Ask "Your choice"; Ask "Your choice"]))
            (ex_world ex_new_chat []))
   ∧ choice_conversation 3 1 20
       (ex_world ex_new_chat [IListing ex_page1; IAsk "n"; IListing ex_no_page2])
     = Ok None
         (with_out
            (Remote (Call.list_conversations 0 20) :: page_header 1
             :: (menu ex_page1
                 ++ [Ask "Your choice"; Remote (Call.list_conversations 20 20)]))
            (ex_world ex_new_chat [])))
  ∧ (("n" ∉ offered ex_page3) ∧ "p" ∈ offered ex_page3
     ∧ (Say warn "  n. >> Next page" nl ∉ menu ex_page3)
     ∧ choice_conversation 2 3 20
         (ex_world ex_new_chat [IListing ex_page3; IAsk "n"; IAsk "c"])
       = Ok None
           (with_out
              (Remote (Call.list_conversations 40 20) :: page_header 3
               :: (menu ex_page3 ++ [Ask "Your choice"; Ask "Your choice"]))
              (ex_world ex_new_chat []))).
Proof.
  split.
  - destruct (proj2 (choice_conversation_offers 1 1 20 ex_page1 [IAsk "p"; IAsk "c"]
                       (ex_world ex_new_chat [IListing ex_page1; IAsk "p"; IAsk "c"])
                       eq_refl))
      as (_ & Hn & Hp & _ & Hlp & _ & Hask); [discriminate|].
    destruct (proj2 (choice_conversation_offers 2 1 20 ex_page1
                       [IAsk "n"; IListing ex_no_page2]
                       (ex_world ex_new_chat
                          [IListing ex_page1; IAsk "n"; IListing ex_no_page2])
                       eq_refl))
      as (_ & _ & _ & _ & _ & Hnext & _); [discriminate|].
    split_and!.
    + apply Hn. simpl. lia.
    + intros H. by apply Hp in H.
    + intros H. by apply Hlp in H.
    + rewrite (proj2 (Hask 0%nat [IAsk "c"] eq_refl eq_refl) eq_refl). reflexivity.
    + rewrite (proj1 (Hnext 1%nat [IListing ex_no_page2] eq_refl eq_refl));
        [reflexivity | simpl; lia].
  - destruct (proj2 (choice_conversation_offers 1 3 20 ex_page3 [IAsk "n"; IAsk "c"]
                       (ex_world ex_new_chat [IListing ex_page3; IAsk "n"; IAsk "c"])
                       eq_refl))
      as (_ & Hn & Hp & Hln & _ & Hask & _); [discriminate|].
    split_and!.
    + intros H. apply Hn in H. simpl in H. lia.
    + by apply Hp.
    + intros H. apply Hln in H. simpl in H. lia.
    + rewrite (proj2 (Hask 0%nat [IAsk "c"] eq_refl eq_refl)); [reflexivity|].
      simpl. lia.
Defined.

(** C4 as stated fails for a listing with total 0.
    With a total of 0 the selector returns before it builds any choice: the
    listing is not the first page (offset 20), yet no "p" is offered, and the
    answer waiting on the console is not read. *)
Lemma choice_conversation_empty_offers_nothing :
  ls_offset ex_no_page2 ≠ 0%Z
  ∧ choice_conversation 5 2 20 (ex_world ex_new_chat [IListing ex_no_page2; IAsk "p"])
    = Ok None (with_out [Remote (Call.list_conversations 20 20)]
                 (ex_world ex_new_chat [IAsk "p"])).
Proof.
  split; [discriminate | reflexivity].
Qed.

(** ** Deleting from the selector *)

Lemma talk_loop_never_returns fuel : ∀ w x w', talk_loop fuel w ≠ Ok x w'.
Proof.
  induction fuel as [|fuel IH]; intros w x w'; [done|].
  cbn [talk_loop]. unfold bind.
  destruct (talk_turn (process_command fuel) w); first [done | apply IH].
Qed.

Lemma run_never_returns fuel w x w' : run fuel w ≠ Ok x w'.
Proof.
  destruct fuel as [|fuel]; [done|]. cbn [run]. unfold bind.
  destruct (choice_conversation fuel 1 20 w) as [[item|] w1| | |]; try done.
  - destruct (load_conversation fuel (Some (item_id item)) w1);
      first [done | apply talk_loop_never_returns].
  - destruct (new_conversation w1); first [done | apply talk_loop_never_returns].
Qed.

Lemma choice_loop_d fuel page page_size items choices digits k item rest w :
  script w = IAsk (String "d" digits) :: rest →
  String "d" digits ∈ choices →
  int_of digits = Some k →
  getitem items (k - 1) = Some item →
  choice_loop (S fuel) page page_size items choices w
  = (del_conversation fuel (length (states w)) ;;
     choice_loop fuel page page_size items choices)
      (with_out (out w ++ [Ask "Your choice"])
         (with_states (states w ++ [picked item]) (with_script rest w))).
Proof.
  intros Hsc Hin Hint Hget. cbn [choice_loop].
  erewrite bind_Ok
    by (apply Prompt_ask_choice; [done | by eapply strip_letter_digits | done]).
  change (String.eqb "c" (String "d" digits)) with false.
  change (String.eqb "n" (String "d" digits)) with false.
  change (String.eqb "p" (String "d" digits)) with false.
  change (Ascii.eqb "t" "d") with false. change (Ascii.eqb "d" "d") with true.
  cbv iota. unfold item_at. rewrite Hint, Hget.
  reflexivity.
Qed.

Lemma del_conversation_asks fuel state st yes rest w :
  states w !! state = Some st →
  truthy_str (conversation_id st) = true →
  script w = IConfirm yes :: rest →
  del_conversation (S fuel) state w
  = (if yes then
       let* ok := ChatGPT.del_conversation (conversation_id st) in
       if ok : bool then run fuel else say error "#### Delete conversation failed."
     else ret tt)
      (with_out (out w ++ [AskConfirm "Are you sure?"]) (with_script rest w)).
Proof.
  intros Hst Hcid Hsc. cbn [del_conversation].
  erewrite bind_Ok by (by apply read_state_Ok). rewrite Hcid. cbn [negb].
  erewrite bind_Ok by (by apply Confirm_ask_Ok).
  destruct yes; cbn [negb]; [|done].
  by erewrite bind_Ok by (by apply read_state_Ok).
Qed.

(** C5, amended.  The choice [d<idx>] for an item with an id asks for
    confirmation.  When the user declines, and when the delete call returns
    false (after "Delete conversation failed."), the loop asks for the next
    choice among the same choices: nothing is fetched and no page is printed.
    When the delete call returns true, [run] starts the bot over from the
    selection of a conversation; [run] does not return, so the loop that ran
    the delete is not resumed. *)
Theorem choice_loop_delete fuel page page_size items choices digits k item rest w :
  String "d" digits ∈ choices →
  int_of digits = Some k →
  getitem items (k - 1) = Some item →
  nonempty (item_id item) = true →
  let asked := out w ++ [Ask "Your choice"; AskConfirm "Are you sure?"] in
  let stored := states w ++ [picked item] in
  let deleted := Remote (Call.del_conversation (Some (item_id item))) in
  (script w = IAsk (String "d" digits) :: IConfirm false :: rest →
   choice_loop (S (S fuel)) page page_size items choices w
   = choice_loop (S fuel) page page_size items choices
       (with_out asked (with_states stored (with_script rest w))))
  ∧ (script w = IAsk (String "d" digits) :: IConfirm true :: IDeleted false :: rest →
     choice_loop (S (S fuel)) page page_size items choices w
     = choice_loop (S fuel) page page_size items choices
         (with_out (asked ++ [deleted; Say error "#### Delete conversation failed." nl])
            (with_states stored (with_script rest w))))
  ∧ (script w = IAsk (String "d" digits) :: IConfirm true :: IDeleted true :: rest →
     let w' := with_out (asked ++ [deleted]) (with_states stored (with_script rest w)) in
     choice_loop (S (S fuel)) page page_size items choices w
     = (run fuel ;; choice_loop (S fuel) page page_size items choices) w'
     ∧ (∀ x w'', run fuel w' ≠ Ok x w'')
     ∧ (∀ x w'', choice_loop (S (S fuel)) page page_size items choices w ≠ Ok x w'')).
Proof.
  intros Hin Hint Hget Hid asked stored deleted.
  assert (Hdel : ∀ yes rest',
    script w = IAsk (String "d" digits) :: IConfirm yes :: rest' →
    choice_loop (S (S fuel)) page page_size items choices w
    = ((if yes then
          let* ok := ChatGPT.del_conversation (Some (item_id item)) in
          if ok : bool then run fuel else say error "#### Delete conversation failed."
        else ret tt) ;;
       choice_loop (S fuel) page page_size items choices)
        (with_out asked (with_states stored (with_script rest' w)))).
  { intros yes rest' Hsc. erewrite choice_loop_d by done.
    unfold bind at 1.
    erewrite (del_conversation_asks fuel (length (states w)) (picked item) yes rest');
      [| by apply list_lookup_middle | done | done].
    subst asked stored. cbn [out with_out with_script with_states script states].
    rewrite <- app_assoc. reflexivity. }
  split_and!.
  - intros Hsc. by rewrite (Hdel false rest Hsc).
  - intros Hsc. rewrite (Hdel true _ Hsc).
    unfold bind at 1. erewrite bind_Ok by (by eapply call_Ok).
    lazy beta iota delta [say say_end log].
    cbn [out with_out with_script with_states script states].
    by rewrite <- !app_assoc.
  - intros Hsc w'.
    assert (Hrun : choice_loop (S (S fuel)) page page_size items choices w
                   = (run fuel ;; choice_loop (S fuel) page page_size items choices) w').
    { rewrite (Hdel true _ Hsc). unfold bind at 1.
      erewrite bind_Ok by (by eapply call_Ok). reflexivity. }
    split_and!; [done | intros x w''; apply run_never_returns |].
    intros x w''. rewrite Hrun. unfold bind.
    pose proof (run_never_returns fuel w') as Hnever.
    destruct (run fuel w'); try done. by destruct (Hnever a w0).
Qed.

(** C5, amended, on a declined [d1]. *)
Lemma choice_loop_delete_declined :
  choice_loop 2 2 20 (ls_items ex_page2) (offered ex_page2)
    (ex_world ex_new_chat [IAsk "d1"; IConfirm false; IAsk "c"])
  = choice_loop 1 2 20 (ls_items ex_page2) (offered ex_page2)
      (with_out [Ask "Your choice"; AskConfirm "Are you sure?"]
         (with_states [ex_new_chat; picked (ex_item "1")]
            (ex_world ex_new_chat [IAsk "c"]))).
Proof.
  assert (Hin : "d1" ∈ offered ex_page2).
  { change (offered ex_page2) with ["c"; "1"; "t1"; "d1"; "p"].
    do 3 apply list_elem_of_further. apply list_elem_of_here. }
  apply (proj1 (choice_loop_delete 0 2 20 (ls_items ex_page2) (offered ex_page2)
                  "1" 1 (ex_item "1") [IAsk "c"]
                  (ex_world ex_new_chat [IAsk "d1"; IConfirm false; IAsk "c"])
                  Hin eq_refl eq_refl eq_refl)).
  reflexivity.
Defined.

(** C5 as stated fails: the same page is not displayed again.
    After a declined or a failed delete the page is neither fetched nor
    printed again; after a successful one the bot starts over with page 1, and
    the exit typed later in the talk loop is raised through the picker. *)
Lemma choice_conversation_delete_does_not_redisplay :
  let declined := choice_conversation 9 2 20
    (ex_world ex_new_chat [IListing ex_page2; IAsk "d1"; IConfirm false; IAsk "c"]) in
  let failed := choice_conversation 9 2 20
    (ex_world ex_new_chat
       [IListing ex_page2; IAsk "d1"; IConfirm true; IDeleted false; IAsk "c"]) in
  let deleted := choice_conversation 9 2 20
    (ex_world ex_new_chat
       [IListing ex_page2; IAsk "d1"; IConfirm true; IDeleted true;
        IListing ex_after_delete; IAsk "c"; IModels [ex_model]; ILine "/quit"]) in
  (declined = Ok None (world_of declined)
   ∧ fetches 20 20 (out (world_of declined)) = 1%nat
   ∧ headers 2 (out (world_of declined)) = 1%nat)
  ∧ (failed = Ok None (world_of failed)
     ∧ fetches 20 20 (out (world_of failed)) = 1%nat
     ∧ headers 2 (out (world_of failed)) = 1%nat)
  ∧ (deleted = Raise KeyboardInterrupt (world_of deleted)
     ∧ fetches 20 20 (out (world_of deleted)) = 1%nat
     ∧ headers 2 (out (world_of deleted)) = 1%nat
     ∧ fetches 0 20 (out (world_of deleted)) = 1%nat
     ∧ headers 1 (out (world_of deleted)) = 1%nat).
Proof.
  intros declined failed deleted.
  vm_compute in declined. vm_compute in failed. vm_compute in deleted.
  subst declined failed deleted. by split_and!.
Qed.

(** ** Loading a conversation *)

Lemma walk_S fuel mapping id nodes :
  walk (S fuel) mapping id nodes
  = match mapping !! id with
    | None => raise (KeyError id)
    | Some node =>
        if negb (truthy_str (node_parent node)) then ret nodes
        else walk fuel mapping (default "" (node_parent node)) (node :: nodes)
    end.
Proof. reflexivity. Qed.

Lemma walk_chain mapping id nodes :
  chain mapping id nodes →
  ∀ fuel acc w,
    walk (S (length nodes) + fuel) mapping id acc w = Ok (nodes ++ acc) w.
Proof.
  induction 1 as [id node Hnode Hroot | id node parent nodes Hnode Hpar Hne _ IH];
    intros fuel acc w.
  - change (S (length []) + fuel)%nat with (S fuel). by rewrite walk_S, Hnode, Hroot.
  - rewrite length_app, Nat.add_1_r.
    change (S (S (length nodes)) + fuel)%nat with (S (S (length nodes) + fuel)).
    rewrite walk_S, Hnode, Hpar. unfold truthy_str. rewrite Hne.
    change (default "" (Some parent)) with parent. cbv iota. cbn [negb].
    rewrite IH. by rewrite <- app_assoc.
Qed.

Lemma replay_Ok node m r w s st p0 :
  self_state w = Some s →
  states w !! s = Some st →
  node_message node = Some m →
  role_of m = Some r →
  prompts w !! (if String.eqb "user" r then user_prompt st else chatgpt_prompt st)
    = Some p0 →
  replay node w
  = Ok tt
      (with_out (out w ++ replayed m)
         (with_prompts
            (<[(if String.eqb "user" r then user_prompt st else chatgpt_prompt st)
               := seeded node m]> (prompts w))
            (with_states
               (<[s := match msg_model_slug m with
                       | Some slug => set_model_slug (Some slug) st
                       | None => st
                       end]> (states w))
               w))).
Proof.
  intros Hs Hst Hm Hr Hp.
  assert (Hls : (s < length (states w))%nat) by (by eapply lookup_lt_Some).
  set (target := if String.eqb "user" r then user_prompt st else chatgpt_prompt st) in *.
  assert (Hlt : (target < length (prompts w))%nat) by (by eapply lookup_lt_Some).
  unfold replay. rewrite Hm.
  set (st1 := match msg_model_slug m with
              | Some slug => set_model_slug (Some slug) st
              | None => st
              end).
  set (w1 := with_states (<[s := st1]> (states w)) w).
  assert (Hslug : match msg_model_slug m with
                  | Some slug => state_setattr (set_model_slug (Some slug))
                  | None => ret tt
                  end w = Ok tt w1).
  { subst w1 st1. destruct (msg_model_slug m).
    - by eapply state_setattr_Ok.
    - rewrite list_insert_id by done. by destruct w. }
  erewrite bind_Ok by exact Hslug.
  assert (Hs1 : self_state w1 = Some s) by done.
  assert (Hst1 : states w1 !! s = Some st1).
  { subst w1. simpl. by rewrite list_lookup_insert_eq. }
  assert (Hup : user_prompt st1 = user_prompt st) by (subst st1; by destruct (msg_model_slug m)).
  assert (Hcp : chatgpt_prompt st1 = chatgpt_prompt st) by (subst st1; by destruct (msg_model_slug m)).
  assert (Hrole : match msg_author_role m with
                  | Some r0 => ret r0
                  | None => match msg_role m with
                            | Some r0 => ret r0
                            | None => raise (KeyError "role")
                            end
                  end w1 = Ok r w1).
  { unfold role_of in Hr. destruct (msg_author_role m); [by injection Hr as ->|].
    by rewrite Hr. }
  erewrite bind_Ok by exact Hrole.
  assert (Hpick :
    (if String.eqb "user" r then
       let* p := state_attr user_prompt in
       say info_b "You:" ;; say info (msg_part0 m) ;; ret p
     else
       let* p := state_attr chatgpt_prompt in
       say success_b "ChatGPT:" ;; say success (msg_part0 m) ;; ret p) w1
    = Ok target
        (with_out (out w ++ (if String.eqb "user" r
                             then [Say info_b "You:" nl; Say info (msg_part0 m) nl]
                             else [Say success_b "ChatGPT:" nl; Say success (msg_part0 m) nl]))
           w1)).
  { subst target. destruct (String.eqb "user" r).
    - erewrite bind_Ok by (by eapply (state_attr_Ok user_prompt)).
      rewrite Hup. unfold bind, say, say_end, log, ret. simpl. by rewrite <- app_assoc.
    - erewrite bind_Ok by (by eapply (state_attr_Ok chatgpt_prompt)).
      rewrite Hcp. unfold bind, say, say_end, log, ret. simpl. by rewrite <- app_assoc. }
  erewrite bind_Ok by exact Hpick.
  erewrite bind_Ok by (by eapply write_prompt_Ok).
  erewrite bind_Ok;
    [| eapply write_prompt_Ok; cbn [prompts with_prompts with_out];
       by apply list_lookup_insert_eq].
  erewrite bind_Ok;
    [| eapply write_prompt_Ok; cbn [prompts with_prompts with_out];
       apply list_lookup_insert_eq; by rewrite length_insert].
  unfold print_, say, say_end, log. cbn [out prompts with_prompts with_out].
  rewrite !list_insert_insert_eq. unfold replayed. rewrite Hr. cbn [default].
  rewrite <- app_assoc. reflexivity.
Qed.

(** C8.  For a conversation whose current node [b] has the parent [a], whose
    parent is a node without parent, [a] written by the user and [b] not:
    the walk from the current node yields the history [[a; b]];
    [__load_conversation] prints the title banner, then [a] as "You:" and [b]
    as "ChatGPT:", and leaves a State with the title and id of the
    conversation, the model slug of the last replayed message that has one,
    the user prompt holding the text, parent and id of [a], and the assistant
    prompt those of [b]. *)
Theorem load_conversation_replays fuel cid conv root a b ma mb rb aid rid du dc rest w :
  truthy_str cid = true →
  script w = IConversation conv :: rest →
  prompts w !! default_user_prompt = Some du →
  prompts w !! default_chatgpt_prompt = Some dc →
  conv_mapping conv !! conv_current_node conv = Some b →
  node_parent b = Some aid → nonempty aid = true →
  conv_mapping conv !! aid = Some a →
  node_parent a = Some rid → nonempty rid = true →
  conv_mapping conv !! rid = Some root →
  truthy_str (node_parent root) = false →
  node_message a = Some ma → role_of ma = Some "user" →
  node_message b = Some mb → role_of mb = Some rb → rb ≠ "user" →
  ∃ w' s st,
    walk (3 + fuel) (conv_mapping conv) (conv_current_node conv) [] w = Ok [a; b] w
    ∧ load_conversation (3 + fuel) cid w = Ok tt w'
    ∧ self_state w' = Some s
    ∧ states w' !! s = Some st
    ∧ title st = Some (conv_title conv)
    ∧ conversation_id st = cid
    ∧ model_slug st = match msg_model_slug mb with
                      | Some slug => Some slug
                      | None => msg_model_slug ma
                      end
    ∧ prompts w' !! user_prompt st = Some (seeded a ma)
    ∧ prompts w' !! chatgpt_prompt st = Some (seeded b mb)
    ∧ out w' = out w ++ Remote (Call.get_conversation cid)
                 :: banner (conv_title conv) ++ replayed ma ++ replayed mb.
Proof.
  intros Hcid Hsc Hdu Hdc Hb Hpb Haid Ha Hpa Hrid Hroot Hnoparent Hma Hra Hmb Hrb Hne.
  assert (Hchain : chain (conv_mapping conv) (conv_current_node conv) [a; b]).
  { change [a; b] with (([] ++ [a]) ++ [b]).
    eapply chain_step; [done..|]. eapply chain_step; [done..|]. by eapply chain_root. }
  assert (Hwalk : ∀ w0, walk (3 + fuel) (conv_mapping conv) (conv_current_node conv) [] w0
                        = Ok [a; b] w0).
  { intros w0. exact (walk_chain _ _ _ Hchain fuel [] w0). }
  assert (Hlu : (default_user_prompt < length (prompts w))%nat) by (by eapply lookup_lt_Some).
  assert (Hlc : (default_chatgpt_prompt < length (prompts w))%nat) by (by eapply lookup_lt_Some).
  set (s := length (states w)).
  set (st0 := {| title := None; conversation_id := cid; model_slug := None;
                 user_prompt := default_user_prompt;
                 chatgpt_prompt := default_chatgpt_prompt |}).
  set (st1 := set_title (Some (conv_title conv)) st0).
  set (st2 := match msg_model_slug ma with
              | Some slug => set_model_slug (Some slug) st1
              | None => st1
              end).
  set (st3 := match msg_model_slug mb with
              | Some slug => set_model_slug (Some slug) st2
              | None => st2
              end).
  assert (Hlen : (s < length (states w ++ [st0]))%nat).
  { rewrite length_app. simpl. subst s. lia. }
  (* the run up to the replay *)
  set (w1 := with_out (out w ++ Remote (Call.get_conversation cid) :: banner (conv_title conv))
               (with_script rest
                  (with_self_state (Some s)
                     (with_states (<[s := st1]> (states w ++ [st0])) w)))).
  assert (Hrun : load_conversation (3 + fuel) cid w = replay_all [a; b] w1).
  { unfold load_conversation. rewrite Hcid. cbn [negb].
    erewrite bind_Ok by reflexivity.
    erewrite bind_Ok by reflexivity.
    unfold ChatGPT.get_conversation.
    erewrite bind_Ok by (by eapply call_Ok).
    erewrite bind_Ok by apply Hwalk.
    erewrite bind_Ok;
      [| eapply state_setattr_Ok; [reflexivity | by apply list_lookup_middle]].
    erewrite bind_Ok;
      [| eapply (state_attr_Ok title); [reflexivity |];
         cbn [states with_states]; by apply list_lookup_insert_eq].
    erewrite bind_Ok by reflexivity.
    subst w1. f_equal. unfold banner.
    cbn [out with_out with_states with_self_state with_script states script
         prompts self_state access_token version title set_title str_opt].
    by rewrite <- !app_assoc. }
  (* replaying A, then B *)
  assert (Hst1 : states w1 !! s = Some st1).
  { subst w1. cbn [states with_out with_script with_self_state with_states].
    by apply list_lookup_insert_eq. }
  pose proof (replay_Ok a ma "user" w1 s st1 du eq_refl Hst1 Hma Hra Hdu) as HA.
  change (if String.eqb "user" "user" then user_prompt st1 else chatgpt_prompt st1)
    with default_user_prompt in HA.
  fold st2 in HA.
  set (w2 := with_out _ _) in HA.
  assert (Hst2 : states w2 !! s = Some st2).
  { unfold w2, w1.
    cbn [states with_out with_prompts with_states with_script with_self_state].
    apply list_lookup_insert_eq. by rewrite length_insert. }
  assert (Hnu : String.eqb "user" rb = false).
  { apply String.eqb_neq. congruence. }
  assert (Hcp2 : chatgpt_prompt st2 = default_chatgpt_prompt).
  { subst st2. by destruct (msg_model_slug ma). }
  assert (Hup2 : user_prompt st2 = default_user_prompt).
  { subst st2. by destruct (msg_model_slug ma). }
  assert (Hdc2 : prompts w2 !! (if String.eqb "user" rb then user_prompt st2
                                else chatgpt_prompt st2) = Some dc).
  { rewrite Hnu, Hcp2. unfold w2, w1.
    cbn [prompts with_out with_prompts with_states with_script with_self_state].
    by rewrite list_lookup_insert_ne. }
  pose proof (replay_Ok b mb rb w2 s st2 dc eq_refl Hst2 Hmb Hrb Hdc2) as HB.
  rewrite Hnu, Hcp2 in HB. fold st3 in HB.
  set (w3 := with_out _ _) in HB.
  exists w3, s, st3. split; [apply Hwalk|]. split.
  { rewrite Hrun. cbn [replay_all]. erewrite bind_Ok by exact HA.
    erewrite bind_Ok by exact HB. reflexivity. }
  assert (Hcp3 : chatgpt_prompt st3 = default_chatgpt_prompt).
  { subst st3. by destruct (msg_model_slug mb). }
  assert (Hup3 : user_prompt st3 = default_user_prompt).
  { subst st3. by destruct (msg_model_slug mb). }
  split_and!.
  - done.
  - unfold w3, w2, w1.
    cbn [states with_out with_prompts with_states with_script with_self_state].
    apply list_lookup_insert_eq. by rewrite !length_insert.
  - subst st3 st2. by destruct (msg_model_slug mb), (msg_model_slug ma).
  - subst st3 st2. by destruct (msg_model_slug mb), (msg_model_slug ma).
  - subst st3 st2. by destruct (msg_model_slug mb), (msg_model_slug ma).
  - rewrite Hup3. unfold w3, w2, w1.
    cbn [prompts with_out with_prompts with_states with_script with_self_state].
    rewrite list_lookup_insert_ne by done. by apply list_lookup_insert_eq.
  - rewrite Hcp3. unfold w3, w2, w1.
    cbn [prompts with_out with_prompts with_states with_script with_self_state].
    apply list_lookup_insert_eq. by rewrite length_insert.
  - unfold w3, w2, w1.
    cbn [out with_out with_prompts with_states with_script with_self_state].
    rewrite <- !app_assoc. reflexivity.
Qed.

(** C8, on [root -> A(user) -> B(assistant)] with current node B. *)
Lemma load_conversation_replays_root_A_B :
  ∃ w' s st,
    walk 3 (conv_mapping ex_conversation) "B" []
      (ex_world ex_new_chat [IConversation ex_conversation])
    = Ok [ex_A; ex_B] (ex_world ex_new_chat [IConversation ex_conversation])
    ∧ load_conversation 3 (Some "conv-1")
        (ex_world ex_new_chat [IConversation ex_conversation]) = Ok tt w'
    ∧ self_state w' = Some s
    ∧ states w' !! s = Some st
    ∧ title st = Some "Trip"
    ∧ conversation_id st = Some "conv-1"
    ∧ model_slug st = Some "gpt-4"
    ∧ prompts w' !! user_prompt st
      = Some {| prompt := Some "Where to?"; parent_id := Some "root";
                message_id := Some "A" |}
    ∧ prompts w' !! chatgpt_prompt st
      = Some {| prompt := Some "To Lisbon."; parent_id := Some "A";
                message_id := Some "B" |}
    ∧ out w'
      = [Remote (Call.get_conversation (Some "conv-1"));
         Say info_bh "==================== Trip ====================" nl;
         Say debug_h "Double enter to send. Type /? for help." nl;
         Say info_b "You:" nl; Say info "Where to?" nl; Say plain "" nl;
         Say success_b "ChatGPT:" nl; Say success "To Lisbon." nl; Say plain "" nl].
Proof.
  apply (load_conversation_replays 0 (Some "conv-1") ex_conversation ex_root ex_A ex_B
           {| msg_id := "A"; msg_part0 := "Where to?"; msg_end_turn := false;
              msg_author_role := Some "user"; msg_role := None;
              msg_model_slug := None |}
           {| msg_id := "B"; msg_part0 := "To Lisbon."; msg_end_turn := true;
              msg_author_role := Some "assistant"; msg_role := None;
              msg_model_slug := Some "gpt-4" |}
           "assistant" "A" "root"
           {| prompt := None; parent_id := Some "u-parent"; message_id := Some "u-own" |}
           {| prompt := None; parent_id := Some "a-parent"; message_id := Some "a-own" |}
           [] (ex_world ex_new_chat [IConversation ex_conversation]));
    first [reflexivity | discriminate].
Defined.

(** ** Default prompts of [State] *)

(** Two States built without prompts are two objects that refer to the same
    two prompts. *)
Lemma State_init_shares_defaults t1 c1 m1 t2 c2 m2 w :
  ∃ s1 w1 s2 w2 st1 st2,
    State_init t1 c1 m1 None None w = Ok s1 w1
    ∧ State_init t2 c2 m2 None None w1 = Ok s2 w2
    ∧ s1 ≠ s2
    ∧ states w2 !! s1 = Some st1
    ∧ states w2 !! s2 = Some st2
    ∧ user_prompt st1 = user_prompt st2
    ∧ chatgpt_prompt st1 = chatgpt_prompt st2.
Proof.
  do 6 eexists. split; [reflexivity|]. split; [reflexivity|].
  cbn [states with_states]. split_and!.
  - rewrite length_app. simpl. lia.
  - rewrite lookup_app_l by (rewrite length_app; simpl; lia).
    by apply list_lookup_middle.
  - by apply list_lookup_middle.
  - done.
  - done.
Qed.

Lemma State_init_distinct t c m w :
  ∃ s w' st,
    State_init t c m None None w = Ok s w'
    ∧ states w' !! s = Some st
    ∧ user_prompt st ≠ chatgpt_prompt st.
Proof.
  do 3 eexists. split; [reflexivity|]. split; [by apply list_lookup_middle | done].
Qed.

(** C2: what the code does.  In the session [ex_session] the State of the
    loaded conversation and the State of the new chat refer to one assistant
    prompt, the default of [State.__init__]: the first message of the new
    chat, which has no conversation id yet, is sent with the parent id "B",
    the last assistant node of the conversation opened before. *)
Theorem new_chat_inherits_loaded_prompts :
  let r := (def_State_init ;; run 12) (empty_world ex_session "token" "1.0") in
  r = Raise KeyboardInterrupt (world_of r)
  ∧ remote_calls (out (world_of r))
    = [ Call.list_conversations 0 20;
        Call.get_conversation (Some "conv-1");
        Call.list_models;
        Call.talk "Hi" (Some "gpt") (Some "m-1") (Some "B") None;
        Call.gen_conversation_title (Some "conv-2") (Some "gpt") (Some "a-2") ]
  ∧ (chatgpt_prompt <$> states (world_of r) !! 0%nat)
    = (chatgpt_prompt <$> states (world_of r) !! 1%nat)
  ∧ (conversation_id <$> states (world_of r) !! 0%nat) = Some (Some "conv-1")
  ∧ (conversation_id <$> states (world_of r) !! 1%nat) = Some (Some "conv-2").
Proof.
  intros r. vm_compute in r. subst r. by split_and!.
Qed.

(** ** Newly built prompts *)

(** A prompt built by [ChatPrompt(...)] is a new object: its location is not
    the location of any prompt that exists. *)
Lemma ChatPrompt_init_fresh text pid mid w l w' :
  ChatPrompt_init text pid mid w = Ok l w' →
  l = length (prompts w)
  ∧ is_Some (prompts w' !! l)
  ∧ (∀ l', is_Some (prompts w !! l') → l' ≠ l ∧ prompts w' !! l' = prompts w !! l').
Proof.
  unfold ChatPrompt_init, bind, gen_message_id, alloc_prompt, ret.
  intros H.
  assert (Hfresh : ∀ cp sc,
    l = length (prompts w) → w' = with_prompts (prompts w ++ [cp]) (with_script sc w) →
    l = length (prompts w)
    ∧ is_Some (prompts w' !! l)
    ∧ (∀ l', is_Some (prompts w !! l') →
         l' ≠ l ∧ prompts w' !! l' = prompts w !! l')).
  { intros cp sc -> ->. split; [done|]. cbn [prompts with_prompts with_script]. split.
    - rewrite list_lookup_middle by done. by eexists.
    - intros l' [x Hx]. pose proof (lookup_lt_Some _ _ _ Hx). split; [lia|].
      by rewrite lookup_app_l. }
  destruct (truthy_str pid), (truthy_str mid); simpl in H.
  - injection H as Hl Hw. eapply (Hfresh _ (script w)); [done | by rewrite <- Hw].
  - destruct (script w) as [|[] sc] eqn:Hsc; try done. simpl in H.
    injection H as Hl Hw. eapply (Hfresh _ sc); [done | by rewrite <- Hw].
  - destruct (script w) as [|[] sc] eqn:Hsc; try done. simpl in H.
    injection H as Hl Hw. eapply (Hfresh _ sc); [done | by rewrite <- Hw].
  - destruct (script w) as [|[] sc] eqn:Hsc; try done. simpl in H.
    destruct sc as [|[] sc']; try done. simpl in H.
    injection H as Hl Hw. eapply (Hfresh _ sc'); [done | by rewrite <- Hw].
Qed.

(** * Further properties *)

(** ** Numbers of the selector: [str] and [int] *)

Lemma digit_of_pretty_N_char d :
  (d < 10)%N → digit_of (pretty_N_char d) = Some (Z.of_N d).
Proof.
  intros Hd.
  assert (d = 0 ∨ d = 1 ∨ d = 2 ∨ d = 3 ∨ d = 4 ∨ d = 5 ∨ d = 6 ∨ d = 7
          ∨ d = 8 ∨ d = 9)%N as H by lia.
  destruct_or!; subst; reflexivity.
Qed.

Lemma int_digits_pretty_N_go x : ∀ s,
  int_digits 0 (pretty_N_go x s) = int_digits (Z.of_N x) s.
Proof.
  induction (N.lt_wf_0 x) as [x _ IH]; intros s.
  destruct (decide (x = 0%N)) as [->|Hx].
  - by rewrite pretty_N_go_0.
  - rewrite pretty_N_go_step by lia.
    rewrite IH by (apply N.div_lt; lia).
    cbn [int_digits]. rewrite digit_of_pretty_N_char by (apply N.mod_lt; lia).
    f_equal. rewrite <- N2Z.inj_mul with (n := 10%N), <- N2Z.inj_add.
    f_equal. rewrite (N.div_mod x 10) at 3 by lia. lia.
Qed.

Lemma int_of_pretty (n : nat) : int_of (pretty n) = Some (Z.of_nat n).
Proof.
  pose proof (pretty_nat_digit n) as Hd.
  unfold int_of. destruct (pretty n) as [|c s] eqn:E; [done|]. rewrite <- E.
  unfold pretty, pretty_nat, pretty, pretty_N. case_decide as Hn.
  - replace n with 0%nat by lia. reflexivity.
  - rewrite int_digits_pretty_N_go. simpl. by rewrite nat_N_Z.
Qed.

Lemma item_at_pretty items i item w :
  items !! i = Some item → item_at items (pretty (i + 1)%nat) w = Ok item w.
Proof.
  intros Hi. unfold item_at. rewrite int_of_pretty.
  replace (Z.of_nat (i + 1) - 1)%Z with (Z.of_nat i) by lia.
  unfold getitem. rewrite (proj2 (Z.leb_le 0 (Z.of_nat i))) by lia.
  by rewrite Nat2Z.id, Hi.
Qed.

Lemma elem_of_item_choices items : ∀ idx choice,
  choice ∈ item_choices idx items ↔
  ∃ i item, items !! i = Some item
    ∧ (choice = pretty (idx + i + 1)%nat
       ∨ choice = "t" +:+ pretty (idx + i + 1)%nat
       ∨ choice = "d" +:+ pretty (idx + i + 1)%nat).
Proof.
  induction items as [|item0 items IH]; intros idx choice; simpl.
  - rewrite elem_of_nil. split; [done|]. by intros (i & item & Hi & _).
  - rewrite !elem_of_cons, IH. split.
    + intros [H|[H|[H|(i & item & Hi & H)]]].
      * exists 0%nat, item0. rewrite Nat.add_0_r. eauto.
      * exists 0%nat, item0. rewrite Nat.add_0_r. eauto.
      * exists 0%nat, item0. rewrite Nat.add_0_r. eauto.
      * exists (S i), item. split; [done|].
        by replace (idx + S i)%nat with (S idx + i)%nat by lia.
    + intros (i & item & Hi & H). destruct i as [|i].
      * rewrite Nat.add_0_r in H. tauto.
      * do 3 right. exists i, item. split; [done|].
        by replace (S idx + i)%nat with (idx + S i)%nat by lia.
Qed.

(** X1.  Every choice that the selector adds for the items of a page is the
    number [k] of an item, or [t] or [d] followed by it, and that number is
    read back by [int] and indexes the item: an accepted item choice raises
    neither [ValueError] nor [IndexError]. *)
Theorem item_choices_resolve items choice :
  choice ∈ item_choices 0 items →
  ∃ i item,
    items !! i = Some item
    ∧ (choice = pretty (i + 1)%nat
       ∨ choice = "t" +:+ pretty (i + 1)%nat
       ∨ choice = "d" +:+ pretty (i + 1)%nat)
    ∧ int_of (pretty (i + 1)%nat) = Some (Z.of_nat i + 1)%Z
    ∧ ∀ w, item_at items (pretty (i + 1)%nat) w = Ok item w.
Proof.
  intros (i & item & Hi & H)%elem_of_item_choices. exists i, item.
  split; [done|]. split; [done|]. split.
  - rewrite int_of_pretty. f_equal. lia.
  - intros w. by apply item_at_pretty.
Qed.

Lemma item_choices_resolve_t2 :
  ∃ i item,
    ex_items 2 !! i = Some item
    ∧ ("t2" = pretty (i + 1)%nat
       ∨ "t2" = "t" +:+ pretty (i + 1)%nat
       ∨ "t2" = "d" +:+ pretty (i + 1)%nat)
    ∧ int_of (pretty (i + 1)%nat) = Some (Z.of_nat i + 1)%Z
    ∧ ∀ w, item_at (ex_items 2) (pretty (i + 1)%nat) w = Ok item w.
Proof.
  apply (item_choices_resolve (ex_items 2) "t2").
  change (item_choices 0 (ex_items 2)) with ["1"; "t1"; "d1"; "2"; "t2"; "d2"].
  do 4 apply list_elem_of_further. apply list_elem_of_here.
Defined.

(** ** Choosing a conversation by its number *)

Lemma choice_loop_number fuel page page_size items choices choice rest w :
  script w = IAsk choice :: rest →
  strip choice = choice →
  choice ∈ choices →
  starts_with_digit choice = true →
  choice_loop (S fuel) page page_size items choices w
  = (let* item := item_at items choice in ret (Some item))
      (with_out (out w ++ [Ask "Your choice"]) (with_script rest w)).
Proof.
  intros Hsc Hs Hin Hd. cbn [choice_loop].
  erewrite bind_Ok by (by apply Prompt_ask_choice).
  destruct choice as [|c s]; [done|].
  unfold starts_with_digit in Hd. apply bool_decide_eq_true in Hd as [d Hd].
  destruct c as [[] [] [] [] [] [] [] []]; try discriminate Hd; reflexivity.
Qed.

(** X2.  When the listing is not empty and the user types the number of an
    item, [run] loads the conversation with the id of that item and enters
    the talk loop. *)
Theorem run_loads_the_chosen_conversation fuel l i item rest w :
  script w = IListing l :: IAsk (pretty (i + 1)%nat) :: rest →
  ls_total l ≠ 0%Z →
  ls_items l !! i = Some item →
  run (S (S (S fuel))) w
  = (load_conversation (S (S fuel)) (Some (item_id item)) ;; talk_loop (S (S fuel)))
      (with_out
         (out w ++ Remote (Call.list_conversations 0 20) :: page_header 1
            :: menu l ++ [Ask "Your choice"])
         (with_script rest w)).
Proof.
  intros Hsc Ht Hi. cbn [run].
  assert (Hpick : choice_conversation (S (S fuel)) 1 20 w
    = Ok (Some item)
        (with_out
           (out w ++ Remote (Call.list_conversations 0 20) :: page_header 1
              :: menu l ++ [Ask "Your choice"])
           (with_script rest w))).
  { erewrite choice_conversation_menu by done.
    erewrite choice_loop_number;
      [| reflexivity
       | eapply strip_digits, int_of_pretty
       | unfold offered; rewrite !elem_of_app; right; left;
         apply elem_of_item_choices; exists i, item; eauto
       | apply pretty_nat_digit].
    erewrite bind_Ok by (by apply item_at_pretty).
    unfold ret. f_equal.
    cbn [out with_out with_script script]. by rewrite <- app_assoc. }
  erewrite bind_Ok by exact Hpick. reflexivity.
Qed.

Lemma run_loads_the_chosen_conversation_second :
  run 3 (ex_world ex_new_chat [IListing ex_page1; IAsk "2"; IConversation ex_conversation])
  = (load_conversation 2 (Some "conv-2") ;; talk_loop 2)
      (with_out
         (Remote (Call.list_conversations 0 20) :: page_header 1
            :: menu ex_page1 ++ [Ask "Your choice"])
         (ex_world ex_new_chat [IConversation ex_conversation])).
Proof.
  apply (run_loads_the_chosen_conversation 0 ex_page1 1 (ex_item "2")
           [IConversation ex_conversation]
           (ex_world ex_new_chat
              [IListing ex_page1; IAsk "2"; IConversation ex_conversation])).
  - reflexivity.
  - discriminate.
  - reflexivity.
Defined.

(** ** The loops end only by an exception *)

(** X3.  [run] and the talk loop never return: with any fuel they end in an
    exception, in a script that ran out, or still running.  The same holds
    for the commands [/new] and [/select], which enter a talk loop of their
    own instead of returning to the one that dispatched them. *)
Theorem bot_stops_only_by_exception fuel u w x w' :
  run fuel w ≠ Ok x w'
  ∧ talk_loop fuel w ≠ Ok x w'
  ∧ (lower (strip u) = "/new" ∨ lower (strip u) = "/select" →
     process_command fuel u w ≠ Ok x w').
Proof.
  split; [apply run_never_returns|]. split; [apply talk_loop_never_returns|].
  intros Hu. destruct fuel as [|fuel]; [done|]. cbn [process_command].
  destruct Hu as [-> | ->]; cbn [String.eqb Ascii.eqb Bool.eqb orb].
  - unfold bind. destruct (new_conversation w); first [done | apply talk_loop_never_returns].
  - apply run_never_returns.
Qed.

Lemma bot_stops_only_by_exception_new :
  run 7 (ex_world ex_new_chat [ILine "/NEW"]) ≠ Ok tt (ex_world ex_new_chat [])
  ∧ talk_loop 7 (ex_world ex_new_chat [ILine "/NEW"]) ≠ Ok tt (ex_world ex_new_chat [])
  ∧ process_command 7 "/NEW " (ex_world ex_new_chat [ILine "/NEW"])
    ≠ Ok tt (ex_world ex_new_chat []).
Proof.
  destruct (bot_stops_only_by_exception 7 "/NEW " (ex_world ex_new_chat [ILine "/NEW"])
              tt (ex_world ex_new_chat [])) as (H1 & H2 & H3).
  split; [exact H1|]. split; [exact H2|]. apply H3. left. reflexivity.
Defined.

(** ** Loading a conversation whose mapping is damaged *)

Lemma walk_broken mapping n id missing :
  broken mapping n id missing →
  ∀ fuel acc w, walk (S n + fuel) mapping id acc w = Raise (KeyError missing) w.
Proof.
  induction 1 as [id Hnone | n id node parent missing Hnode Hpar Hne _ IH];
    intros fuel acc w.
  - change (1 + fuel)%nat with (S fuel). by rewrite walk_S, Hnone.
  - change (S (S n) + fuel)%nat with (S (S n + fuel)).
    rewrite walk_S, Hnode, Hpar. unfold truthy_str. rewrite Hne.
    change (default "" (Some parent)) with parent. cbv iota. cbn [negb].
    apply IH.
Qed.

(** X4.  When the walk from the current node reaches an id that is not a
    key of the mapping, [__load_conversation] raises [KeyError] with that id.
    By then [self.state] is already the new State, without title, and nothing
    of the history was printed. *)
Theorem load_conversation_missing_node fuel n cid conv missing rest w :
  truthy_str cid = true →
  script w = IConversation conv :: rest →
  broken (conv_mapping conv) n (conv_current_node conv) missing →
  load_conversation (S n + fuel) cid w
  = Raise (KeyError missing)
      (with_out (out w ++ [Remote (Call.get_conversation cid)])
         (with_script rest
            (with_self_state (Some (length (states w)))
               (with_states (states w ++ [loading cid]) w)))).
Proof.
  intros Hcid Hsc Hbroken. unfold load_conversation. rewrite Hcid. cbn [negb].
  erewrite bind_Ok by reflexivity.
  erewrite bind_Ok by reflexivity.
  unfold ChatGPT.get_conversation.
  erewrite bind_Ok by (by eapply call_Ok).
  erewrite bind_Raise by (by apply walk_broken). reflexivity.
Qed.

Lemma load_conversation_missing_node_orphan :
  load_conversation 2 (Some "conv-1") (ex_world ex_open_chat [IConversation ex_orphan])
  = Raise (KeyError "A")
      (with_out [Remote (Call.get_conversation (Some "conv-1"))]
         (with_self_state (Some 1%nat)
            (with_states [ex_open_chat; loading (Some "conv-1")]
               (ex_world ex_open_chat [])))).
Proof.
  apply (load_conversation_missing_node 0 1 (Some "conv-1") ex_orphan "A" []
           (ex_world ex_open_chat [IConversation ex_orphan])).
  - reflexivity.
  - reflexivity.
  - eapply broken_step; [reflexivity | reflexivity | reflexivity |].
    apply broken_here. reflexivity.
Defined.

Lemma walk_cycle mapping (P : string → Prop) :
  (∀ id, P id → ∃ node parent,
     mapping !! id = Some node ∧ node_parent node = Some parent
     ∧ nonempty parent = true ∧ P parent) →
  ∀ fuel id acc w, P id → walk fuel mapping id acc w = OutOfFuel w.
Proof.
  intros Hclosed. induction fuel as [|fuel IH]; intros id acc w Hid; [done|].
  destruct (Hclosed id Hid) as (node & parent & Hnode & Hpar & Hne & Hp).
  rewrite walk_S, Hnode, Hpar. unfold truthy_str. rewrite Hne.
  change (default "" (Some parent)) with parent. cbv iota. cbn [negb].
  by apply IH.
Qed.

(** X5.  When the parents of the nodes reached from the current node never
    end (a cycle in the mapping), the [while True] loop of
    [__load_conversation] does not end: with any fuel the load is still
    running, after [self.state] was replaced and before anything is printed. *)
Theorem load_conversation_cycle_never_ends fuel cid conv (P : string → Prop) rest w :
  truthy_str cid = true →
  script w = IConversation conv :: rest →
  (∀ id, P id → ∃ node parent,
     conv_mapping conv !! id = Some node ∧ node_parent node = Some parent
     ∧ nonempty parent = true ∧ P parent) →
  P (conv_current_node conv) →
  load_conversation fuel cid w
  = OutOfFuel
      (with_out (out w ++ [Remote (Call.get_conversation cid)])
         (with_script rest
            (with_self_state (Some (length (states w)))
               (with_states (states w ++ [loading cid]) w)))).
Proof.
  intros Hcid Hsc Hclosed Hcur. unfold load_conversation. rewrite Hcid. cbn [negb].
  erewrite bind_Ok by reflexivity.
  erewrite bind_Ok by reflexivity.
  unfold ChatGPT.get_conversation.
  erewrite bind_Ok by (by eapply call_Ok).
  unfold bind at 1. by erewrite walk_cycle.
Qed.

Lemma load_conversation_cycle_never_ends_loop :
  load_conversation 1000 (Some "conv-1") (ex_world ex_open_chat [IConversation ex_loop])
  = OutOfFuel
      (with_out [Remote (Call.get_conversation (Some "conv-1"))]
         (with_self_state (Some 1%nat)
            (with_states [ex_open_chat; loading (Some "conv-1")]
               (ex_world ex_open_chat [])))).
Proof.
  apply (load_conversation_cycle_never_ends 1000 (Some "conv-1") ex_loop
           (λ id, id = "A" ∨ id = "B") []
           (ex_world ex_open_chat [IConversation ex_loop])).
  - reflexivity.
  - reflexivity.
  - intros id [-> | ->].
    + eexists _, "B". split; [reflexivity|]. split; [reflexivity|].
      split; [reflexivity|]. by right.
    + eexists _, "A". split; [reflexivity|]. split; [reflexivity|].
      split; [reflexivity|]. by left.
  - by left.
Defined.

(** ** Commands *)

(** X6.  In a session whose State has no conversation id, the commands
    [/del], [/title] and [/regen] (with their aliases) print "Conversation has
    not been created." and do nothing else; [/refresh] and [/reload] do
    nothing at all, without any message. *)
Theorem commands_need_a_conversation fuel u s st w :
  self_state w = Some s →
  states w !! s = Some st →
  truthy_str (conversation_id st) = false →
  (lower (strip u) ∈ needs_conversation →
   process_command (S (S fuel)) u w = Ok tt (with_out (out w ++ [not_created]) w))
  ∧ (lower (strip u) ∈ ["/refresh"; "/reload"] →
     process_command (S (S fuel)) u w = Ok tt w).
Proof.
  intros Hs Hst Hcid.
  assert (Hdel : perform (S fuel) Delete w = Ok tt (with_out (out w ++ [not_created]) w)).
  { unfold perform, on_state, bind, get_state. rewrite Hs. cbn [del_conversation].
    erewrite bind_Ok by (by apply read_state_Ok). by rewrite Hcid. }
  assert (Htitle : perform (S fuel) SetTitle w = Ok tt (with_out (out w ++ [not_created]) w)).
  { unfold perform, on_state, bind, get_state. rewrite Hs.
    unfold set_conversation_title.
    erewrite bind_Ok by (by apply read_state_Ok). by rewrite Hcid. }
  assert (Hregen : perform (S fuel) Regenerate w
                   = Ok tt (with_out (out w ++ [not_created]) w)).
  { unfold perform, on_state, bind, get_state. rewrite Hs.
    unfold regenerate_reply.
    erewrite bind_Ok by (by apply read_state_Ok). by rewrite Hcid. }
  assert (Hrefresh : perform (S fuel) Refresh w = Ok tt w).
  { unfold perform.
    erewrite bind_Ok by (by eapply (state_attr_Ok conversation_id)).
    unfold load_conversation. by rewrite Hcid. }
  split; intros Hu.
  - unfold needs_conversation in Hu. rewrite !elem_of_cons, elem_of_nil in Hu.
    destruct Hu as [Hu|[Hu|[Hu|[Hu|[Hu|[Hu|[Hu|[Hu|[]]]]]]]]].
    1-3: rewrite <- Hdel; eapply process_command_table;
           [apply list_elem_of_further, list_elem_of_here | rewrite Hu; set_solver].
    1-3: rewrite <- Htitle; eapply process_command_table;
           [do 2 apply list_elem_of_further; apply list_elem_of_here
           | rewrite Hu; set_solver].
    1-2: rewrite <- Hregen; eapply process_command_table;
           [do 6 apply list_elem_of_further; apply list_elem_of_here
           | rewrite Hu; set_solver].
  - rewrite <- Hrefresh. eapply process_command_table;
      [do 4 apply list_elem_of_further; apply list_elem_of_here | done].
Qed.

Lemma commands_need_a_conversation_new_chat :
  process_command 2 "/Regen" (ex_world ex_new_chat [])
  = Ok tt (with_out [not_created] (ex_world ex_new_chat []))
  ∧ process_command 2 "/reload" (ex_world ex_new_chat [])
    = Ok tt (ex_world ex_new_chat []).
Proof.
  destruct (commands_need_a_conversation 0 "/Regen" 0 ex_new_chat
              (ex_world ex_new_chat []) eq_refl eq_refl eq_refl) as [H1 _].
  destruct (commands_need_a_conversation 0 "/reload" 0 ex_new_chat
              (ex_world ex_new_chat []) eq_refl eq_refl eq_refl) as [_ H2].
  split.
  - apply H1. change (lower (strip "/Regen")) with "/regen".
    unfold needs_conversation. do 6 apply list_elem_of_further. apply list_elem_of_here.
  - apply H2. change (lower (strip "/reload")) with "/reload".
    apply list_elem_of_further, list_elem_of_here.
Defined.

Lemma print_usage_Ok w :
  print_usage w = Ok tt (with_out (out w ++ usage_lines) w).
Proof.
  unfold print_usage, print_, bind, say, say_end, log. cbn [out with_out].
  rewrite <- !app_assoc. reflexivity.
Qed.

(** X7.  A command that is no alias of the table prints the usage, the
    header "#### Command list:", one line for each of the eleven commands
    and an empty line, and changes nothing else. *)
Theorem unknown_command_prints_usage fuel u w :
  lower (strip u) ∉ all_aliases →
  process_command (S fuel) u w = Ok tt (with_out (out w ++ usage_lines) w).
Proof.
  intros Hu. rewrite <- print_usage_Ok. cbn [process_command].
  set (c := lower (strip u)) in *.
  repeat match goal with
    | |- context [String.eqb ?a c] =>
        destruct (String.eqb_spec a c) as [E|_];
        [exfalso; apply Hu; rewrite <- E;
         apply (bool_decide_unpack _); vm_compute; exact I |]
    end.
  reflexivity.
Qed.

Lemma unknown_command_prints_usage_help :
  process_command 1 " /Help " (ex_world ex_new_chat [ILine "next"])
  = Ok tt
      {| prompts := ex_prompts; states := [ex_new_chat]; self_state := Some 0%nat;
         script := [ILine "next"];
         out :=
           [ Say info_b (nl +:+ "#### Command list:") nl;
             Say plain ("/?" +:+ tab +:+ tab +:+ "Show this help message.") nl;
             Say plain
               ("/title" +:+ tab +:+ tab +:+ "Set the current conversation's title.") nl;
             Say plain
               ("/select" +:+ tab +:+ tab +:+ "Choice a different conversation.") nl;
             Say plain
               ("/reload" +:+ tab +:+ tab +:+ "Reload the current conversation.") nl;
             Say plain ("/regen" +:+ tab +:+ tab +:+ "Regenerate response.") nl;
             Say plain ("/new" +:+ tab +:+ tab +:+ "Start a new conversation.") nl;
             Say plain ("/del" +:+ tab +:+ tab +:+ "Delete the current conversation.") nl;
             Say plain ("/token" +:+ tab +:+ tab +:+ "Print your access token.") nl;
             Say plain ("/clear" +:+ tab +:+ tab +:+ "Clear your screen.") nl;
             Say plain
               ("/version" +:+ tab +:+ tab +:+ "Print the version of Pandora.") nl;
             Say plain ("/exit" +:+ tab +:+ tab +:+ "Exit Pandora.") nl;
             Say plain "" nl ];
         access_token := "token"; version := "1.0" |}.
Proof.
  apply (unknown_command_prints_usage 0 " /Help " (ex_world ex_new_chat [ILine "next"])).
  change (lower (strip " /Help ")) with "/help".
  apply (bool_decide_unpack _). vm_compute. exact I.
Defined.

(** ** One round of the talk loop *)

Lemma join_text line lines :
  is_text line = true →
  ∃ c s, join nl (line :: lines) = String c s ∧ Ascii.eqb "/" c = false.
Proof.
  unfold is_text. destruct line as [|c s]; [done|]. cbn [nonempty starts_with_slash andb].
  intros Hc%negb_true_iff. destruct lines as [|l2 lines].
  - by exists c, s.
  - exists c. eexists. split; [|done]. cbn [join]. by rewrite append_cons.
Qed.

(** X8.  Lines that are not blank and do not start with [/], followed by a
    blank line, are sent as one message, joined by newlines, whatever the
    dispatcher is; a blank line alone does nothing. *)
Theorem talk_turn_sends_joined_lines pc pre rest w :
  forallb is_text pre = true →
  script w = (ILine <$> pre) ++ ILine "" :: rest →
  talk_turn pc w
  = (match pre with [] => ret tt | _ => talk (join nl pre) end)
      (with_out (out w ++ [Say info_b "You:" nl]) (with_script rest w)).
Proof.
  intros Hpre Hsc. unfold talk_turn.
  erewrite bind_Ok by apply say_Ok.
  assert (Hin : get_input (with_out (out w ++ [Say info_b "You:" nl]) w)
                = Ok (join nl pre)
                    (with_out (out w ++ [Say info_b "You:" nl]) (with_script rest w))).
  { unfold get_input. cbn [script with_out]. rewrite Hsc.
    by rewrite get_input_from_framing. }
  erewrite bind_Ok by exact Hin.
  destruct pre as [|line pre]; [reflexivity|].
  cbn [forallb] in Hpre. apply andb_prop in Hpre as [Hline _].
  destruct (join_text line pre Hline) as (c & s & -> & ->). reflexivity.
Qed.

Lemma talk_turn_sends_joined_lines_two :
  talk_turn (process_command 3)
    (ex_world ex_open_chat [ILine "first"; ILine "second"; ILine ""; ILine "/quit"])
  = talk ("first" +:+ nl +:+ "second")
      (with_out [Say info_b "You:" nl] (ex_world ex_open_chat [ILine "/quit"])).
Proof.
  apply (talk_turn_sends_joined_lines (process_command 3) ["first"; "second"]
           [ILine "/quit"]
           (ex_world ex_open_chat [ILine "first"; ILine "second"; ILine ""; ILine "/quit"]));
    reflexivity.
Defined.

(** ** The command [/del] *)

(** X9.  The command [/del] on a created conversation asks "Are you sure?"
    first.  When the user declines no call is made and the session is as it
    was; when the delete call returns false the failure is printed and the
    session is as it was; when it returns true the bot starts over with [run]. *)
Theorem del_command_asks_first fuel u s st rest w :
  lower (strip u) ∈ ["/del"; "/delete"; "/remove"] →
  self_state w = Some s →
  states w !! s = Some st →
  truthy_str (conversation_id st) = true →
  let asked := out w ++ [AskConfirm "Are you sure?"] in
  let deleted := Remote (Call.del_conversation (conversation_id st)) in
  (script w = IConfirm false :: rest →
   process_command (S (S fuel)) u w = Ok tt (with_out asked (with_script rest w)))
  ∧ (script w = IConfirm true :: IDeleted false :: rest →
     process_command (S (S fuel)) u w
     = Ok tt (with_out (asked ++ [deleted; Say error "#### Delete conversation failed." nl])
                (with_script rest w)))
  ∧ (script w = IConfirm true :: IDeleted true :: rest →
     process_command (S (S fuel)) u w
     = run fuel (with_out (asked ++ [deleted]) (with_script rest w))).
Proof.
  intros Hu Hs Hst Hcid asked deleted.
  assert (Hcmd : process_command (S (S fuel)) u w = del_conversation (S fuel) s w).
  { erewrite process_command_table;
      [| apply list_elem_of_further, list_elem_of_here | exact Hu].
    unfold perform, on_state, bind, get_state. by rewrite Hs. }
  rewrite Hcmd. split_and!; intros Hsc.
  - erewrite del_conversation_asks by done. reflexivity.
  - erewrite del_conversation_asks by done. cbv iota.
    erewrite bind_Ok by (by eapply call_Ok).
    unfold say, say_end, log. cbn [out with_out with_script].
    by rewrite <- app_assoc.
  - erewrite del_conversation_asks by done. cbv iota.
    erewrite bind_Ok by (by eapply call_Ok). reflexivity.
Qed.

Lemma del_command_asks_first_declined :
  process_command 2 "/Delete" (ex_world ex_open_chat [IConfirm false; ILine "hi"])
  = Ok tt (with_out [AskConfirm "Are you sure?"] (ex_world ex_open_chat [ILine "hi"])).
Proof.
  apply (proj1 (del_command_asks_first 0 "/Delete" 0 ex_open_chat [ILine "hi"]
                  (ex_world ex_open_chat [IConfirm false; ILine "hi"])
                  (list_elem_of_further _ _ _ (list_elem_of_here _ _))
                  eq_refl eq_refl eq_refl)).
  reflexivity.
Defined.

(** ** Building a prompt *)

(** X10.  [ChatPrompt(text, parent_id, message_id)] returns a new object,
    appended to the store, with the given text.  A parent id or message id
    that is given and true in Python's sense is kept; an absent or empty one
    is replaced by an id taken from [uuid4], the parent id first.  No id is
    taken from [uuid4] for an id that is kept, and no State changes. *)
Theorem ChatPrompt_init_populates text pid mid a b rest w :
  script w = drawn pid mid a b ++ rest →
  ChatPrompt_init text pid mid w
  = Ok (length (prompts w))
      (with_prompts
         (prompts w
          ++ [ {| prompt := text;
                  parent_id := if truthy_str pid then pid else Some a;
                  message_id := if truthy_str mid then mid else Some b |} ])
         (with_script rest w)).
Proof.
  unfold ChatPrompt_init, drawn, bind, gen_message_id, alloc_prompt, ret,
    with_prompts, with_script.
  destruct (truthy_str pid), (truthy_str mid); simpl; intros ->; reflexivity.
Qed.

Lemma ChatPrompt_init_populates_empty_parent :
  ChatPrompt_init (Some "Hi") (Some "") (Some "m-0")
    (ex_world ex_new_chat [IUuid "p-1"; IUuid "later"])
  = Ok 2%nat
      {| prompts :=
           [ {| prompt := None; parent_id := Some "u-parent";
                message_id := Some "u-own" |};
             {| prompt := None; parent_id := Some "a-parent";
                message_id := Some "a-own" |};
             {| prompt := Some "Hi"; parent_id := Some "p-1";
                message_id := Some "m-0" |} ];
         states := [ex_new_chat]; self_state := Some 0%nat;
         script := [IUuid "later"]; out := [];
         access_token := "token"; version := "1.0" |}
  ∧ ChatPrompt_init (Some "Hi") None None
      (ex_world ex_new_chat [IUuid "p-1"; IUuid "m-1"; IUuid "later"])
    = Ok 2%nat
        {| prompts :=
             [ {| prompt := None; parent_id := Some "u-parent";
                  message_id := Some "u-own" |};
               {| prompt := None; parent_id := Some "a-parent";
                  message_id := Some "a-own" |};
               {| prompt := Some "Hi"; parent_id := Some "p-1";
                  message_id := Some "m-1" |} ];
           states := [ex_new_chat]; self_state := Some 0%nat;
           script := [IUuid "later"]; out := [];
           access_token := "token"; version := "1.0" |}.
Proof.
  split.
  - apply (ChatPrompt_init_populates (Some "Hi") (Some "") (Some "m-0") "p-1" "unused"
             [IUuid "later"] (ex_world ex_new_chat [IUuid "p-1"; IUuid "later"])).
    reflexivity.
  - apply (ChatPrompt_init_populates (Some "Hi") None None "p-1" "m-1"
             [IUuid "later"]
             (ex_world ex_new_chat [IUuid "p-1"; IUuid "m-1"; IUuid "later"])).
    reflexivity.
Defined.

(** ** Starting a new chat *)

Lemma show_models_Ok models : ∀ idx choices w,
  show_models idx models choices w
  = Ok (choices ++ model_choices idx models)
       (with_out (out w ++ model_lines idx models) w).
Proof.
  induction models as [|item models IH]; intros idx choices w; simpl.
  - rewrite !app_nil_r. by destruct w.
  - erewrite bind_Ok by apply say_Ok. rewrite IH. simpl.
    by rewrite <- !app_assoc.
Qed.

Lemma elem_of_model_choices models : ∀ idx i (m : Model),
  models !! i = Some m → pretty (idx + i + 1)%nat ∈ model_choices idx models.
Proof.
  induction models as [|m0 models IH]; intros idx i m Hi; [done|].
  destruct i as [|i]; simpl.
  - rewrite Nat.add_0_r. apply list_elem_of_here.
  - apply list_elem_of_further.
    replace (idx + S i)%nat with (S idx + i)%nat by lia. by eapply IH.
Qed.

Lemma new_conversation_with m w1 w :
  choice_model w = Ok m w1 →
  new_conversation w
  = Ok tt (with_out (out w1 ++ banner "New Chat")
             (with_self_state (Some (length (states w1)))
                (with_states (states w1 ++ [new_chat m]) w1))).
Proof.
  intros Hm. unfold new_conversation.
  erewrite bind_Ok by exact Hm.
  erewrite bind_Ok by reflexivity.
  erewrite bind_Ok by reflexivity.
  erewrite bind_Ok;
    [| eapply state_setattr_Ok; [reflexivity | by apply list_lookup_middle]].
  erewrite bind_Ok;
    [| eapply (state_attr_Ok title); [reflexivity |];
       cbn [states with_states with_self_state];
       apply list_lookup_insert_eq; rewrite length_app; simpl; lia].
  unfold print_conversation_title, bind, say, say_end, log, banner.
  cbn [out with_out with_states with_self_state states self_state title set_title str_opt].
  f_equal. rewrite <- app_assoc.
  replace (<[length (states w1) := _]> (states w1 ++ _)) with (states w1 ++ [new_chat m]).
  - reflexivity.
  - rewrite <- (Nat.add_0_r (length (states w1))) at 1. by rewrite insert_app_r.
Qed.

(** X11.  [__new_conversation] leaves a new State titled "New Chat", without
    conversation id, with the slug of the chosen model: with a single model
    nothing is asked; with several the models are listed and the number typed
    selects the model. *)
Theorem new_conversation_starts_fresh models i m rest w :
  models !! i = Some m →
  (models = [m] →
   script w = IModels models :: rest →
   new_conversation w
   = Ok tt (with_out (out w ++ Remote Call.list_models :: banner "New Chat")
              (with_script rest
                 (with_self_state (Some (length (states w)))
                    (with_states (states w ++ [new_chat m]) w)))))
  ∧ (length models ≠ 1%nat →
     script w = IModels models :: IAsk (pretty (i + 1)%nat) :: rest →
     new_conversation w
     = Ok tt (with_out
                (out w ++ Remote Call.list_models :: Say info_b "Choice model:" nl
                   :: model_lines 0 models ++ Ask "Your choice" :: banner "New Chat")
                (with_script rest
                   (with_self_state (Some (length (states w)))
                      (with_states (states w ++ [new_chat m]) w))))).
Proof.
  intros Hi. split.
  - intros -> Hsc.
    assert (Hm : choice_model w
                 = Ok m (with_out (out w ++ [Remote Call.list_models]) (with_script rest w))).
    { unfold choice_model, ChatGPT.list_models.
      erewrite bind_Ok by (by eapply call_Ok). reflexivity. }
    rewrite (new_conversation_with _ _ _ Hm).
    cbn [out states with_out with_script]. by rewrite <- app_assoc.
  - intros Hlen Hsc.
    assert (Hm : choice_model w
                 = Ok m (with_out
                           (out w ++ Remote Call.list_models
                              :: Say info_b "Choice model:" nl
                              :: model_lines 0 models ++ [Ask "Your choice"])
                           (with_script rest w))).
    { unfold choice_model, ChatGPT.list_models.
      erewrite bind_Ok by (by eapply call_Ok).
      assert (Hmany : ∀ (A : Type) (one : Model → A) (other : A),
                match models with [x] => one x | _ => other end = other).
      { intros A one other. by destruct models as [|m0 [|m1 ms]]. }
      rewrite Hmany.
      erewrite bind_Ok by apply say_Ok.
      erewrite bind_Ok by apply show_models_Ok.
      erewrite bind_Ok;
        [| eapply Prompt_ask_choice;
           [reflexivity
           | eapply strip_digits, int_of_pretty
           | by eapply (elem_of_model_choices models 0 i m)]].
      rewrite int_of_pretty.
      replace (Z.of_nat (i + 1) - 1)%Z with (Z.of_nat i) by lia.
      unfold getitem. rewrite (proj2 (Z.leb_le 0 (Z.of_nat i))) by lia.
      rewrite Nat2Z.id, Hi. unfold ret. f_equal.
      cbn [out with_out with_script script]. rewrite <- !app_assoc. reflexivity. }
    rewrite (new_conversation_with _ _ _ Hm).
    cbn [out states with_out with_script]. rewrite <- !app_assoc. cbn [app].
    rewrite <- !app_assoc. reflexivity.
Qed.

Lemma new_conversation_starts_fresh_two_models :
  new_conversation (ex_world ex_open_chat [IModels [ex_model; ex_model2]; IAsk "2"])
  = Ok tt (with_out
             (Remote Call.list_models :: Say info_b "Choice model:" nl
                :: model_lines 0 [ex_model; ex_model2]
                ++ Ask "Your choice" :: banner "New Chat")
             (with_self_state (Some 1%nat)
                (with_states [ex_open_chat; new_chat ex_model2]
                   (ex_world ex_open_chat [])))).
Proof.
  apply (proj2 (new_conversation_starts_fresh [ex_model; ex_model2] 1 ex_model2 []
                  (ex_world ex_open_chat [IModels [ex_model; ex_model2]; IAsk "2"])
                  eq_refl)).
  - discriminate.
  - reflexivity.
Defined.

(** ** Renaming from the selector *)

(** X12.  The choice [t<k>] in the selector asks for a title, passes the
    line typed, stripped, when it has at most 64 characters, to
    [set_conversation_title] with the id of the [k]-th item, and displays the
    same page again, whether the call returned true or false.  The title is
    assigned to a State built for the item, not to [self.state]: that State
    has the id of the item, no model, and the title when the call returned
    true. *)
Theorem selector_rename_redisplays fuel page page_size items choices i item
    typed ok rest w :
  "t" +:+ pretty (i + 1)%nat ∈ choices →
  items !! i = Some item →
  nonempty (item_id item) = true →
  let new_title := strip typed in
  String.length new_title ≤ 64 →
  script w = IAsk ("t" +:+ pretty (i + 1)%nat) :: IAsk typed :: ISetTitle ok :: rest →
  choice_loop (S fuel) page page_size items choices w
  = choice_conversation fuel page page_size
      (with_out
         (out w ++ [Ask "Your choice"; Ask "New title";
                    Remote (Call.set_conversation_title (Some (item_id item)) new_title);
                    if ok then Say debug "#### Set title success." nl
                    else Say error "#### Set title failed." nl])
         (with_states
            (states w
             ++ [ {| title := if ok then Some new_title else None;
                     conversation_id := Some (item_id item);
                     model_slug := None;
                     user_prompt := default_user_prompt;
                     chatgpt_prompt := default_chatgpt_prompt |} ])
            (with_script rest w))).
Proof.
  intros Hin Hi Hid new_title Hlen Hsc.
  change ("t" +:+ pretty (i + 1)%nat) with (String "t" (pretty (i + 1)%nat)) in *.
  cbn [choice_loop].
  erewrite bind_Ok
    by (apply Prompt_ask_choice;
        [done | by eapply strip_letter_digits, int_of_pretty | done]).
  change (String.eqb "c" (String "t" ?d)) with false.
  change (String.eqb "n" (String "t" ?d)) with false.
  change (String.eqb "p" (String "t" ?d)) with false.
  cbv iota. change (Ascii.eqb "t" "t") with true. cbv iota.
  erewrite bind_Ok by (by apply item_at_pretty).
  erewrite bind_Ok by reflexivity.
  set (w1 := with_states _ _).
  assert (Hst : states w1 !! length (states w) = Some (picked item)).
  { subst w1. cbn [states with_states with_out with_script]. by apply list_lookup_middle. }
  assert (Hset : set_conversation_title (length (states w)) w1
    = Ok tt
        (with_out
           (out w ++ [Ask "Your choice"; Ask "New title";
                      Remote (Call.set_conversation_title (Some (item_id item)) new_title);
                      if ok then Say debug "#### Set title success." nl
                      else Say error "#### Set title failed." nl])
           (with_states
              (states w ++ [if ok then set_title (Some new_title) (picked item)
                            else picked item])
              (with_script rest w)))).
  { unfold set_conversation_title.
    erewrite bind_Ok by (by apply read_state_Ok).
    change (truthy_str (conversation_id (picked item))) with (nonempty (item_id item)).
    rewrite Hid. cbn [negb].
    erewrite bind_Ok by (by apply Prompt_ask_free).
    fold new_title.
    rewrite (proj2 (Nat.ltb_ge 64 (String.length new_title))) by lia.
    erewrite bind_Ok by (by apply read_state_Ok).
    unfold ChatGPT.set_conversation_title.
    erewrite bind_Ok by (by eapply call_Ok).
    destruct ok.
    - erewrite bind_Ok by (by apply write_state_Ok).
      unfold say, say_end, log. f_equal. subst w1.
      cbn [out states with_out with_states with_script].
      rewrite <- !app_assoc.
      replace (<[length (states w) := _]> (states w ++ _))
        with (states w ++ [set_title (Some new_title) (picked item)]); [reflexivity|].
      rewrite <- (Nat.add_0_r (length (states w))) at 1. by rewrite insert_app_r.
    - unfold say, say_end, log. f_equal. subst w1.
      cbn [out states with_out with_states with_script].
      by rewrite <- !app_assoc. }
  erewrite bind_Ok by exact Hset. by destruct ok.
Qed.

Lemma selector_rename_redisplays_t1 :
  choice_loop 2 2 20 (ls_items ex_page2) (offered ex_page2)
    (ex_world ex_new_chat
       [IAsk "t1"; IAsk "  Holiday "; ISetTitle true; IListing ex_page2; IAsk "c"])
  = choice_conversation 1 2 20
      {| prompts := ex_prompts;
         states := [ {| title := Some "New Chat"; conversation_id := None;
                        model_slug := Some "gpt";
                        user_prompt := default_user_prompt;
                        chatgpt_prompt := default_chatgpt_prompt |};
                     {| title := Some "Holiday"; conversation_id := Some "conv-1";
                        model_slug := None;
                        user_prompt := default_user_prompt;
                        chatgpt_prompt := default_chatgpt_prompt |} ];
         self_state := Some 0%nat;
         script := [IListing ex_page2; IAsk "c"];
         out := [Ask "Your choice"; Ask "New title";
                 Remote (Call.set_conversation_title (Some "conv-1") "Holiday");
                 Say debug "#### Set title success." nl];
         access_token := "token"; version := "1.0" |}.
Proof.
  assert (Hin : "t1" ∈ offered ex_page2).
  { change (offered ex_page2) with ["c"; "1"; "t1"; "d1"; "p"].
    do 2 apply list_elem_of_further. apply list_elem_of_here. }
  apply (selector_rename_redisplays 1 2 20 (ls_items ex_page2) (offered ex_page2)
           0 (ex_item "1") "  Holiday " true [IListing ex_page2; IAsk "c"]
           (ex_world ex_new_chat
              [IAsk "t1"; IAsk "  Holiday "; ISetTitle true; IListing ex_page2; IAsk "c"])
           Hin eq_refl eq_refl).
  - vm_compute. lia.
  - reflexivity.
Defined.

(** ** Turning the pages of the selector *)

(** X13.  In the selector "n" fetches and prints the page after the current
    one (offset [page * page_size]), "p" the page before it (offset
    [(page - 2) * page_size]), and "c" returns "no selection". *)
Theorem selector_turns_pages fuel page page_size items choices l rest w :
  ls_total l ≠ 0%Z →
  let asked := out w ++ [Ask "Your choice"] in
  ("n" ∈ choices →
   script w = IAsk "n" :: IListing l :: rest →
   choice_loop (S (S fuel)) page page_size items choices w
   = choice_loop fuel (page + 1) page_size (ls_items l) (offered l)
       (with_out
          (asked ++ Remote (Call.list_conversations (page * page_size) page_size)
             :: page_header (page + 1) :: menu l)
          (with_script rest w)))
  ∧ ("p" ∈ choices →
     script w = IAsk "p" :: IListing l :: rest →
     choice_loop (S (S fuel)) page page_size items choices w
     = choice_loop fuel (page - 1) page_size (ls_items l) (offered l)
         (with_out
            (asked ++ Remote (Call.list_conversations ((page - 2) * page_size) page_size)
               :: page_header (page - 1) :: menu l)
            (with_script rest w)))
  ∧ ("c" ∈ choices →
     script w = IAsk "c" :: rest →
     choice_loop (S (S fuel)) page page_size items choices w
     = Ok None (with_out asked (with_script rest w))).
Proof.
  intros Ht asked. split_and!; intros Hin Hsc.
  - cbn [choice_loop]. erewrite bind_Ok by (by apply Prompt_ask_choice).
    change (String.eqb "c" "n") with false. change (String.eqb "n" "n") with true.
    cbv iota. erewrite choice_conversation_menu; [| reflexivity | done].
    replace (page + 1 - 1)%Z with page by lia.
    subst asked. cbn [out with_out with_script]. by rewrite <- app_assoc.
  - cbn [choice_loop]. erewrite bind_Ok by (by apply Prompt_ask_choice).
    change (String.eqb "c" "p") with false. change (String.eqb "n" "p") with false.
    change (String.eqb "p" "p") with true.
    cbv iota. erewrite choice_conversation_menu; [| reflexivity | done].
    replace (page - 1 - 1)%Z with (page - 2)%Z by lia.
    subst asked. cbn [out with_out with_script]. by rewrite <- app_assoc.
  - cbn [choice_loop]. erewrite bind_Ok by (by apply Prompt_ask_choice).
    reflexivity.
Qed.

Lemma selector_turns_pages_next :
  choice_loop 2 1 20 (ls_items ex_page1) (offered ex_page1)
    (ex_world ex_new_chat [IAsk "n"; IListing ex_page2])
  = choice_loop 0 2 20 (ls_items ex_page2) (offered ex_page2)
      (with_out
         ([Ask "Your choice"] ++ Remote (Call.list_conversations 20 20)
            :: page_header 2 :: menu ex_page2)
         (ex_world ex_new_chat [])).
Proof.
  assert (Hin : "n" ∈ offered ex_page1).
  { unfold offered. rewrite !elem_of_app. do 2 right. left. apply list_elem_of_here. }
  apply (proj1 (selector_turns_pages 0 1 20 (ls_items ex_page1) (offered ex_page1)
                  ex_page2 [] (ex_world ex_new_chat [IAsk "n"; IListing ex_page2])
                  ltac:(discriminate)) Hin eq_refl).
Defined.

(** ** A stream that breaks off *)

Lemma print_reply_event_refuses p e w :
  clean e = false → print_reply_event p e w = Raise (refusal e) w.
Proof.
  unfold clean, refusal, print_reply_event. intros H.
  destruct (truthy (ev_error e)); [done|].
  destruct (ev_message e) as [m|]; [|done].
  simpl in H. first [done | by rewrite bool_decide_eq_true_2 in H by eauto].
Qed.

Lemma print_reply_from_breaks pre bad rest : ∀ p w s up cp,
  ready s up cp w → forallb clean pre = true → clean bad = false →
  ∃ w', print_reply_from p pre w = Ok tt w'
    ∧ print_reply_from p (pre ++ bad :: rest) w = Raise (refusal bad) w'
    ∧ out w' = out w ++ shown_all (chunks_from p pre) pre.
Proof.
  induction pre as [|e es IH]; intros p w s up cp Hr Hc Hbad.
  - exists w. split; [done|]. split.
    + cbn [app print_reply_from]. by erewrite bind_Raise by (by apply print_reply_event_refuses).
    + simpl. by rewrite app_nil_r.
  - simpl in Hc. apply andb_prop in Hc as [Hce Hces].
    pose proof Hr as (_ & _ & [u Hu] & _).
    destruct (print_reply_event_ready p e w s up cp u Hr Hu Hce)
      as (m & w1 & Hm & Hrun & Hr1 & Hout1 & _).
    destruct (IH (p + String.length (slice_from p (msg_part0 m)))%nat w1 s up cp Hr1 Hces Hbad)
      as (w' & Hpre & Hall & Hout').
    exists w'. cbn [app print_reply_from].
    rewrite !(bind_Ok _ _ _ _ _ Hrun). split; [done|]. split; [done|].
    rewrite Hout', Hout1. cbn [chunks_from shown_all]. unfold content, shown.
    rewrite Hm. by rewrite <- app_assoc.
Qed.

(** X14.  When a stream breaks off at an event with an error or without
    message, after events that were reconciled, [__print_reply] raises at
    that event in the world that the reconciled events left: their texts stay
    on the console and no final line break is printed. *)
Theorem print_reply_keeps_reconciled_prefix pre bad rest w s st :
  self_state w = Some s →
  states w !! s = Some st →
  is_Some (prompts w !! user_prompt st) →
  is_Some (prompts w !! chatgpt_prompt st) →
  forallb clean pre = true →
  clean bad = false →
  ∃ w',
    print_reply_from 0 pre w = Ok tt w'
    ∧ print_reply (pre ++ bad :: rest) w = Raise (refusal bad) w'
    ∧ out w' = out w ++ shown_all (chunks_from 0 pre) pre.
Proof.
  intros Hs Hst Hu Hc Hpre Hbad.
  destruct (print_reply_from_breaks pre bad rest 0 w s (user_prompt st) (chatgpt_prompt st))
    as (w' & H1 & H2 & H3); [by repeat split; eauto | done | done |].
  exists w'. split; [done|]. split; [|done].
  unfold print_reply. by erewrite bind_Raise.
Qed.

Lemma print_reply_keeps_reconciled_prefix_hello :
  ∃ w',
    print_reply_from 0 [ex_event "Hello"] (ex_world ex_new_chat []) = Ok tt w'
    ∧ print_reply [ex_event "Hello"; ex_no_message; ex_event "Hello, world"]
        (ex_world ex_new_chat [])
      = Raise (Exception (PyStr "miss message property.")) w'
    ∧ out w' = [Say success "Hello" ""].
Proof.
  apply (print_reply_keeps_reconciled_prefix [ex_event "Hello"] ex_no_message
           [ex_event "Hello, world"] (ex_world ex_new_chat []) 0 ex_new_chat);
    first [reflexivity | by eexists].
Defined.

(** ** Sending a message *)

Lemma print_reply_from_last events : ∀ p w s st u e m,
  self_state w = Some s →
  states w !! s = Some st →
  user_prompt st ≠ chatgpt_prompt st →
  prompts w !! user_prompt st = Some u →
  is_Some (prompts w !! chatgpt_prompt st) →
  forallb clean events = true →
  last events = Some e →
  ev_message e = Some m →
  print_reply_from p events w
  = Ok tt
      (with_out (out w ++ shown_all (chunks_from p events) events)
         (with_prompts (<[chatgpt_prompt st := reconciled (message_id u) m]> (prompts w))
            (with_states
               (<[s := set_conversation_id (ev_conversation_id e) st]> (states w))
               w))).
Proof.
  induction events as [|e1 es IH]; intros p w s st u e m Hs Hst Hne Hu [c Hc] Hclean Hlast Hm;
    [done|].
  simpl in Hclean. apply andb_prop in Hclean as [Hce Hces].
  destruct (clean_inv e1 Hce) as [He1 [m1 Hm1]].
  cbn [print_reply_from].
  erewrite bind_Ok by (by eapply print_reply_event_Ok).
  assert (Hls : (s < length (states w))%nat) by (by eapply lookup_lt_Some).
  assert (Hlc : (chatgpt_prompt st < length (prompts w))%nat) by (by eapply lookup_lt_Some).
  destruct es as [|e2 es].
  - assert (e1 = e) by (simpl in Hlast; congruence). subst e1.
    assert (m1 = m) by congruence. subst m1.
    cbn [print_reply_from ret chunks_from shown_all]. unfold content, shown. rewrite Hm.
    by rewrite app_nil_r.
  - rewrite last_cons_cons in Hlast.
    erewrite (IH _ _ s (set_conversation_id (ev_conversation_id e1) st) u e m);
      [| done
       | cbn [states with_out with_prompts with_states]; by apply list_lookup_insert_eq
       | done
       | cbn [prompts with_out with_prompts with_states user_prompt set_conversation_id];
         by rewrite list_lookup_insert_ne
       | cbn [prompts with_out with_prompts with_states chatgpt_prompt set_conversation_id];
         rewrite list_lookup_insert_eq by done; by eexists
       | done | done | done ].
    f_equal.
    cbn [out prompts states with_out with_prompts with_states
         chatgpt_prompt set_conversation_id].
    rewrite !list_insert_insert_eq, <- app_assoc.
    assert (Hc1 : content e1 = msg_part0 m1) by (unfold content; by rewrite Hm1).
    assert (Hs1 : ∀ t, shown t e1 = emit t m1) by (intros t; unfold shown; by rewrite Hm1).
    change (chunks_from p (e1 :: e2 :: es))
      with (slice_from p (content e1)
            :: chunks_from (p + String.length (slice_from p (content e1))) (e2 :: es)).
    change (shown_all (?c :: ?cs) (e1 :: ?l)) with (shown c e1 ++ shown_all cs l).
    by rewrite Hc1, Hs1.
Qed.

Lemma ChatPrompt_init_linked text pid mid rest w :
  truthy_str pid = true →
  script w = IUuid mid :: rest →
  ChatPrompt_init (Some text) pid None w
  = Ok (length (prompts w))
      (with_prompts
         (prompts w ++ [{| prompt := Some text; parent_id := pid;
                           message_id := Some mid |}])
         (with_script rest w)).
Proof.
  intros Hpid Hsc. unfold ChatPrompt_init. rewrite Hpid.
  erewrite bind_Ok by reflexivity.
  cbn [truthy_str]. unfold bind at 1. unfold bind at 1. unfold gen_message_id.
  rewrite Hsc. reflexivity.
Qed.

(** X15.  [__talk] builds a user prompt whose parent id is the own id of the
    assistant prompt, sends the text with the ids of that prompt, and after
    the reply the assistant prompt has the own id of the user prompt as
    parent id.  In a chat without conversation id it then asks the client
    for a title, with the conversation id and node id of the last event, and
    assigns it; in a chat with an id no title is asked. *)
Theorem talk_links_prompts text s st c mid events e m rest w :
  self_state w = Some s →
  states w !! s = Some st →
  prompts w !! chatgpt_prompt st = Some c →
  truthy_str (message_id c) = true →
  forallb clean events = true →
  last events = Some e →
  ev_message e = Some m →
  let user := {| prompt := Some text; parent_id := message_id c;
                 message_id := Some mid |} in
  let st' := set_conversation_id (ev_conversation_id e)
               (set_user_prompt (length (prompts w)) st) in
  let said :=
    out w ++ Say success_b "ChatGPT:" nl
      :: Remote (Call.talk text (model_slug st) (Some mid) (message_id c)
                   (conversation_id st))
      :: shown_all (chunks_from 0 events) events ++ [Say plain "" nl] in
  let linked := <[chatgpt_prompt st := reconciled (Some mid) m]> (prompts w ++ [user]) in
  (truthy_str (conversation_id st) = true →
   script w = IUuid mid :: IStream events :: rest →
   talk text w
   = Ok tt (with_out said
              (with_script rest
                 (with_prompts linked (with_states (<[s := st']> (states w)) w)))))
  ∧ (truthy_str (conversation_id st) = false →
     ∀ t, script w = IUuid mid :: IStream events :: ITitle t :: rest →
     talk text w
     = Ok tt (with_out
                (said ++ [Remote (Call.gen_conversation_title (ev_conversation_id e)
                                    (model_slug st) (Some (msg_id m)));
                          Say debug_bh ("#### Title generated: " +:+ t) nl])
                (with_script rest
                   (with_prompts linked
                      (with_states (<[s := set_title (Some t) st']> (states w)) w))))).
Proof.
  intros Hs Hst Hc Hmid Hclean Hlast Hm user st' said linked.
  assert (Hls : (s < length (states w))%nat) by (by eapply lookup_lt_Some).
  assert (Hlc : (chatgpt_prompt st < length (prompts w))%nat) by (by eapply lookup_lt_Some).
  assert (Hrun : ∀ rest',
    script w = IUuid mid :: IStream events :: rest' →
    talk text w
    = (if negb (truthy_str (conversation_id st)) then
         let* cid := state_attr conversation_id in
         let* model := state_attr model_slug in
         let* cp := state_attr chatgpt_prompt in
         let* c := read_prompt cp in
         let* new_title := ChatGPT.gen_conversation_title cid model (message_id c) in
         state_setattr (set_title (Some new_title)) ;;
         say debug_bh ("#### Title generated: " +:+ new_title)
       else ret tt)
        (with_out said
           (with_script rest'
              (with_prompts linked (with_states (<[s := st']> (states w)) w))))).
  { intros rest' Hsc. unfold talk.
    erewrite bind_Ok by apply say_Ok.
    erewrite bind_Ok by (by eapply (state_attr_Ok conversation_id)).
    erewrite bind_Ok by (by eapply (state_attr_Ok chatgpt_prompt)).
    erewrite bind_Ok by (by eapply read_prompt_Ok).
    erewrite bind_Ok by (by eapply ChatPrompt_init_linked).
    erewrite bind_Ok by (by eapply state_setattr_Ok).
    set (w1 := with_states _ _).
    assert (Hst1 : states w1 !! s = Some (set_user_prompt (length (prompts w)) st)).
    { subst w1. cbn [states with_states]. by apply list_lookup_insert_eq. }
    assert (Hu1 : prompts w1 !! length (prompts w) = Some user).
    { subst w1. cbn [prompts with_states with_prompts with_script with_out].
      by apply list_lookup_middle. }
    erewrite bind_Ok by (by eapply (state_attr_Ok model_slug)).
    erewrite bind_Ok by (by eapply (state_attr_Ok user_prompt)).
    erewrite bind_Ok by (by eapply read_prompt_Ok).
    erewrite bind_Ok by (by eapply (state_attr_Ok conversation_id)).
    unfold ChatGPT.talk.
    erewrite bind_Ok by (by eapply call_Ok).
    unfold print_reply.
    erewrite bind_Ok;
      [| erewrite bind_Ok;
         [ reflexivity
         | eapply (print_reply_from_last events 0 _ s
                     (set_user_prompt (length (prompts w)) st) user e m);
           [ done | exact Hst1
           | cbn [user_prompt chatgpt_prompt set_user_prompt]; lia
           | exact Hu1
           | subst w1;
             cbn [prompts with_states with_prompts with_script with_out
                  chatgpt_prompt set_user_prompt];
             rewrite lookup_app_l by done; by eexists
           | done | done | done ] ] ].
    f_equal. unfold print_, say, say_end, log. subst w1 said linked st' user.
    cbn [out prompts states script with_out with_prompts with_states with_script
         chatgpt_prompt set_user_prompt model_slug conversation_id message_id parent_id].
    rewrite list_insert_insert_eq, <- !app_assoc. reflexivity. }
  assert (Hlen' : (s < length (<[s := st']> (states w)))%nat) by (by rewrite length_insert).
  split.
  - intros Hcid Hsc. rewrite (Hrun rest Hsc), Hcid. reflexivity.
  - intros Hcid t Hsc. rewrite (Hrun _ Hsc), Hcid. cbn [negb].
    set (w2 := with_out said _).
    assert (Hst2 : states w2 !! s = Some st').
    { subst w2. cbn [states with_out with_script with_prompts with_states].
      by apply list_lookup_insert_eq. }
    assert (Hcp2 : prompts w2 !! chatgpt_prompt st' = Some (reconciled (Some mid) m)).
    { subst w2 linked.
      cbn [prompts with_out with_script with_prompts with_states chatgpt_prompt
           set_conversation_id set_user_prompt st'].
      apply list_lookup_insert_eq. rewrite length_app. lia. }
    erewrite bind_Ok by (by eapply (state_attr_Ok conversation_id)).
    erewrite bind_Ok by (by eapply (state_attr_Ok model_slug)).
    erewrite bind_Ok by (by eapply (state_attr_Ok chatgpt_prompt)).
    erewrite bind_Ok by (by eapply read_prompt_Ok).
    unfold ChatGPT.gen_conversation_title.
    erewrite bind_Ok by (by eapply call_Ok).
    erewrite bind_Ok by (by eapply state_setattr_Ok).
    unfold say, say_end, log. f_equal. subst w2.
    cbn [out prompts states script with_out with_prompts with_states with_script].
    rewrite list_insert_insert_eq, <- !app_assoc. reflexivity.
Qed.

Lemma talk_links_prompts_first_message :
  talk "Hi" (ex_world ex_new_chat [IUuid "m-1"; IStream ex_hello; ITitle "Greeting"])
  = Ok tt
      (with_out
         ([Say success_b "ChatGPT:" nl;
           Remote (Call.talk "Hi" (Some "gpt") (Some "m-1") (Some "a-own") None);
           Say success "Hello" ""; Say success ", world" ""; Say plain "" nl]
          ++ [Remote (Call.gen_conversation_title (Some "conv-1") (Some "gpt")
                        (Some "a-1"));
              Say debug_bh "#### Title generated: Greeting" nl])
         (with_prompts
            [ {| prompt := None; parent_id := Some "u-parent";
                 message_id := Some "u-own" |};
              {| prompt := Some "Hello, world"; parent_id := Some "m-1";
                 message_id := Some "a-1" |};
              {| prompt := Some "Hi"; parent_id := Some "a-own";
                 message_id := Some "m-1" |} ]
            (with_states
               [ {| title := Some "Greeting"; conversation_id := Some "conv-1";
                    model_slug := Some "gpt"; user_prompt := 2;
                    chatgpt_prompt := default_chatgpt_prompt |} ]
               (ex_world ex_new_chat [])))).
Proof.
  apply (proj2 (talk_links_prompts "Hi" 0 ex_new_chat
                  {| prompt := None; parent_id := Some "a-parent";
                     message_id := Some "a-own" |}
                  "m-1" ex_hello (ex_event "Hello, world")
                  (ex_message "a-1" "Hello, world") []
                  (ex_world ex_new_chat [IUuid "m-1"; IStream ex_hello; ITitle "Greeting"])
                  eq_refl eq_refl eq_refl eq_refl eq_refl eq_refl eq_refl)
           eq_refl "Greeting" eq_refl).
Defined.

(** ** Asking for another reply *)

(** X16.  [__regenerate_reply] on the session's State sends the text, own id
    and parent id of the user prompt as they are, leaves the user prompt
    unchanged and stores the new reply in the assistant prompt, with the own
    id of the user prompt as parent id. *)
Theorem regenerate_reply_resubmits s st u events e m rest w :
  self_state w = Some s →
  states w !! s = Some st →
  truthy_str (conversation_id st) = true →
  user_prompt st ≠ chatgpt_prompt st →
  prompts w !! user_prompt st = Some u →
  is_Some (prompts w !! chatgpt_prompt st) →
  forallb clean events = true →
  last events = Some e →
  ev_message e = Some m →
  script w = IStream events :: rest →
  regenerate_reply s w
  = Ok tt
      (with_out
         (out w ++ Remote (Call.regenerate_reply (prompt u) (model_slug st)
                             (conversation_id st) (message_id u) (parent_id u))
            :: Say plain "" nl :: Say success_b "ChatGPT:" nl
            :: shown_all (chunks_from 0 events) events ++ [Say plain "" nl])
         (with_script rest
            (with_prompts
               (<[chatgpt_prompt st := reconciled (message_id u) m]> (prompts w))
               (with_states
                  (<[s := {| title := title st;
                             conversation_id := ev_conversation_id e;
                             model_slug := model_slug st;
                             user_prompt := user_prompt st;
                             chatgpt_prompt := chatgpt_prompt st |}]> (states w))
                  w)))).
Proof.
  intros Hs Hst Hcid Hne Hu Hc Hclean Hlast Hm Hsc.
  unfold regenerate_reply.
  erewrite bind_Ok by (by apply read_state_Ok).
  rewrite Hcid. cbn [negb].
  erewrite bind_Ok by (by eapply read_prompt_Ok).
  unfold ChatGPT.regenerate_reply.
  erewrite bind_Ok by (by eapply call_Ok).
  erewrite bind_Ok by reflexivity.
  erewrite bind_Ok by reflexivity.
  unfold print_reply.
  erewrite bind_Ok; [| by eapply (print_reply_from_last events 0 _ s st u e m)].
  unfold print_, say, say_end, log. f_equal.
  cbn [out prompts states script with_out with_prompts with_states with_script].
  rewrite <- !app_assoc. reflexivity.
Qed.

Lemma regenerate_reply_resubmits_hello :
  regenerate_reply 0 (ex_world ex_open_chat [IStream ex_hello])
  = Ok tt
      (with_out
         (Remote (Call.regenerate_reply None (Some "gpt") (Some "conv-1")
                    (Some "u-own") (Some "u-parent"))
          :: Say plain "" nl :: Say success_b "ChatGPT:" nl
          :: [Say success "Hello" ""; Say success ", world" ""] ++ [Say plain "" nl])
         (with_prompts
            [ {| prompt := None; parent_id := Some "u-parent";
                 message_id := Some "u-own" |};
              {| prompt := Some "Hello, world"; parent_id := Some "u-own";
                 message_id := Some "a-1" |} ]
            (ex_world ex_open_chat []))).
Proof.
  apply (regenerate_reply_resubmits 0 ex_open_chat
           {| prompt := None; parent_id := Some "u-parent"; message_id := Some "u-own" |}
           ex_hello (ex_event "Hello, world") (ex_message "a-1" "Hello, world") []
           (ex_world ex_open_chat [IStream ex_hello]));
    first [reflexivity | discriminate | by eexists].
Defined.

(** ** Loading a history of any length *)

Lemma last_cons_default {A B} (f : A → B) (d : B) (x : A) (l : list A) :
  from_option f d (last (x :: l)) = from_option f (f x) (last l).
Proof.
  destruct l as [|y l]; [done|]. rewrite last_cons_cons.
  destruct (last (y :: l)) eqn:E; [done|]. by apply last_None in E.
Qed.

Lemma omap_cons_case {A B} (f : A → option B) (x : A) (l : list A) :
  omap f (x :: l) = match f x with Some y => y :: omap f l | None => omap f l end.
Proof. reflexivity. Qed.

Lemma replay_all_Ok nodes : ∀ w s st pu pc,
  self_state w = Some s →
  states w !! s = Some st →
  user_prompt st ≠ chatgpt_prompt st →
  prompts w !! user_prompt st = Some pu →
  prompts w !! chatgpt_prompt st = Some pc →
  Forall (λ n, is_Some (node_role n)) nodes →
  ∃ w' st',
    replay_all nodes w = Ok tt w'
    ∧ self_state w' = Some s
    ∧ states w' !! s = Some st'
    ∧ user_prompt st' = user_prompt st
    ∧ chatgpt_prompt st' = chatgpt_prompt st
    ∧ title st' = title st
    ∧ conversation_id st' = conversation_id st
    ∧ model_slug st' = from_option Some (model_slug st) (last (omap node_slug nodes))
    ∧ prompts w' !! user_prompt st
      = Some (from_option node_seed pu (last (List.filter by_user nodes)))
    ∧ prompts w' !! chatgpt_prompt st
      = Some (from_option node_seed pc
                (last (List.filter (λ n, negb (by_user n)) nodes)))
    ∧ out w' = out w ++ concat (node_replayed <$> nodes).
Proof.
  induction nodes as [|n nodes IH]; intros w s st pu pc Hs Hst Hne Hu Hc Hall.
  - exists w, st. simpl. rewrite app_nil_r. by split_and!.
  - apply Forall_cons in Hall as [[r Hr] Hall].
    unfold node_role in Hr. destruct (node_message n) as [m|] eqn:Hm; [|done].
    simpl in Hr.
    assert (Hls : (s < length (states w))%nat) by (by eapply lookup_lt_Some).
    assert (Hlu : (user_prompt st < length (prompts w))%nat) by (by eapply lookup_lt_Some).
    assert (Hlc : (chatgpt_prompt st < length (prompts w))%nat) by (by eapply lookup_lt_Some).
    assert (Hby : by_user n = String.eqb "user" r).
    { unfold by_user, node_role. rewrite Hm. simpl. by rewrite Hr. }
    assert (Hseed : node_seed n = seeded n m).
    { unfold node_seed, seeded. by rewrite Hm. }
    assert (Hrep : node_replayed n = replayed m).
    { unfold node_replayed. by rewrite Hm. }
    assert (Hslug : node_slug n = msg_model_slug m).
    { unfold node_slug. by rewrite Hm. }
    set (st1 := match msg_model_slug m with
                | Some slug => set_model_slug (Some slug) st
                | None => st
                end).
    assert (Hst1 : user_prompt st1 = user_prompt st ∧ chatgpt_prompt st1 = chatgpt_prompt st
                   ∧ title st1 = title st ∧ conversation_id st1 = conversation_id st
                   ∧ model_slug st1 = from_option Some (model_slug st) (msg_model_slug m)).
    { subst st1. by destruct (msg_model_slug m). }
    destruct Hst1 as (Eu & Ec & Et & Ei & Em).
    cbn [replay_all].
    destruct (String.eqb "user" r) eqn:Huser.
    + pose proof (replay_Ok n m r w s st pu Hs Hst Hm Hr) as Hrun.
      rewrite Huser in Hrun. specialize (Hrun Hu). fold st1 in Hrun.
      erewrite bind_Ok by exact Hrun.
      match type of Hrun with _ = Ok tt ?x => set (w1 := x) in * end.
      destruct (IH w1 s st1 (seeded n m) pc)
        as (w' & st' & Hrun' & Hs' & Hst' & Eu' & Ec' & Et' & Ei' & Em' & Hu' & Hc' & Hout');
        [ done
        | subst w1; cbn [states with_out with_prompts with_states]; by apply list_lookup_insert_eq
        | by rewrite Eu, Ec
        | rewrite Eu; subst w1; cbn [prompts with_out with_prompts with_states];
          by apply list_lookup_insert_eq
        | rewrite Ec; subst w1; cbn [prompts with_out with_prompts with_states];
          by rewrite list_lookup_insert_ne
        | done |].
      exists w', st'. split; [exact Hrun'|]. split; [done|]. split; [done|].
      rewrite Eu', Ec', Et', Ei', Em', Em, Eu, Ec. split_and!; try done.
      * rewrite omap_cons_case, Hslug. destruct (msg_model_slug m) as [slug|]; [|done].
        by rewrite last_cons_default.
      * rewrite Eu in Hu'. rewrite Hu'. cbn [List.filter]. rewrite Hby.
        by rewrite last_cons_default, Hseed.
      * rewrite Ec in Hc'. rewrite Hc'. cbn [List.filter]. by rewrite Hby.
      * rewrite Hout'. subst w1. cbn [out with_out fmap list_fmap concat]. rewrite Hrep.
        by rewrite <- app_assoc.
    + pose proof (replay_Ok n m r w s st pc Hs Hst Hm Hr) as Hrun.
      rewrite Huser in Hrun. specialize (Hrun Hc). fold st1 in Hrun.
      erewrite bind_Ok by exact Hrun.
      match type of Hrun with _ = Ok tt ?x => set (w1 := x) in * end.
      destruct (IH w1 s st1 pu (seeded n m))
        as (w' & st' & Hrun' & Hs' & Hst' & Eu' & Ec' & Et' & Ei' & Em' & Hu' & Hc' & Hout');
        [ done
        | subst w1; cbn [states with_out with_prompts with_states]; by apply list_lookup_insert_eq
        | by rewrite Eu, Ec
        | rewrite Eu; subst w1; cbn [prompts with_out with_prompts with_states];
          by rewrite list_lookup_insert_ne
        | rewrite Ec; subst w1; cbn [prompts with_out with_prompts with_states];
          by apply list_lookup_insert_eq
        | done |].
      exists w', st'. split; [exact Hrun'|]. split; [done|]. split; [done|].
      rewrite Eu', Ec', Et', Ei', Em', Em, Eu, Ec. split_and!; try done.
      * rewrite omap_cons_case, Hslug. destruct (msg_model_slug m) as [slug|]; [|done].
        by rewrite last_cons_default.
      * rewrite Eu in Hu'. rewrite Hu'. cbn [List.filter]. by rewrite Hby.
      * rewrite Ec in Hc'. rewrite Hc'. cbn [List.filter]. rewrite Hby.
        cbn [negb]. by rewrite last_cons_default, Hseed.
      * rewrite Hout'. subst w1. cbn [out with_out fmap list_fmap concat]. rewrite Hrep.
        by rewrite <- app_assoc.
Qed.

(** X17.  For a history of any length in which every node has a message
    with a role, [__load_conversation] prints the messages oldest first and
    leaves the user prompt seeded from the last node written by the user, the
    assistant prompt from the last other node, and the model slug of the last
    message that has one; a prompt without such a node keeps what it held. *)
Theorem load_conversation_replays_history fuel cid conv nodes du dc rest w :
  truthy_str cid = true →
  script w = IConversation conv :: rest →
  prompts w !! default_user_prompt = Some du →
  prompts w !! default_chatgpt_prompt = Some dc →
  chain (conv_mapping conv) (conv_current_node conv) nodes →
  Forall (λ n, is_Some (node_role n)) nodes →
  ∃ w' st,
    load_conversation (S (length nodes) + fuel) cid w = Ok tt w'
    ∧ self_state w' = Some (length (states w))
    ∧ states w' !! length (states w) = Some st
    ∧ title st = Some (conv_title conv)
    ∧ conversation_id st = cid
    ∧ model_slug st = last (omap node_slug nodes)
    ∧ prompts w' !! user_prompt st
      = Some (from_option node_seed du (last (List.filter by_user nodes)))
    ∧ prompts w' !! chatgpt_prompt st
      = Some (from_option node_seed dc
                (last (List.filter (λ n, negb (by_user n)) nodes)))
    ∧ out w' = out w ++ Remote (Call.get_conversation cid)
                 :: banner (conv_title conv) ++ concat (node_replayed <$> nodes).
Proof.
  intros Hcid Hsc Hdu Hdc Hchain Hall.
  set (s := length (states w)).
  set (st1 := set_title (Some (conv_title conv)) (loading cid)).
  set (w1 := with_out (out w ++ Remote (Call.get_conversation cid) :: banner (conv_title conv))
               (with_script rest
                  (with_self_state (Some s)
                     (with_states (<[s := st1]> (states w ++ [loading cid])) w)))).
  assert (Hlen : (s < length (states w ++ [loading cid]))%nat).
  { rewrite length_app. simpl. subst s. lia. }
  assert (Hrun : load_conversation (S (length nodes) + fuel) cid w = replay_all nodes w1).
  { unfold load_conversation. rewrite Hcid. cbn [negb].
    erewrite bind_Ok by reflexivity.
    erewrite bind_Ok by reflexivity.
    unfold ChatGPT.get_conversation.
    erewrite bind_Ok by (by eapply call_Ok).
    erewrite bind_Ok by (by rewrite (walk_chain _ _ _ Hchain), app_nil_r).
    erewrite bind_Ok;
      [| eapply state_setattr_Ok; [reflexivity | by apply list_lookup_middle]].
    erewrite bind_Ok;
      [| eapply (state_attr_Ok title); [reflexivity |];
         cbn [states with_states]; by apply list_lookup_insert_eq].
    erewrite bind_Ok by reflexivity.
    subst w1. f_equal. unfold banner.
    cbn [out with_out with_states with_self_state with_script states script
         prompts self_state access_token version title set_title str_opt].
    by rewrite <- !app_assoc. }
  destruct (replay_all_Ok nodes w1 s st1 du dc)
    as (w' & st' & Hrun' & Hs' & Hst' & Eu & Ec & Et & Ei & Em & Hu' & Hc' & Hout');
    [ done
    | subst w1; cbn [states with_out with_script with_self_state with_states];
      by apply list_lookup_insert_eq
    | done | done | done | done |].
  exists w', st'. rewrite Hrun. split; [done|]. split; [done|]. split; [done|].
  split; [by rewrite Et|]. split; [by rewrite Ei|]. split.
  { rewrite Em. cbn [model_slug set_title loading st1]. by destruct (last _). }
  split; [by rewrite Eu|]. split; [by rewrite Ec|].
  rewrite Hout'. subst w1. cbn [out with_out]. by rewrite <- !app_assoc.
Qed.

Lemma load_conversation_replays_history_three :
  ∃ w' st,
    load_conversation 4 (Some "conv-1")
      (ex_world ex_new_chat [IConversation ex_conversation3]) = Ok tt w'
    ∧ self_state w' = Some 1%nat
    ∧ states w' !! 1%nat = Some st
    ∧ title st = Some "Trip"
    ∧ conversation_id st = Some "conv-1"
    ∧ model_slug st = Some "gpt-4"
    ∧ prompts w' !! user_prompt st = Some (node_seed ex_C)
    ∧ prompts w' !! chatgpt_prompt st = Some (node_seed ex_B)
    ∧ out w' = Remote (Call.get_conversation (Some "conv-1"))
                 :: banner "Trip"
                 ++ concat (node_replayed <$> [ex_A; ex_B; ex_C]).
Proof.
  apply (load_conversation_replays_history 0 (Some "conv-1") ex_conversation3
           [ex_A; ex_B; ex_C]
           {| prompt := None; parent_id := Some "u-parent"; message_id := Some "u-own" |}
           {| prompt := None; parent_id := Some "a-parent"; message_id := Some "a-own" |}
           [] (ex_world ex_new_chat [IConversation ex_conversation3]));
    try reflexivity.
  - change [ex_A; ex_B; ex_C] with ((([] ++ [ex_A]) ++ [ex_B]) ++ [ex_C]).
    eapply chain_step; [reflexivity | reflexivity | reflexivity |].
    eapply chain_step; [reflexivity | reflexivity | reflexivity |].
    eapply chain_step; [reflexivity | reflexivity | reflexivity |].
    eapply chain_root; reflexivity.
  - repeat constructor; by eexists.
Defined.

(** ** Starting without conversations *)

(** X18.  When the listing is empty and there is one model, [run] asks
    nothing: it builds the new chat and enters the talk loop. *)
Theorem run_without_conversations fuel l m rest w :
  ls_total l = 0%Z →
  script w = IListing l :: IModels [m] :: rest →
  run (S (S fuel)) w
  = talk_loop (S fuel)
      (with_out
         (out w ++ Remote (Call.list_conversations 0 20) :: Remote Call.list_models
            :: banner "New Chat")
         (with_script rest
            (with_self_state (Some (length (states w)))
               (with_states (states w ++ [new_chat m]) w)))).
Proof.
  intros Ht Hsc. cbn [run].
  assert (Hnone : choice_conversation (S fuel) 1 20 w
    = Ok None (with_out (out w ++ [Remote (Call.list_conversations 0 20)])
                 (with_script (IModels [m] :: rest) w))).
  { cbn [choice_conversation]. unfold ChatGPT.list_conversations.
    erewrite bind_Ok by (by eapply call_Ok). by rewrite Ht. }
  erewrite bind_Ok by exact Hnone.
  assert (Hm : choice_model (with_out (out w ++ [Remote (Call.list_conversations 0 20)])
                               (with_script (IModels [m] :: rest) w))
    = Ok m (with_out (out w ++ [Remote (Call.list_conversations 0 20);
                                Remote Call.list_models])
              (with_script rest w))).
  { unfold choice_model, ChatGPT.list_models.
    erewrite bind_Ok by (by eapply call_Ok).
    unfold ret. f_equal. cbn [out with_out with_script]. by rewrite <- app_assoc. }
  erewrite bind_Ok by (by apply (new_conversation_with _ _ _ Hm)).
  f_equal. cbn [out states with_out with_script]. by rewrite <- app_assoc.
Qed.

Lemma run_without_conversations_quit :
  run 2 (ex_world ex_new_chat [IListing (ex_listing 0 0 []); IModels [ex_model];
                               ILine "/quit"])
  = talk_loop 1
      (with_out
         (Remote (Call.list_conversations 0 20) :: Remote Call.list_models
            :: banner "New Chat")
         (with_self_state (Some 1%nat)
            (with_states [ex_new_chat; new_chat ex_model]
               (ex_world ex_new_chat [ILine "/quit"])))).
Proof.
  apply (run_without_conversations 0 (ex_listing 0 0 []) ex_model [ILine "/quit"]
           (ex_world ex_new_chat [IListing (ex_listing 0 0 []); IModels [ex_model];
                                  ILine "/quit"]));
    reflexivity.
Defined.

(** ** An event that brings nothing new *)

Lemma slice_from_short p s : String.length s ≤ p → slice_from p s = "".
Proof.
  revert s. induction p as [|p IH]; intros s Hs.
  - destruct s; [done | simpl in Hs; lia].
  - destruct s as [|c s]; [done|]. simpl in *. apply IH. lia.
Qed.

(** X19.  An event whose text is not longer than the cursor emits no text
    and leaves the cursor where it is; the assistant prompt and the
    conversation id are assigned all the same. *)
Theorem print_reply_event_nothing_new p e m w s st u c :
  self_state w = Some s →
  states w !! s = Some st →
  prompts w !! user_prompt st = Some u →
  prompts w !! chatgpt_prompt st = Some c →
  truthy (ev_error e) = false →
  ev_message e = Some m →
  String.length (msg_part0 m) ≤ p →
  print_reply_event p e w
  = Ok p
      (with_out (out w ++ (if msg_end_turn m then [Say plain "" nl] else []))
         (with_prompts
            (<[chatgpt_prompt st := reconciled (message_id u) m]> (prompts w))
            (with_states
               (<[s := {| title := title st;
                          conversation_id := ev_conversation_id e;
                          model_slug := model_slug st;
                          user_prompt := user_prompt st;
                          chatgpt_prompt := chatgpt_prompt st |}]> (states w))
               w))).
Proof.
  intros Hs Hst Hu Hc He Hm Hshort.
  erewrite print_reply_event_Ok by done.
  rewrite (slice_from_short p (msg_part0 m) Hshort).
  cbn [String.length]. rewrite Nat.add_0_r. reflexivity.
Qed.

Lemma print_reply_event_nothing_new_resent :
  print_reply_event 5 (ex_event "Hello") (ex_world ex_new_chat [])
  = Ok 5%nat
      {| prompts :=
           [ {| prompt := None; parent_id := Some "u-parent";
                message_id := Some "u-own" |};
             {| prompt := Some "Hello"; parent_id := Some "u-own";
                message_id := Some "a-1" |} ];
         states :=
           [ {| title := Some "New Chat"; conversation_id := Some "conv-1";
                model_slug := Some "gpt";
                user_prompt := default_user_prompt;
                chatgpt_prompt := default_chatgpt_prompt |} ];
         self_state := Some 0%nat; script := []; out := [];
         access_token := "token"; version := "1.0" |}.
Proof.
  apply (print_reply_event_nothing_new 5 (ex_event "Hello") (ex_message "a-1" "Hello")
           (ex_world ex_new_chat []) 0 ex_new_chat
           {| prompt := None; parent_id := Some "u-parent"; message_id := Some "u-own" |}
           {| prompt := None; parent_id := Some "a-parent"; message_id := Some "a-own" |});
    first [reflexivity | vm_compute; lia].
Defined.
